(** * Slidef front end: theme manager, slide index and slide viewer

    A shallow embedding of the three browser scripts

    - [public/js/theme.js]  (class [ThemeManager] and the OS-preference listener),
    - [docs/js/index.js]    (class [SlideIndex], the import flow),
    - [docs/js/viewer.js]   (class [SlidefViewer], navigation),

    followed by the properties established about them.

    Conventions of the embedding.

    - A JavaScript number is a [JS.number]: a rational kept in lowest terms,
      one of the two infinities, or NaN.  The sign of zero is not tracked.
      The operations [add], [sub], [mul] and [div] are exact; that is what
      the scripts compute on page numbers and on times in milliseconds,
      which are integers far below 2^53.  Positions on the progress bar,
      the geometry of the scroll container and the percentage of the
      progress bar are fractions: there every operation is rounded to the
      nearest double ([add64], [sub64], [mul64], [div64], after
      [round64]) as the browser does.
    - The page is a store of elements keyed by the selector the script uses
      to reach them ([getElementById] ids, [querySelector] selectors).  An
      element the script holds in a field is that key, so two references to
      one element alias as they do in the browser.
    - [localStorage] and the query string are finite maps from strings to
      strings.
    - A method that mutates [this] and the page is a function from the state
      before to the state after; what the browser or the server supplies
      (responses, geometry, events) is an explicit argument. *)

From Stdlib Require Import ZArith QArith Qround Qabs String Ascii DecimalString Lia.
From Stdlib Require DecimalPos.
From stdpp Require Import base option strings gmap.

Local Open Scope Z_scope.

Set Warnings "-register-all".

(* ===================================================================== *)
(** * JavaScript values *)
(* ===================================================================== *)

Module JS.

(** ** Numbers *)

Inductive number : Type :=
| NaN
| PosInf
| NegInf
| Fin (q : Q).

(** A finite result, stored in lowest terms so that two equal numbers are
    the same term. *)
Definition fin (q : Q) : number := Fin (Qred q).

Definition of_Z (z : Z) : number := Fin (inject_Z z).

Definition of_nat (n : nat) : number := of_Z (Z.of_nat n).

Definition Qsign (q : Q) : Z := Z.sgn (Qnum q).

Definition neg (a : number) : number :=
  match a with
  | NaN => NaN
  | PosInf => NegInf
  | NegInf => PosInf
  | Fin q => fin (- q)
  end.

(** [a + b] *)
Definition add (a b : number) : number :=
  match a, b with
  | NaN, _ | _, NaN => NaN
  | PosInf, NegInf | NegInf, PosInf => NaN
  | PosInf, _ | _, PosInf => PosInf
  | NegInf, _ | _, NegInf => NegInf
  | Fin x, Fin y => fin (x + y)
  end.

(** [a - b] *)
Definition sub (a b : number) : number := add a (neg b).

Definition signed_inf (s : Z) : number :=
  match s with
  | Z0 => NaN
  | Zpos _ => PosInf
  | Zneg _ => NegInf
  end.

Definition sign (a : number) : Z :=
  match a with
  | NaN => 0
  | PosInf => 1
  | NegInf => -1
  | Fin q => Qsign q
  end.

(** [a * b]: an infinity times zero is NaN. *)
Definition mul (a b : number) : number :=
  match a, b with
  | NaN, _ | _, NaN => NaN
  | Fin x, Fin y => fin (x * y)
  | _, _ => signed_inf (sign a * sign b)
  end.

(** [a / b]: a non-zero number over zero is an infinity of the sign of
    the numerator, zero over zero is NaN. *)
Definition div (a b : number) : number :=
  match a, b with
  | NaN, _ | _, NaN => NaN
  | Fin x, Fin y =>
      if Qeq_bool y 0 then signed_inf (Qsign x) else fin (x / y)
  | Fin _, _ => of_Z 0
  | _, Fin y => if Qeq_bool y 0 then a else signed_inf (sign a * Qsign y)
  | _, _ => NaN
  end.

(** ** Rounding to a double *)

(** [num / den] rounded to the nearest integer, a tie to the even one;
    [num >= 0] and [den > 0]. *)
Definition round_half_even (num den : Z) : Z :=
  let m := num / den in
  let twice := 2 * (num mod den) in
  if twice <? den then m
  else if den <? twice then m + 1
  else if Z.even m then m else m + 1.

Definition pow2 (e : Z) : Q :=
  if 0 <=? e then inject_Z (2 ^ e) else 1 # Z.to_pos (2 ^ (- e)).

(** The binary64 number nearest to [q] (IEEE 754 round to nearest, ties
    to even): a 53-bit significand [m] times [2 ^ e] with [e >= -1074]
    (below [2 ^ -1022] the numbers are subnormal), and an infinity from
    [2 ^ 1024 - 2 ^ 970] on.  [k] is the integer part of the binary
    logarithm of the magnitude of [q]. *)
Definition round64 (q : Q) : number :=
  let n := Qnum q in
  let d := Zpos (Qden q) in
  if n =? 0 then of_Z 0
  else
    let a := Z.abs n in
    let k0 := Z.log2 a - Z.log2 d in
    let below :=
      if 0 <=? k0 then a <? d * 2 ^ k0 else a * 2 ^ (- k0) <? d in
    let k := if below then k0 - 1 else k0 in
    let e := Z.max (k - 52) (-1074) in
    let m :=
      if 0 <=? e then round_half_even a (d * 2 ^ e)
      else round_half_even (a * 2 ^ (- e)) d in
    if (971 <? e) || ((e =? 971) && (m =? 2 ^ 53)) then
      if n <? 0 then NegInf else PosInf
    else fin (inject_Z (Z.sgn n * m) * pow2 e).

Definition rounded (a : number) : number :=
  match a with
  | Fin q => round64 q
  | _ => a
  end.

(** [a + b], [a - b], [a * b] and [a / b] on doubles: the exact result,
    rounded. *)
Definition add64 (a b : number) : number := rounded (add a b).

Definition sub64 (a b : number) : number := rounded (sub a b).

Definition mul64 (a b : number) : number := rounded (mul a b).

Definition div64 (a b : number) : number := rounded (div a b).

(** [a < b]; every comparison with NaN is false. *)
Definition ltb (a b : number) : bool :=
  match a, b with
  | NaN, _ | _, NaN => false
  | _, NegInf => false
  | NegInf, _ => true
  | PosInf, _ => false
  | _, PosInf => true
  | Fin x, Fin y => negb (Qle_bool y x)
  end.

(** [a > b] *)
Definition gtb (a b : number) : bool := ltb b a.

(** [a <= b] *)
Definition leb (a b : number) : bool :=
  match a, b with
  | NaN, _ | _, NaN => false
  | NegInf, _ => true
  | _, PosInf => true
  | _, NegInf => false
  | PosInf, _ => false
  | Fin x, Fin y => Qle_bool x y
  end.

(** [a === b] on numbers; NaN is not equal to itself. *)
Definition eqb (a b : number) : bool :=
  match a, b with
  | PosInf, PosInf | NegInf, NegInf => true
  | Fin x, Fin y => Qeq_bool x y
  | _, _ => false
  end.

(** [Math.max(a, b)] and [Math.min(a, b)]: NaN as soon as one argument is. *)
Definition Math_max (a b : number) : number :=
  match a, b with
  | NaN, _ | _, NaN => NaN
  | _, _ => if ltb a b then b else a
  end.

Definition Math_min (a b : number) : number :=
  match a, b with
  | NaN, _ | _, NaN => NaN
  | _, _ => if ltb b a then b else a
  end.

(** [Math.ceil(a)] *)
Definition Math_ceil (a : number) : number :=
  match a with
  | Fin q => of_Z (Qceiling q)
  | _ => a
  end.

(** [Math.floor(a)] *)
Definition Math_floor (a : number) : number :=
  match a with
  | Fin q => of_Z (Qfloor q)
  | _ => a
  end.

(** [Math.abs(a)] *)
Definition Math_abs (a : number) : number :=
  match a with
  | NaN => NaN
  | PosInf | NegInf => PosInf
  | Fin q => fin (Qabs q)
  end.

(** The integer a number denotes, when it is one. *)
Definition to_integer (a : number) : option Z :=
  match a with
  | Fin q => if Pos.eqb (Qden q) 1 then Some (Qnum q) else None
  | _ => None
  end.

(** ** Strings *)

(** [String(z)] for an integer. *)
Definition string_of_Z (z : Z) : string :=
  NilEmpty.string_of_int (Z.to_int z).

(** [String(a)]: ["NaN"], ["Infinity"], ["-Infinity"] and the decimal
    numeral of an integer.  Every number the scripts turn into text is an
    integer or NaN (see [showSlide_integral] below).  For a fraction the
    browser prints the shortest decimal that reads back as the same
    double, which exact rationals cannot reproduce; the embedding writes
    numerator, a slash, denominator there. *)
Definition to_string (a : number) : string :=
  match a with
  | NaN => "NaN"
  | PosInf => "Infinity"
  | NegInf => "-Infinity"
  | Fin q =>
      if Pos.eqb (Qden q) 1 then string_of_Z (Qnum q)
      else string_of_Z (Qnum q) +:+ "/" +:+ string_of_Z (Zpos (Qden q))
  end.

(** Truthiness of a string: only the empty string is falsy. *)
Definition truthy (s : string) : bool :=
  match s with
  | EmptyString => false
  | String _ _ => true
  end.

(** [v || d] where [v] is a string, [null] or [undefined]. *)
Definition or_else (v : option string) (d : string) : string :=
  match v with
  | Some s => if truthy s then s else d
  | None => d
  end.

(** [!v] for the same kind of value. *)
Definition falsy (v : option string) : bool :=
  match v with
  | Some s => negb (truthy s)
  | None => true
  end.

(** [s.padStart(n, "0")] *)
Fixpoint zeros (n : nat) : string :=
  match n with
  | O => ""
  | S n' => "0" +:+ zeros n'
  end.

Definition padStart0 (n : nat) (s : string) : string :=
  zeros (n - String.length s) +:+ s.

(** [s.split(c)] for a one-character separator. *)
Fixpoint split_go (c : ascii) (cur : string) (s : string) : list string :=
  match s with
  | EmptyString => [cur]
  | String a s' =>
      if Ascii.eqb a c then cur :: split_go c "" s'
      else split_go c (cur +:+ String a "") s'
  end.

Definition split (c : ascii) (s : string) : list string := split_go c "" s.

(** ** [parseInt(s, 10)] *)

(** Leading white space that [parseInt] skips (the ASCII part of it). *)
Definition is_space (c : ascii) : bool :=
  let n := N.of_nat (nat_of_ascii c) in
  (N.eqb n 32 || (N.leb 9 n && N.leb n 13))%bool.

Fixpoint skip_space (s : string) : string :=
  match s with
  | String c s' => if is_space c then skip_space s' else s
  | EmptyString => s
  end.

Definition digit_of (c : ascii) : option Z :=
  let n := Z.of_nat (nat_of_ascii c) in
  if (48 <=? n) && (n <=? 57) then Some (n - 48) else None.

(** The value of the longest prefix of decimal digits, [None] when the
    string does not start with a digit. *)
Fixpoint digits (s : string) (acc : option Z) : option Z :=
  match s with
  | String c s' =>
      match digit_of c with
      | Some d => digits s' (Some (10 * default 0 acc + d))
      | None => acc
      end
  | EmptyString => acc
  end.

Definition parseInt (s : string) : number :=
  let s1 := skip_space s in
  let '(negative, s2) :=
    match s1 with
    | String "-"%char r => (true, r)
    | String "+"%char r => (false, r)
    | _ => (false, s1)
    end in
  match digits s2 None with
  | None => NaN
  | Some n => of_Z (if negative then - n else n)
  end.

(** [arr[i]]: [undefined] unless [i] is an index of the array. *)
Definition index {A : Type} (arr : list A) (i : number) : option A :=
  match to_integer i with
  | Some z => if z <? 0 then None else arr !! Z.to_nat z
  | None => None
  end.

End JS.

(* ===================================================================== *)
(** * The page: elements, classes, attributes, inline style *)
(* ===================================================================== *)

Module DOM.

(** A value written to an inline style property: a literal text, or one
    of the template literals the scripts build from a number. *)
Inductive css : Type :=
| CssText (s : string)
| CssPercent (n : JS.number)
| CssPx (n : JS.number)
| CssSeconds (n : JS.number).

Inductive Element : Type :=
  mkElement {
    tagName : string;
    classList : gset string;
    attributes : gmap string string;
    style : gmap string css;
    textContent : string;
    children : list Element
  }.

(** [document.createElement(tag)] *)
Definition createElement (tag : string) : Element :=
  mkElement tag ∅ ∅ ∅ "" [].

Definition set_classList (c : gset string) (e : Element) : Element :=
  mkElement (tagName e) c (attributes e) (style e) (textContent e) (children e).

Definition set_attributes (a : gmap string string) (e : Element) : Element :=
  mkElement (tagName e) (classList e) a (style e) (textContent e) (children e).

Definition set_style (s : gmap string css) (e : Element) : Element :=
  mkElement (tagName e) (classList e) (attributes e) s (textContent e) (children e).

Definition set_textContent (t : string) (e : Element) : Element :=
  mkElement (tagName e) (classList e) (attributes e) (style e) t (children e).

Definition set_children (l : list Element) (e : Element) : Element :=
  mkElement (tagName e) (classList e) (attributes e) (style e) (textContent e) l.

(** [e.classList.add(c)], [.remove(c)], [.contains(c)] *)
Definition classList_add (c : string) (e : Element) : Element :=
  set_classList ({[c]} ∪ classList e) e.

Definition classList_remove (c : string) (e : Element) : Element :=
  set_classList (classList e ∖ {[c]}) e.

Definition classList_contains (c : string) (e : Element) : bool :=
  bool_decide (c ∈ classList e).

(** [e.className = c] for a single class name. *)
Definition set_className (c : string) (e : Element) : Element :=
  set_classList {[c]} e.

(** [e.setAttribute(k, v)], also the reflected properties ([src], [alt],
    [href], [loading], [title]). *)
Definition setAttribute (k v : string) (e : Element) : Element :=
  set_attributes (<[k := v]> (attributes e)) e.

Definition getAttribute (k : string) (e : Element) : option string :=
  attributes e !! k.

(** [e.style.p = v]: the assigned value is recorded as the script wrote
    it.  Whether it is valid CSS is not judged here; a browser keeps the
    former value of the property when it is not (as for [NaN%]). *)
Definition setStyle (p : string) (v : css) (e : Element) : Element :=
  set_style (<[p := v]> (style e)) e.

(** [e.appendChild(c)] *)
Definition appendChild (c : Element) (e : Element) : Element :=
  set_children (children e ++ [c]) e.

(** What a reflected string property receives when the script assigns a
    value that may be [undefined]: the text ["undefined"]. *)
Definition DOMString (v : option string) : string := default "undefined" v.

(** The elements the script reaches by id or selector. *)
Abbreviation Document := (gmap string Element).

(** Apply [f] to the element under [key].  The scripts dereference the
    result of [getElementById] without a null test, so on a page lacking
    the element they stop with a TypeError; such pages are outside the
    embedding (the properties below assume [has_elements]), where the
    update is then the identity. *)
Definition update (key : string) (f : Element -> Element) (d : Document)
  : Document := alter f key d.
Arguments update : simpl never.

(** [classList.contains] on the element under [key]. *)
Definition has_class (key c : string) (d : Document) : bool :=
  match d !! key with
  | Some e => classList_contains c e
  | None => false
  end.
Arguments has_class : simpl never.

(** The page holds an element under each of [keys]. *)
Definition has_elements (keys : list string) (d : Document) : bool :=
  forallb (fun k => bool_decide (is_Some (d !! k))) keys.

(** [document.documentElement]: always there. *)
Definition documentElement (d : Document) : Element :=
  default (createElement "html") (d !! "html").

Definition update_documentElement (f : Element -> Element) (d : Document)
  : Document := <["html" := f (documentElement d)]> d.

End DOM.

Import DOM.

(* ===================================================================== *)
(** * public/js/theme.js *)
(* ===================================================================== *)

Module Theme.

Definition THEME_KEY : string := "slidef-theme".
Definition THEME_DARK : string := "dark".
Definition THEME_LIGHT : string := "light".

(** The [ThemeManager] instance together with what it reads and writes:
    [localStorage], the state of the media query
    [(prefers-color-scheme: dark)] and the page. *)
Record State : Type := mkState {
  currentTheme : string;
  localStorage : gmap string string;
  prefersDark : bool;
  document : Document
}.

Definition set_currentTheme (t : string) (s : State) : State :=
  mkState t (localStorage s) (prefersDark s) (document s).

Definition set_localStorage (l : gmap string string) (s : State) : State :=
  mkState (currentTheme s) l (prefersDark s) (document s).

Definition set_document (d : Document) (s : State) : State :=
  mkState (currentTheme s) (localStorage s) (prefersDark s) d.

Definition getSystemTheme (s : State) : string :=
  if prefersDark s then THEME_DARK else THEME_LIGHT.

Definition getStoredTheme (s : State) : option string :=
  localStorage s !! THEME_KEY.

Definition setStoredTheme (theme : string) (s : State) : State :=
  set_localStorage (<[THEME_KEY := theme]> (localStorage s)) s.

Definition updateIcons (s : State) : State :=
  match document s !! ".sun-icon", document s !! ".moon-icon" with
  | Some _, Some _ =>
      if String.eqb (currentTheme s) THEME_DARK then
        set_document
          (update ".moon-icon" (classList_remove "hidden")
             (update ".sun-icon" (classList_add "hidden") (document s))) s
      else
        set_document
          (update ".moon-icon" (classList_add "hidden")
             (update ".sun-icon" (classList_remove "hidden") (document s))) s
  | _, _ => s
  end.

Definition apply (s : State) : State :=
  updateIcons
    (set_document
       (update_documentElement (setAttribute "data-theme" (currentTheme s))
          (document s)) s).

Definition toggle (s : State) : State :=
  let s1 :=
    set_currentTheme
      (if String.eqb (currentTheme s) THEME_DARK then THEME_LIGHT
       else THEME_DARK) s in
  let s2 := setStoredTheme (currentTheme s1) s1 in
  apply s2.

(** [new ThemeManager()] on a page with the given storage, OS preference
    and elements. *)
Definition new_ThemeManager (storage : gmap string string) (dark : bool)
    (d : Document) : State :=
  let s0 := mkState "" storage dark d in
  apply (set_currentTheme
           (JS.or_else (getStoredTheme s0) (getSystemTheme s0)) s0).

(** The listener of the media query's [change] event; [matches] is
    [e.matches].  The listener reads the event only, so [prefersDark] is
    left to whoever delivers the event. *)
Definition on_system_theme_change (matches : bool) (s : State) : State :=
  if JS.falsy (localStorage s !! THEME_KEY) then
    apply (set_currentTheme (if matches then THEME_DARK else THEME_LIGHT) s)
  else s.

(** The theme in force on the page: the [data-theme] attribute of the
    root element. *)
Definition applied (s : State) : option string :=
  getAttribute "data-theme" (documentElement (document s)).

End Theme.

(* ===================================================================== *)
(** * Exceptions and [fetch] *)
(* ===================================================================== *)

Module Net.

(** A call returns a value or throws an exception with a message. *)
Inductive result (A : Type) : Type :=
| Return (a : A)
| Throw (message : string).
Arguments Return {A} a.
Arguments Throw {A} message.

(** The outcome of [response.json()]. *)
Inductive Body (A : Type) : Type :=
| Json (a : A)
| BadJson (message : string).
Arguments Json {A} a.
Arguments BadJson {A} message.

(** The outcome of [await fetch(...)]: the promise rejects, or a response
    arrives with its [ok] flag and its body. *)
Inductive Fetch (A : Type) : Type :=
| NetworkError (message : string)
| Response (ok : bool) (body : Body A).
Arguments NetworkError {A} message.
Arguments Response {A} ok body.

End Net.

Import Net.

(* ===================================================================== *)
(** * docs/js/index.js *)
(* ===================================================================== *)

Module Index.

Record SlideSummary : Type := mkSlide {
  name : string;
  title : option string;
  description : option string;
  pageCount : Z;
  format : option string;
  createdAt : string
}.

(** A listing document [{ slides: [...] }]; [None] when the field is
    missing. *)
Definition Listing : Type := option (list SlideSummary).

(** The body of the import endpoint's answer: its [error] field, if any. *)
Definition ImportBody : Type := option string.

(** What is reachable from the listing code at one moment. *)
Record Network : Type := mkNetwork {
  api_slides : Fetch Listing;           (* GET /api/slides *)
  slides_index_json : Fetch Listing;    (* GET slides-index.json *)
  SLIDES_DATA : option Listing          (* window.__SLIDES_DATA__ *)
}.

(** ** The controller and its page *)

Record State : Type := mkState {
  isDevMode : bool;
  isImporting : option bool;            (* undefined until the first import *)
  currentEditingSlide : option SlideSummary;
  document : Document;
  alerts : list string;                 (* the [alert] dialogs shown, oldest first *)
  console : list string                 (* console.error / console.log lines *)
}.

Definition set_isDevMode (b : bool) (s : State) : State :=
  mkState b (isImporting s) (currentEditingSlide s) (document s) (alerts s) (console s).

Definition set_isImporting (b : bool) (s : State) : State :=
  mkState (isDevMode s) (Some b) (currentEditingSlide s) (document s) (alerts s) (console s).

Definition set_document (d : Document) (s : State) : State :=
  mkState (isDevMode s) (isImporting s) (currentEditingSlide s) d (alerts s) (console s).

Definition alert (m : string) (s : State) : State :=
  mkState (isDevMode s) (isImporting s) (currentEditingSlide s) (document s)
    (alerts s ++ [m]) (console s).

Definition console_log (m : string) (s : State) : State :=
  mkState (isDevMode s) (isImporting s) (currentEditingSlide s) (document s)
    (alerts s) (console s ++ [m]).

Definition on (key : string) (f : Element -> Element) (s : State) : State :=
  set_document (update key f (document s)) s.

(** The ids behind the fields set in the constructor. *)
Definition slidesContainer : string := "slides-container".
Definition emptyState : string := "empty-state".
Definition importBtn : string := "import-btn".
Definition importModal : string := "import-modal".
Definition importForm : string := "import-form".
Definition importProgress : string := "import-progress".
Definition progressMessage : string := "progress-message".

Definition elements : list string :=
  [slidesContainer; emptyState; importBtn; importModal; importForm;
   importProgress; progressMessage].

(** The page holds every element the listing and the import flow touch. *)
Definition page_ready (s : State) : bool := has_elements elements (document s).

Section WithEnvironment.

(** [window.BASE_URL || ""] *)
Variable BASE_URL : string.

(** [formatDate] reads the clock and the locale; its text is taken from
    the environment. *)
Variable formatDate : string -> string.

Definition detectDevMode (probe : Fetch Listing) (s : State) : State :=
  match probe with
  | Response true _ =>
      on importBtn (classList_remove "hidden") (set_isDevMode true s)
  | Response false _ => s
  | NetworkError _ => set_isDevMode false s
  end.

Definition loadSlides (net : Network) (s : State) : result Listing :=
  if isDevMode s then
    match api_slides net with
    | NetworkError m => Throw m
    | Response true (Json data) => Return data
    | Response true (BadJson m) => Throw m
    | Response false _ => Throw "Failed to load slides from API"
    end
  else
    match SLIDES_DATA net with
    | Some data => Return data
    | None =>
        match slides_index_json net with
        | Response true (Json index) => Return index
        | _ => Return (Some [])
        end
    end.

Definition showEmptyState (s : State) : State :=
  on slidesContainer (classList_add "hidden")
    (on emptyState (classList_remove "hidden") s).

Definition createSlideActions (slide : SlideSummary) : Element :=
  let editBtn :=
    setAttribute "title" "Edit slide"
      (set_classList {["slide-action-btn"; "edit"]} (createElement "button")) in
  let deleteBtn :=
    setAttribute "title" "Delete slide"
      (set_classList {["slide-action-btn"; "delete"]} (createElement "button")) in
  appendChild deleteBtn
    (appendChild editBtn
       (set_className "slide-actions" (createElement "div"))).

Definition createSlideCard (s : State) (slide : SlideSummary) : Element :=
  let shown := JS.or_else (title slide) (name slide) in
  let thumbnail :=
    setAttribute "loading" "lazy"
      (setAttribute "alt" (shown +:+ " thumbnail")
         (setAttribute "src"
            (BASE_URL +:+ "/slides/" +:+ name slide +:+ "/images/slide-001."
               +:+ JS.or_else (format slide) "webp")
            (set_className "slide-thumbnail" (createElement "img")))) in
  let name_ :=
    set_textContent shown (set_className "slide-name" (createElement "h3")) in
  let pages :=
    set_textContent (JS.string_of_Z (pageCount slide) +:+ " slides")
      (set_className "slide-pages" (createElement "div")) in
  let date :=
    set_textContent (formatDate (createdAt slide))
      (set_className "slide-date" (createElement "div")) in
  let meta :=
    appendChild date
      (appendChild pages (set_className "slide-meta" (createElement "div"))) in
  let info :=
    appendChild meta
      (appendChild name_ (set_className "slide-info" (createElement "div"))) in
  let card :=
    appendChild info
      (appendChild thumbnail
         (setAttribute "href" (name slide +:+ "?from=list")
            (set_className "slide-card" (createElement "a")))) in
  let card :=
    if isDevMode s then appendChild (createSlideActions slide) card
    else card in
  appendChild card
    (setStyle "position" (CssText "relative") (createElement "div")).

(** The cards of a listing, each with its staggered animation delay. *)
Definition cards (s : State) (slides : list SlideSummary) : list Element :=
  imap (fun index slide =>
          setStyle "animationDelay"
            (CssSeconds (JS.mul (JS.of_nat index) (JS.Fin (1 # 10))))
            (createSlideCard s slide))
       slides.

(** [renderSlides(slides)]; reading [slides.length] of [undefined] is
    a TypeError. *)
Definition renderSlides (slides : Listing) (s : State) : result State :=
  match slides with
  | None =>
      Throw "Cannot read properties of undefined (reading 'length')"
  | Some [] => Return (showEmptyState s)
  | Some l =>
      Return
        (on slidesContainer (set_children (cards s l))
           (on slidesContainer (classList_remove "hidden")
              (on emptyState (classList_add "hidden") s)))
  end.

Definition openImportModal (s : State) : State :=
  on importProgress (classList_add "hidden")
    (on importForm (classList_remove "hidden")
       (on importModal (classList_remove "hidden") s)).

Definition closeImportModal (s : State) : State :=
  on importModal (classList_add "hidden") s.

Definition reloadSlides (net : Network) (s : State) : State :=
  match loadSlides net s with
  | Return slides =>
      match renderSlides slides s with
      | Return s' => s'
      | Throw m => console_log ("Failed to reload slides: " +:+ m) s
      end
  | Throw m => console_log ("Failed to reload slides: " +:+ m) s
  end.

(** ** The import flow *)

(** What [handleImport] leaves in the timer queue, each after 1000 ms. *)
Inductive Timer : Type :=
| CloseAndReload
| CheckImportStatus (error_message : string).

Definition timer_delay (t : Timer) : Z := 1000.

(** The message of the error the [try] block of [handleImport] ends
    with, [None] when it runs to its end. *)
Definition import_error (resp : Fetch ImportBody) : option string :=
  match resp with
  | NetworkError m => Some m
  | Response false (Json error) => Some (JS.or_else error "Import failed")
  | Response false (BadJson m) => Some m
  | Response true (BadJson m) => Some m
  | Response true (Json _) => None
  end.

(** [handleImport()] up to its [await fetch]: the state while
    [POST /api/import] is in flight.  Other handlers can run in it. *)
Definition handleImport_request (s : State) : State :=
  let s1 :=
    on progressMessage (set_textContent "Importing PDF...")
      (on importProgress (classList_remove "hidden")
         (on importForm (classList_add "hidden") s)) in
  set_isImporting true s1.

(** [handleImport()] from the answer [resp] of the request up to the
    point where it has armed its timer. *)
Definition handleImport_response (resp : Fetch ImportBody) (s2 : State)
  : State * Timer :=
  match import_error resp with
  | None =>
      (set_isImporting false
         (on progressMessage (set_textContent "Import successful!") s2),
       CloseAndReload)
  | Some m =>
      (on progressMessage (set_textContent "Checking import status...")
         (console_log ("Import error: " +:+ m) s2),
       CheckImportStatus m)
  end.

(** [handleImport()] with nothing running between the request and its
    answer. *)
Definition handleImport (resp : Fetch ImportBody) (s : State)
  : State * Timer :=
  handleImport_response resp (handleImport_request s).

(** The timer callback, run with what the network answers by then. *)
Definition run_timer (t : Timer) (net : Network) (s : State) : State :=
  match t with
  | CloseAndReload => reloadSlides net (closeImportModal s)
  | CheckImportStatus m =>
      let failed (s0 : State) : State :=
        on importProgress (classList_add "hidden")
          (on importForm (classList_remove "hidden")
             (alert ("Import failed: " +:+ m) s0)) in
      let s1 :=
        match loadSlides net s with
        | Return slides =>
            match renderSlides slides s with
            | Return s' => closeImportModal s'
            | Throw _ => failed s
            end
        | Throw _ => failed s
        end in
      set_isImporting false s1
  end.

(** The whole flow: the request, the delay, the callback. *)
Definition import_flow (resp : Fetch ImportBody) (net : Network)
    (s : State) : State :=
  let '(s1, t) := handleImport resp s in run_timer t net s1.

(** ** Start-up *)

(** [new SlideIndex()], before [init] runs. *)
Definition new_SlideIndex (d : Document) : State :=
  mkState false None None d [] [].

(** [connectLiveReload()]: whether a connection is opened. *)
Definition connectLiveReload (s : State) : bool := isDevMode s.

(** [init()]: [probe] answers the request of [detectDevMode], [net] is what
    [loadSlides] finds afterwards.  [setupEventListeners] registers the
    handlers embedded here as functions. *)
Definition init (probe : Fetch Listing) (net : Network) (s : State) : State :=
  let s := detectDevMode probe s in
  let failed (m : string) : State :=
    showEmptyState (console_log ("Failed to load slides: " +:+ m) s) in
  match loadSlides net s with
  | Return slides =>
      match renderSlides slides s with
      | Return s' => s'
      | Throw m => failed m
      end
  | Throw m => failed m
  end.

(** ** Editing and deleting *)

Definition editModal : string := "edit-modal".
Definition editTitle : string := "edit-title".
Definition editDescription : string := "edit-description".
Definition editCreatedAt : string := "edit-created-at".

Definition edit_elements : list string :=
  [editModal; editTitle; editDescription; editCreatedAt].

Definition set_currentEditingSlide (e : option SlideSummary) (s : State)
  : State :=
  mkState (isDevMode s) (isImporting s) e (document s) (alerts s) (console s).

(** [input.value = v] *)
Definition set_value (v : string) (e : Element) : Element :=
  setAttribute "value" v e.

Definition handleEditSlide (slide : SlideSummary) (s : State) : State :=
  let s := set_currentEditingSlide (Some slide) s in
  let s := on editTitle (set_value (JS.or_else (title slide) (name slide))) s in
  let s := on editDescription (set_value (JS.or_else (description slide) "")) s in
  let s := on editCreatedAt (set_value (createdAt slide)) s in
  on editModal (classList_remove "hidden") s.

Definition closeEditModal (s : State) : State :=
  set_currentEditingSlide None (on editModal (classList_add "hidden") s).

(** The address [handleEditSubmit] sends its PUT request to, if it sends
    one. *)
Definition edit_request (s : State) : option string :=
  match currentEditingSlide s with
  | Some slide => Some ("/api/slides/" +:+ name slide)
  | None => None
  end.

(** [handleEditSubmit()]: [resp] answers the PUT request (its body is not
    read), [net] is what [reloadSlides] finds afterwards. *)
Definition handleEditSubmit {A : Type} (resp : Fetch A) (net : Network)
    (s : State) : State :=
  match currentEditingSlide s with
  | None => s
  | Some _ =>
      let failed (m : string) : State :=
        alert ("Failed to update slide: " +:+ m)
          (console_log ("Edit error: " +:+ m) s) in
      match resp with
      | NetworkError m => failed m
      | Response false _ => failed "Failed to update slide"
      | Response true _ => reloadSlides net (closeEditModal s)
      end
  end.

(** [handleDeleteSlide(slide)]: [confirmed] is the answer to the [confirm]
    dialog, [resp] answers the DELETE request. *)
Definition handleDeleteSlide {A : Type} (confirmed : bool) (resp : Fetch A)
    (net : Network) (slide : SlideSummary) (s : State) : State :=
  if negb confirmed then s
  else
    let failed (m : string) : State :=
      alert ("Failed to delete slide: " +:+ m)
        (console_log ("Delete error: " +:+ m) s) in
    match resp with
    | NetworkError m => failed m
    | Response false _ => failed "Failed to delete slide"
    | Response true _ => reloadSlides net s
    end.

(** ** Live reload *)



(** The [onerror] handler: the connection is closed; the state after, and
    whether a reconnection has been scheduled (3000 ms later). *)
Definition on_live_reload_error (s : State) : State * bool :=
  (console_log "Live reload connection error" s, isDevMode s).

End WithEnvironment.

(** [formatDate(isoString)], with the two things it takes from the browser
    made arguments: [date] and [now] are the times of [new Date(isoString)]
    and [new Date()] in milliseconds (NaN for an unreadable date), and
    [locale_date] is [date.toLocaleDateString()]. *)
Definition formatDate (now date : JS.number) (locale_date : string) : string :=
  let diffMs := JS.sub now date in
  let diffDays :=
    JS.Math_floor (JS.div diffMs (JS.of_Z (1000 * 60 * 60 * 24))) in
  if JS.eqb diffDays (JS.of_Z 0) then "Today"
  else if JS.eqb diffDays (JS.of_Z 1) then "Yesterday"
  else if JS.ltb diffDays (JS.of_Z 7) then
    JS.to_string diffDays +:+ " days ago"
  else if JS.ltb diffDays (JS.of_Z 30) then
    JS.to_string (JS.Math_floor (JS.div diffDays (JS.of_Z 7))) +:+ " weeks ago"
  else if JS.ltb diffDays (JS.of_Z 365) then
    JS.to_string (JS.Math_floor (JS.div diffDays (JS.of_Z 30))) +:+ " months ago"
  else locale_date.

(** ** Reading a card back *)

(** The link inside a card wrapper built by [createSlideCard]. *)
Definition card_link (wrapper : Element) : option Element :=
  head (children wrapper).

(** The [href] of a card. *)
Definition card_href (wrapper : Element) : option string :=
  match card_link wrapper with
  | Some a => getAttribute "href" a
  | None => None
  end.

(** The [src] of the thumbnail of a card: the first child of its link. *)
Definition card_thumbnail (wrapper : Element) : option string :=
  match card_link wrapper with
  | Some a =>
      match head (children a) with
      | Some img => getAttribute "src" img
      | None => None
      end
  | None => None
  end.

(** The cards now in the listing container. *)
Definition listed (s : State) : list Element :=
  match document s !! slidesContainer with
  | Some c => children c
  | None => []
  end.

End Index.

(* ===================================================================== *)
(** * docs/js/viewer.js *)
(* ===================================================================== *)

(** Embedded: the constructor, [init], [loadMetadata], [showControls], the
    keyboard, wheel, progress-bar and history handlers, the navigation
    methods, scroll mode and the overview grid.  The share dialog's URL
    building, fullscreen, the clipboard and the image [load]/[error]
    listeners do not take part in navigation and are left out; of the share
    dialog only its [hidden] class and [closeShareModal] appear. *)

Module Viewer.

Import JS.

Record Metadata : Type := mkMetadata {
  name : string;
  title : option string;
  pageCount : Z;
  format : option string
}.

(** The [SlidefViewer] instance (first seven fields) and the parts of the
    browser it reads and writes. *)
Record State : Type := mkState {
  slideName : string;
  currentSlide : number;
  totalSlides : Z;
  slideImages : list string;
  metadata : option Metadata;           (* null until loadMetadata *)
  hideControlsTimer : bool;             (* a timer has been armed *)
  wheelThrottleTimer : bool;            (* non-null: a throttle window is open *)
  search : gmap string string;          (* window.location.search *)
  document_title : string;
  document : Document;
  scrolledIntoView : option nat;        (* index of the last .scroll-slide scrolled to *)
  console : list string
}.

Definition set_currentSlide (n : number) (s : State) : State :=
  mkState (slideName s) n (totalSlides s) (slideImages s) (metadata s)
    (hideControlsTimer s) (wheelThrottleTimer s) (search s)
    (document_title s) (document s) (scrolledIntoView s) (console s).

Definition set_hideControlsTimer (b : bool) (s : State) : State :=
  mkState (slideName s) (currentSlide s) (totalSlides s) (slideImages s)
    (metadata s) b (wheelThrottleTimer s) (search s)
    (document_title s) (document s) (scrolledIntoView s) (console s).

Definition set_wheelThrottleTimer (b : bool) (s : State) : State :=
  mkState (slideName s) (currentSlide s) (totalSlides s) (slideImages s)
    (metadata s) (hideControlsTimer s) b (search s)
    (document_title s) (document s) (scrolledIntoView s) (console s).

Definition set_search (q : gmap string string) (s : State) : State :=
  mkState (slideName s) (currentSlide s) (totalSlides s) (slideImages s)
    (metadata s) (hideControlsTimer s) (wheelThrottleTimer s) q
    (document_title s) (document s) (scrolledIntoView s) (console s).

Definition set_document_title (t : string) (s : State) : State :=
  mkState (slideName s) (currentSlide s) (totalSlides s) (slideImages s)
    (metadata s) (hideControlsTimer s) (wheelThrottleTimer s) (search s)
    t (document s) (scrolledIntoView s) (console s).

Definition set_document (d : Document) (s : State) : State :=
  mkState (slideName s) (currentSlide s) (totalSlides s) (slideImages s)
    (metadata s) (hideControlsTimer s) (wheelThrottleTimer s) (search s)
    (document_title s) d (scrolledIntoView s) (console s).

Definition set_scrolledIntoView (i : nat) (s : State) : State :=
  mkState (slideName s) (currentSlide s) (totalSlides s) (slideImages s)
    (metadata s) (hideControlsTimer s) (wheelThrottleTimer s) (search s)
    (document_title s) (document s) (Some i) (console s).

Definition console_error (m : string) (s : State) : State :=
  mkState (slideName s) (currentSlide s) (totalSlides s) (slideImages s)
    (metadata s) (hideControlsTimer s) (wheelThrottleTimer s) (search s)
    (document_title s) (document s) (scrolledIntoView s) (console s ++ [m]).

Definition on (key : string) (f : Element -> Element) (s : State) : State :=
  set_document (update key f (document s)) s.

(** The ids and selectors behind the element fields. *)
Definition body : string := "body".
Definition slidesWrapper : string := "slides-wrapper".
Definition slidePrev : string := "slide-prev".
Definition slideCurrent : string := "slide-current".
Definition slideNext : string := "slide-next".
Definition slideLoading : string := "slide-loading".
Definition navAreaPrev : string := "nav-area-prev".
Definition navAreaNext : string := "nav-area-next".
Definition closeButton_parentElement : string := "close-button.parentElement".
Definition progressFill : string := "progress-fill".
Definition thumbnailPreview : string := "thumbnail-preview".
Definition thumbnailImage : string := "thumbnail-image".
Definition thumbnailNumber : string := "thumbnail-number".
Definition scrollContainer : string := "scroll-container".
Definition overviewModal : string := "overview-modal".
Definition overviewGrid : string := "overview-grid".
Definition shareModal : string := "share-modal".
Definition slideModeIcon : string := ".slide-mode-icon".
Definition scrollModeIcon : string := ".scroll-mode-icon".

Definition elements : list string :=
  [body; slidesWrapper; slidePrev; slideCurrent; slideNext; slideLoading;
   navAreaPrev; navAreaNext; closeButton_parentElement; progressFill;
   thumbnailPreview; thumbnailImage; thumbnailNumber; scrollContainer;
   overviewModal; overviewGrid; shareModal; slideModeIcon; scrollModeIcon].

(** The page holds every element the embedded methods touch. *)
Definition page_ready (d : Document) : bool := has_elements elements d.

(** ** Events and geometry, as the browser hands them over *)

Record KeyboardEvent : Type := { key : string }.
Record WheelEvent : Type := { deltaY : number }.
Record MouseEvent : Type := { clientX : number }.

(** [progressBar.getBoundingClientRect()] *)
Record DOMRect : Type := { left : number; width : number }.

(** The scroll container at one moment: its [scrollTop] and
    [clientHeight], and [offsetTop] and [offsetHeight] of its
    [.scroll-slide] child of each index. *)
Record ScrollGeometry : Type := {
  scrollTop : number;
  clientHeight : number;
  offsetTop : nat -> number;
  offsetHeight : nat -> number
}.

Section WithEnvironment.

(** [window.BASE_URL || ""] *)
Variable baseUrl : string.

(** [new SlidefViewer()], before [init] runs. *)
Definition new_SlidefViewer (pathname : string)
    (params : gmap string string) (page_title : string) (d : Document)
  : State :=
  let pathParts := List.filter truthy (split "/" pathname) in
  let slideName :=
    match last pathParts with
    | Some p =>
        if String.eqb p "viewer.html" then or_else (params !! "slide") ""
        else p
    | None => or_else (params !! "slide") ""
    end in
  mkState slideName (parseInt (or_else (params !! "page") "1")) 0 [] None
    false false params page_title d None [].

(** The image paths [loadMetadata] generates for [length] pages. *)
Definition image_paths (slideName format : string) (length : Z)
  : list string :=
  map (fun i =>
         baseUrl +:+ "/slides/" +:+ slideName +:+ "/images/slide-"
           +:+ padStart0 3 (string_of_Z (Z.of_nat i + 1)) +:+ "." +:+ format)
      (seq 0 (Z.to_nat length)).

Definition loadMetadata (resp : Fetch Metadata) (s : State) : result State :=
  match resp with
  | NetworkError m => Throw m
  | Response false _ => Throw "Failed to load metadata"
  | Response true (BadJson m) => Throw m
  | Response true (Json md) =>
      Return
        (mkState (slideName s) (currentSlide s) (pageCount md)
           (image_paths (slideName s) (or_else (format md) "webp")
              (pageCount md))
           (Some md) (hideControlsTimer s) (wheelThrottleTimer s)
           (search s) (document_title s) (document s)
           (scrolledIntoView s) (console s))
  end.

Definition showControls (s : State) : State :=
  set_hideControlsTimer true (on body (classList_add "controls-visible") s).

(** The 3-second timer of [showControls] firing. *)
Definition hideControls_timeout (s : State) : State :=
  on body (classList_remove "controls-visible") s.

(** [showSlide(slideNumber, updateHistory)].  Each [if] of the source that
    chooses what to do to one element is an [if] choosing the update of
    that element.  The last statement reads [this.metadata.title]; every
    call comes after [loadMetadata] has set [metadata], and with [metadata]
    still null the title is left as it is. *)
Definition showSlide (slideNumber : number) (updateHistory : bool)
    (s : State) : State :=
  let total := of_Z (totalSlides s) in
  let cur := Math_max (of_Z 1) (Math_min slideNumber total) in
  let s := set_currentSlide cur s in
  (* Reset wrapper transform *)
  let s := on slidesWrapper (setStyle "transform" (CssText "translateX(0)")) s in
  let s := on slidesWrapper (setStyle "transition" (CssText "none")) s in
  (* Show loading spinner *)
  let s := on slideLoading (setStyle "display" (CssText "block")) s in
  (* Update current slide *)
  let s := on slideCurrent (classList_add "loading") s in
  let s :=
    on slideCurrent
      (setAttribute "src" (DOMString (index (slideImages s) (sub cur (of_Z 1))))) s in
  (* Update previous slide *)
  let s :=
    on slidePrev
      (if gtb cur (of_Z 1) then
         fun img =>
           setStyle "display" (CssText "block")
             (setAttribute "src"
                (DOMString (index (slideImages s) (sub cur (of_Z 2))))
                (classList_add "loading" img))
       else setStyle "display" (CssText "none")) s in
  (* Update next slide *)
  let s :=
    on slideNext
      (if ltb cur total then
         fun img =>
           setStyle "display" (CssText "block")
             (setAttribute "src" (DOMString (index (slideImages s) cur))
                (classList_add "loading" img))
       else setStyle "display" (CssText "none")) s in
  (* Update progress *)
  let progress := mul64 (div64 cur total) (of_Z 100) in
  let s := on progressFill (setStyle "width" (CssPercent progress)) s in
  (* Update navigation areas *)
  let s :=
    on navAreaPrev
      (setStyle "display" (CssText (if eqb cur (of_Z 1) then "none" else "block"))) s in
  let s :=
    on navAreaNext
      (setStyle "display" (CssText (if eqb cur total then "none" else "block"))) s in
  (* Update URL *)
  let s :=
    set_search
      (if updateHistory then <["page" := to_string cur]> (search s)
       else search s) s in
  (* Update document title *)
  set_document_title
    (match metadata s with
     | Some md => or_else (title md) (name md) +:+ " - Slide " +:+ to_string cur
     | None => document_title s
     end) s.

Definition goToSlide (slideNumber : number) (s : State) : State :=
  showSlide slideNumber true s.

Definition previousSlide (s : State) : State :=
  if gtb (currentSlide s) (of_Z 1) then
    goToSlide (sub (currentSlide s) (of_Z 1)) s
  else s.

Definition nextSlide (s : State) : State :=
  if ltb (currentSlide s) (of_Z (totalSlides s)) then
    goToSlide (add (currentSlide s) (of_Z 1)) s
  else s.

Definition closeOverviewModal (s : State) : State :=
  on overviewModal (classList_add "hidden") s.

Definition closeShareModal (s : State) : State :=
  on shareModal (classList_add "hidden") s.

Definition is_previous_key (k : string) : bool :=
  (String.eqb k "ArrowLeft" || String.eqb k "ArrowUp"
   || String.eqb k "PageUp")%bool.

Definition is_next_key (k : string) : bool :=
  (String.eqb k "ArrowRight" || String.eqb k "ArrowDown"
   || String.eqb k "PageDown" || String.eqb k " ")%bool.

(** [handleKeyPress(e)]: the state after, and whether
    [e.preventDefault()] was called. *)
Definition handleKeyPress (e : KeyboardEvent) (s : State) : State * bool :=
  let switch :=
    if is_previous_key (key e) then (previousSlide s, true)
    else if is_next_key (key e) then (nextSlide s, true)
    else if String.eqb (key e) "Home" then (goToSlide (of_Z 1) s, true)
    else if String.eqb (key e) "End" then
      (goToSlide (of_Z (totalSlides s)) s, true)
    else (s, false) in
  if String.eqb (key e) "Escape" then
    if negb (has_class overviewModal "hidden" (document s)) then
      (closeOverviewModal s, true)
    else if negb (has_class shareModal "hidden" (document s)) then
      (closeShareModal s, true)
    else switch
  else switch.

(** [handleWheel(e)], with the same two results. *)
Definition handleWheel (e : WheelEvent) (s : State) : State * bool :=
  if (has_class body "scroll-mode" (document s)
      || negb (has_class overviewModal "hidden" (document s)))%bool
  then (s, false)
  else if wheelThrottleTimer s then (s, true)
  else
    let s := set_wheelThrottleTimer true s in
    if gtb (deltaY e) (of_Z 0) then (nextSlide s, true)
    else if ltb (deltaY e) (of_Z 0) then (previousSlide s, true)
    else (s, true).

(** The 300 ms timer of [handleWheel] firing. *)
Definition wheelThrottle_timeout (s : State) : State :=
  set_wheelThrottleTimer false s.

Definition handleProgressClick (rect : DOMRect) (e : MouseEvent)
    (s : State) : State :=
  let x := sub64 (clientX e) (left rect) in
  let percentage := div64 x (width rect) in
  let targetSlide :=
    Math_max (of_Z 1)
      (Math_min (of_Z (totalSlides s))
         (Math_ceil (mul64 percentage (of_Z (totalSlides s))))) in
  goToSlide targetSlide s.

Definition showThumbnail (rect : DOMRect) (e : MouseEvent) (s : State)
  : State :=
  let x := sub64 (clientX e) (left rect) in
  let percentage := div64 x (width rect) in
  let targetSlide :=
    Math_max (of_Z 1)
      (Math_min (of_Z (totalSlides s))
         (Math_ceil (mul64 percentage (of_Z (totalSlides s))))) in
  let s := on thumbnailPreview (setStyle "left" (CssPx (clientX e))) s in
  let s :=
    on thumbnailPreview (setStyle "transform" (CssText "translateX(-50%)")) s in
  let s :=
    on thumbnailImage
      (setAttribute "src"
         (DOMString (index (slideImages s) (sub targetSlide (of_Z 1))))) s in
  let s :=
    on thumbnailNumber
      (set_textContent
         (to_string targetSlide +:+ " / " +:+ string_of_Z (totalSlides s))) s in
  on thumbnailPreview (classList_remove "hidden") s.

Definition hideThumbnail (s : State) : State :=
  on thumbnailPreview (classList_add "hidden") s.

(** The [popstate] listener. *)
Definition on_popstate (s : State) : State :=
  showSlide (parseInt (or_else (search s !! "page") "1")) false s.

(** ** Scroll mode *)

(** The [.scroll-slide] images of the scroll container. *)
Definition slideElements (s : State) : list Element :=
  match document s !! scrollContainer with
  | Some c => children c
  | None => []
  end.

Definition scroll_slide (s : State) (i : nat) : Element :=
  setAttribute "loading" "lazy"
    (setAttribute "alt" ("Slide " +:+ string_of_Z (Z.of_nat i))
       (setAttribute "src"
          (DOMString (index (slideImages s) (sub (of_nat i) (of_Z 1))))
          (set_className "scroll-slide" (createElement "img")))).

Definition scrollToCurrentSlide (s : State) : State :=
  if (Nat.ltb 0 (length (slideElements s)) && gtb (currentSlide s) (of_Z 0))%bool
  then
    let i := sub (currentSlide s) (of_Z 1) in
    match index (slideElements s) i, to_integer i with
    | Some _, Some z => set_scrolledIntoView (Z.to_nat z) s
    | _, _ => s
    end
  else s.

(** The loop of [updateCurrentSlideFromScroll] from element [index] on. *)
Fixpoint closest_from (g : ScrollGeometry) (centerY : number)
    (els : list Element) (index : nat) (closestSlide minDistance : number)
  : number :=
  match els with
  | [] => closestSlide
  | _ :: rest =>
      let slideCenter :=
        add64 (offsetTop g index) (div64 (offsetHeight g index) (of_Z 2)) in
      let distance := Math_abs (sub64 slideCenter centerY) in
      if ltb distance minDistance then
        closest_from g centerY rest (S index) (of_nat (S index)) distance
      else closest_from g centerY rest (S index) closestSlide minDistance
  end.

Definition updateCurrentSlideFromScroll (g : ScrollGeometry) (s : State)
  : State :=
  let centerY := add64 (scrollTop g) (div64 (clientHeight g) (of_Z 2)) in
  set_currentSlide
    (closest_from g centerY (slideElements s) 0 (of_Z 1) PosInf) s.

(** What the loop measures: the middle of the visible part of the scroll
    container, and how far the middle of the image of index [index] is
    from [centerY]. *)
Definition scroll_center (g : ScrollGeometry) : number :=
  add64 (scrollTop g) (div64 (clientHeight g) (of_Z 2)).

Definition slide_distance (g : ScrollGeometry) (centerY : number)
    (index : nat) : number :=
  Math_abs
    (sub64 (add64 (offsetTop g index) (div64 (offsetHeight g index) (of_Z 2)))
       centerY).

(** The [scroll] listener of the scroll container. *)
Definition updateScrollProgress (g : ScrollGeometry) (s : State) : State :=
  let s := updateCurrentSlideFromScroll g s in
  let progress :=
    mul64 (div64 (currentSlide s) (of_Z (totalSlides s))) (of_Z 100) in
  on progressFill (setStyle "width" (CssPercent progress)) s.

Definition enterScrollMode (s : State) : State :=
  let s := on scrollContainer (set_children []) s in
  let s :=
    on scrollContainer
      (set_children (map (scroll_slide s) (seq 1 (Z.to_nat (totalSlides s))))) s in
  let s := on scrollContainer (classList_remove "hidden") s in
  scrollToCurrentSlide s.

Definition exitScrollMode (g : ScrollGeometry) (s : State) : State :=
  let s := updateCurrentSlideFromScroll g s in
  let s := on scrollContainer (classList_add "hidden") s in
  showSlide (currentSlide s) true s.

Definition toggleScrollMode (g : ScrollGeometry) (s : State) : State :=
  if has_class body "scroll-mode" (document s) then
    let s := on body (classList_remove "scroll-mode") s in
    let s := on slideModeIcon (classList_add "hidden") s in
    let s := on scrollModeIcon (classList_remove "hidden") s in
    exitScrollMode g s
  else
    let s := on body (classList_add "scroll-mode") s in
    let s := on slideModeIcon (classList_remove "hidden") s in
    let s := on scrollModeIcon (classList_add "hidden") s in
    enterScrollMode s.

(** ** The overview grid *)

Definition overview_item (s : State) (i : nat) : Element :=
  let slideItem := set_className "overview-slide" (createElement "div") in
  let slideItem :=
    if eqb (of_nat i) (currentSlide s) then classList_add "active" slideItem
    else slideItem in
  let slideImg :=
    setAttribute "loading" "lazy"
      (setAttribute "alt" ("Slide " +:+ string_of_Z (Z.of_nat i))
         (setAttribute "src"
            (DOMString (index (slideImages s) (sub (of_nat i) (of_Z 1))))
            (set_className "overview-slide-image" (createElement "img")))) in
  let slideNumber :=
    set_textContent (string_of_Z (Z.of_nat i))
      (set_className "overview-slide-number" (createElement "div")) in
  appendChild slideNumber (appendChild slideImg slideItem).

Definition openOverviewModal (s : State) : State :=
  let s :=
    on overviewGrid
      (set_children (map (overview_item s) (seq 1 (Z.to_nat (totalSlides s))))) s in
  on overviewModal (classList_remove "hidden") s.

(** The [click] listener of overview entry [i]. *)
Definition overview_item_click (i : nat) (s : State) : State :=
  closeOverviewModal (goToSlide (of_nat i) s).

(** ** The loading spinner *)

(** The three images that [setupImageLoadHandlers] listens to. *)
Inductive ImageSlot : Type := PrevImage | CurrentImage | NextImage.

Definition slot_element (i : ImageSlot) : string :=
  match i with
  | PrevImage => slidePrev
  | CurrentImage => slideCurrent
  | NextImage => slideNext
  end.

(** [img.classList.contains("loading") && img.src] for the image under
    [key]; [img.src] is the empty string when the attribute is missing. *)
Definition still_loading (d : Document) (key : string) : bool :=
  match d !! key with
  | Some img =>
      classList_contains "loading" img
      && truthy (default "" (getAttribute "src" img))
  | None => false
  end.

Definition checkAllImagesLoaded (s : State) : State :=
  let anyLoading :=
    existsb (still_loading (document s)) [slidePrev; slideCurrent; slideNext] in
  if negb anyLoading then
    on slideLoading (setStyle "display" (CssText "none")) s
  else s.

(** The [load] and the [error] listener of image [i]: they are the same. *)
Definition on_image_settled (i : ImageSlot) (s : State) : State :=
  checkAllImagesLoaded (on (slot_element i) (classList_remove "loading") s).

(** ** Start-up *)

(** [setupEventListeners()] registers the listeners embedded above as
    functions of their events; its one immediate effect is the call of
    [showControls]. *)
Definition setupEventListeners (s : State) : State := showControls s.

(** [init()]: [resp] answers the metadata request, [innerWidth] is
    [window.innerWidth], [g] the scroll container's geometry. *)
Definition init (resp : Fetch Metadata) (innerWidth : number)
    (g : ScrollGeometry) (s : State) : State :=
  match loadMetadata resp s with
  | Throw m => console_error ("Failed to initialize viewer: " +:+ m) s
  | Return s =>
      let s := setupEventListeners s in
      let s := showSlide (currentSlide s) true s in
      let params := search s in
      let s :=
        match params !! "page" with
        | Some _ => s
        | None =>
            set_search (<["page" := to_string (currentSlide s)]> (search s)) s
        end in
      let mode := params !! "mode" in
      let s :=
        if (leb innerWidth (of_Z 768)
            || bool_decide (mode = Some "scroll"))%bool
        then toggleScrollMode g s
        else s in
      let isFromList := bool_decide (params !! "from" = Some "list") in
      if negb isFromList then
        on closeButton_parentElement (setStyle "display" (CssText "none")) s
      else s
  end.

(** ** The listeners of [setupEventListeners] *)

(** What can reach the embedded listeners: the events they are registered
    for, each with what the browser supplies then, and the two timers
    firing.  The share, fullscreen, copy and close buttons are not among
    them, and the images' [load] and [error] events are embedded apart, as
    [on_image_settled]. *)
Inductive Event : Type :=
| KeyDown (e : KeyboardEvent)
| Wheel (e : WheelEvent)
| ProgressClick (rect : DOMRect) (e : MouseEvent)
| ProgressMouseMove (rect : DOMRect) (e : MouseEvent)
| ProgressMouseLeave
| NavPrevClick
| NavNextClick
| ScrollModeToggleClick (g : ScrollGeometry)
| OverviewButtonClick
| OverviewCloseClick
| OverviewItemClick (i : nat)
| ShareCloseClick
| PopState (params : gmap string string)   (* the location popped to *)
| MouseMove
| Scroll (g : ScrollGeometry)
| HideControlsTimeout
| WheelThrottleTimeout.

Definition dispatch (ev : Event) (s : State) : State :=
  match ev with
  | KeyDown e => (handleKeyPress e s).1
  | Wheel e => (handleWheel e s).1
  | ProgressClick rect e => handleProgressClick rect e s
  | ProgressMouseMove rect e => showThumbnail rect e s
  | ProgressMouseLeave => hideThumbnail s
  | NavPrevClick => previousSlide s
  | NavNextClick => nextSlide s
  | ScrollModeToggleClick g => toggleScrollMode g s
  | OverviewButtonClick => openOverviewModal s
  | OverviewCloseClick => closeOverviewModal s
  | OverviewItemClick i => overview_item_click i s
  | ShareCloseClick => closeShareModal s
  | PopState params => on_popstate (set_search params s)
  | MouseMove => showControls s
  | Scroll g => updateScrollProgress g s
  | HideControlsTimeout => hideControls_timeout s
  | WheelThrottleTimeout => wheelThrottle_timeout s
  end.

(** The viewer shows a page of the deck: [currentSlide] is an integer of
    [1 .. totalSlides], and the scroll container holds no more images than
    the deck has pages. *)
Definition on_a_page (s : State) : Prop :=
  exists z : Z,
    currentSlide s = of_Z z /\ 1 <= z <= totalSlides s
    /\ (length (slideElements s) <= Z.to_nat (totalSlides s))%nat.

(** The numbers the handlers pass to [showSlide]: integers and, out of a
    division by zero, infinities. *)
Definition whole (n : number) : Prop :=
  n = PosInf \/ n = NegInf \/ exists z, n = of_Z z.

(** The event carries a position, or a page parameter, that is a number:
    the horizontal fraction of a click on the progress bar is not NaN (the
    bar has a width), and the [page] parameter popped to starts with
    digits or is missing. *)
Definition numeric (ev : Event) : Prop :=
  match ev with
  | ProgressClick rect e =>
      div64 (sub64 (clientX e) (left rect)) (width rect) <> NaN
  | PopState params => parseInt (or_else (params !! "page") "1") <> NaN
  | _ => True
  end.

End WithEnvironment.

End Viewer.

(* ===================================================================== *)
(** * Concrete pages and decks used in the examples *)
(* ===================================================================== *)

Module Sample.

(** A page with the root element and the two theme icons, the sun icon
    showing. *)
Definition theme_page : Document :=
  list_to_map
    [ ("html", createElement "html");
      (".sun-icon", createElement "svg");
      (".moon-icon", classList_add "hidden" (createElement "svg")) ].

(** First visit: nothing stored, the OS prefers light. *)
Definition first_visit_light : Theme.State :=
  Theme.new_ThemeManager ∅ false theme_page.

(** A returning visitor who chose the dark theme. *)
Definition chose_dark : Theme.State :=
  Theme.new_ThemeManager {[ Theme.THEME_KEY := "dark" ]} false theme_page.

(** The index page in dev mode while the import dialog is open. *)
Definition index_page : Document :=
  list_to_map
    [ (Index.slidesContainer, createElement "div");
      (Index.emptyState, classList_add "hidden" (createElement "div"));
      (Index.importBtn, createElement "button");
      (Index.importModal, createElement "div");
      (Index.importForm, createElement "form");
      (Index.importProgress, classList_add "hidden" (createElement "div"));
      (Index.progressMessage, createElement "p") ].

Definition importing : Index.State :=
  Index.mkState true None None index_page [] [].

Definition intro_deck : Index.SlideSummary :=
  Index.mkSlide "intro" (Some "Introduction") None 12 (Some "png") "2024-05-01".

Definition fresh_deck : Index.SlideSummary :=
  Index.mkSlide "fresh" None None 3 None "2024-06-01".

(** The listing answers with the deck known before and a new one. *)
Definition listing_with_new_deck : Index.Network :=
  Index.mkNetwork (Response true (Json (Some [intro_deck; fresh_deck])))
    (NetworkError "Failed to fetch") None.

(** The index page with the edit dialog as well. *)
Definition index_page_full : Document :=
  list_to_map
    [ (Index.editModal, classList_add "hidden" (createElement "div"));
      (Index.editTitle, createElement "input");
      (Index.editDescription, createElement "textarea");
      (Index.editCreatedAt, createElement "input") ] ∪ index_page.

(** Dev mode with [intro_deck] listed. *)
Definition listing_intro_only : Index.Network :=
  Index.mkNetwork (Response true (Json (Some [intro_deck])))
    (NetworkError "Failed to fetch") None.

(** The listing cannot be reached either. *)
Definition listing_down : Index.Network :=
  Index.mkNetwork (NetworkError "Failed to fetch")
    (NetworkError "Failed to fetch") None.

(** The viewer page as served: dialogs, scroll container and thumbnail
    hidden, paged mode. *)
Definition viewer_page : Document :=
  list_to_map
    [ (Viewer.body, createElement "body");
      (Viewer.slidesWrapper, createElement "div");
      (Viewer.slidePrev, createElement "img");
      (Viewer.slideCurrent, createElement "img");
      (Viewer.slideNext, createElement "img");
      (Viewer.slideLoading, createElement "div");
      (Viewer.navAreaPrev, createElement "div");
      (Viewer.navAreaNext, createElement "div");
      (Viewer.closeButton_parentElement, createElement "div");
      (Viewer.progressFill, createElement "div");
      (Viewer.thumbnailPreview, classList_add "hidden" (createElement "div"));
      (Viewer.thumbnailImage, createElement "img");
      (Viewer.thumbnailNumber, createElement "div");
      (Viewer.scrollContainer, classList_add "hidden" (createElement "div"));
      (Viewer.overviewModal, classList_add "hidden" (createElement "div"));
      (Viewer.overviewGrid, createElement "div");
      (Viewer.shareModal, classList_add "hidden" (createElement "div"));
      (Viewer.slideModeIcon, classList_add "hidden" (createElement "svg"));
      (Viewer.scrollModeIcon, createElement "svg") ].

Definition deck5 : Viewer.Metadata :=
  Viewer.mkMetadata "deck" (Some "A deck") 5 (Some "png").

Definition deck10 : Viewer.Metadata :=
  Viewer.mkMetadata "talk" None 10 None.

Definition deck25 : Viewer.Metadata :=
  Viewer.mkMetadata "course" (Some "A course") 25 None.

(** A deck whose metadata counts no pages. *)
Definition deck0 : Viewer.Metadata :=
  Viewer.mkMetadata "blank" (Some "Blank") 0 None.

(** Slides 600 px high stacked in a container 800 px high, scrolled to the
    top. *)
Definition at_top : Viewer.ScrollGeometry :=
  {| Viewer.scrollTop := JS.of_Z 0;
     Viewer.clientHeight := JS.of_Z 800;
     Viewer.offsetTop := fun i => JS.of_Z (600 * Z.of_nat i);
     Viewer.offsetHeight := fun _ => JS.of_Z 600 |}.

(** The viewer once [init] has run on deck [md], opened at
    [/<name>?<params>] in a window [innerWidth] wide. *)
Definition opened (md : Viewer.Metadata) (params : gmap string string)
    (innerWidth : Z) : Viewer.State :=
  Viewer.init "" (Response true (Json md)) (JS.of_Z innerWidth) at_top
    (Viewer.new_SlidefViewer ("/" +:+ Viewer.name md) params "" viewer_page).

End Sample.

(* ===================================================================== *)
(** * The JavaScript helpers on examples *)
(* ===================================================================== *)

Example parseInt_examples :
  JS.parseInt "7" = JS.of_Z 7 /\ JS.parseInt "  -12px" = JS.of_Z (-12)
  /\ JS.parseInt "abc" = JS.NaN /\ JS.parseInt "" = JS.NaN
  /\ JS.parseInt "3.9" = JS.of_Z 3.
Proof. repeat split; reflexivity. Qed.

Example string_examples :
  JS.padStart0 3 (JS.string_of_Z 7) = "007"
  /\ JS.padStart0 3 (JS.string_of_Z 1234) = "1234"
  /\ JS.split "/" "/decks/intro" = [""; "decks"; "intro"]
  /\ JS.to_string (JS.of_Z 12) = "12" /\ JS.to_string JS.NaN = "NaN".
Proof. repeat split; reflexivity. Qed.

Example number_examples :
  JS.Math_max (JS.of_Z 1) (JS.Math_min JS.NaN (JS.of_Z 5)) = JS.NaN
  /\ JS.Math_max (JS.of_Z 1) (JS.Math_min (JS.of_Z 9) (JS.of_Z 5)) = JS.of_Z 5
  /\ JS.Math_ceil (JS.mul (JS.div (JS.of_Z 42) (JS.of_Z 100)) (JS.of_Z 10))
     = JS.of_Z 5
  /\ JS.div (JS.of_Z 0) (JS.of_Z 0) = JS.NaN
  /\ JS.div (JS.of_Z 3) (JS.of_Z 0) = JS.PosInf
  /\ JS.ltb JS.NaN (JS.of_Z 5) = false.
Proof. repeat split; reflexivity. Qed.

(* ===================================================================== *)
(** * Facts about the page store *)
(* ===================================================================== *)

Section DocumentFacts.

Implicit Types (d : Document) (e : Element) (k c : string).

Lemma lookup_update_ne k k' f d : k <> k' -> update k' f d !! k = d !! k.
Proof. intros Hne. unfold update. by rewrite lookup_alter_ne. Qed.

Lemma lookup_update k f d : update k f d !! k = f <$> d !! k.
Proof. unfold update. by rewrite lookup_alter_eq. Qed.

Lemma has_class_update_ne k k' c f d :
  k <> k' -> has_class k c (update k' f d) = has_class k c d.
Proof. intros Hne. unfold has_class, update. by rewrite lookup_alter_ne. Qed.

Lemma has_class_update k c f d :
  has_class k c (update k f d)
  = match d !! k with
    | Some e => classList_contains c (f e)
    | None => false
    end.
Proof.
  unfold has_class, update. rewrite lookup_alter_eq.
  by destruct (d !! k).
Qed.

Lemma contains_add c e : classList_contains c (classList_add c e) = true.
Proof.
  apply bool_decide_eq_true. cbn. apply elem_of_union. left.
  by apply elem_of_singleton.
Qed.

Lemma contains_remove c e : classList_contains c (classList_remove c e) = false.
Proof.
  apply bool_decide_eq_false. cbn. rewrite elem_of_difference, elem_of_singleton.
  tauto.
Qed.

Lemma contains_add_ne c c' e :
  c <> c' -> classList_contains c (classList_add c' e) = classList_contains c e.
Proof.
  intros Hne. unfold classList_contains. apply bool_decide_ext. cbn.
  rewrite elem_of_union, elem_of_singleton. tauto.
Qed.

Lemma contains_remove_ne c c' e :
  c <> c' -> classList_contains c (classList_remove c' e) = classList_contains c e.
Proof.
  intros Hne. unfold classList_contains. apply bool_decide_ext. cbn.
  rewrite elem_of_difference, elem_of_singleton. tauto.
Qed.

Lemma has_class_add k c d :
  is_Some (d !! k) -> has_class k c (update k (classList_add c) d) = true.
Proof.
  intros [e He]. rewrite has_class_update, He. apply contains_add.
Qed.

Lemma has_class_remove k c d :
  has_class k c (update k (classList_remove c) d) = false.
Proof.
  rewrite has_class_update. destruct (d !! k); [apply contains_remove | done].
Qed.

Lemma update_is_Some k k' f d :
  is_Some (update k' f d !! k) <-> is_Some (d !! k).
Proof.
  unfold update. destruct (decide (k' = k)) as [-> | Hne].
  - rewrite lookup_alter_eq. by rewrite fmap_is_Some.
  - by rewrite lookup_alter_ne.
Qed.

Lemma has_elements_lookup (keys : list string) d k :
  has_elements keys d = true -> k ∈ keys -> is_Some (d !! k).
Proof.
  unfold has_elements. rewrite forallb_forall. intros Hall Hk.
  apply list_elem_of_In in Hk. apply Hall in Hk.
  by apply bool_decide_eq_true in Hk.
Qed.

End DocumentFacts.

(* ===================================================================== *)
(** * Theme manager: properties *)
(* ===================================================================== *)

Section ThemeProperties.

Import Theme.

Lemma updateIcons_currentTheme s : currentTheme (updateIcons s) = currentTheme s.
Proof.
  unfold updateIcons.
  destruct (document s !! ".sun-icon"), (document s !! ".moon-icon"); try done.
  by destruct (String.eqb _ _).
Qed.

Lemma updateIcons_localStorage s : localStorage (updateIcons s) = localStorage s.
Proof.
  unfold updateIcons.
  destruct (document s !! ".sun-icon"), (document s !! ".moon-icon"); try done.
  by destruct (String.eqb _ _).
Qed.

Lemma updateIcons_root s :
  document (updateIcons s) !! "html" = document s !! "html".
Proof.
  unfold updateIcons.
  destruct (document s !! ".sun-icon"), (document s !! ".moon-icon"); try done.
  destruct (String.eqb _ _); cbn; unfold update;
    by rewrite !lookup_alter_ne.
Qed.

Lemma updateIcons_applied s : applied (updateIcons s) = applied s.
Proof. unfold applied, documentElement. by rewrite updateIcons_root. Qed.

Lemma apply_currentTheme s : currentTheme (apply s) = currentTheme s.
Proof. unfold apply. by rewrite updateIcons_currentTheme. Qed.

Lemma apply_localStorage s : localStorage (apply s) = localStorage s.
Proof. unfold apply. by rewrite updateIcons_localStorage. Qed.

Lemma apply_applied s : applied (apply s) = Some (currentTheme s).
Proof.
  unfold apply. rewrite updateIcons_applied.
  unfold applied, documentElement at 1, update_documentElement. cbn.
  rewrite lookup_insert_eq. cbn. unfold getAttribute. cbn.
  by rewrite lookup_insert_eq.
Qed.

(** The theme [toggle] switches to. *)
Lemma toggle_currentTheme s :
  currentTheme (toggle s)
  = if String.eqb (currentTheme s) THEME_DARK then THEME_LIGHT else THEME_DARK.
Proof. unfold toggle. by rewrite apply_currentTheme. Qed.

Lemma toggle_localStorage s :
  localStorage (toggle s)
  = <[THEME_KEY := currentTheme (toggle s)]> (localStorage s).
Proof.
  rewrite toggle_currentTheme. unfold toggle. by rewrite apply_localStorage.
Qed.

Lemma toggle_applied s : applied (toggle s) = Some (currentTheme (toggle s)).
Proof.
  rewrite toggle_currentTheme. unfold toggle. by rewrite apply_applied.
Qed.

End ThemeProperties.

Section ThemeClaims.

Import Theme.

(** C10. After [toggle()], whatever [currentTheme] was before (a foreign
    value included), [currentTheme] is ["dark"] or ["light"], the stored
    value and the [data-theme] attribute of the root both equal it, and
    every value other than ["dark"] has toggled to ["dark"]. *)
Theorem toggle_establishes_theme (s : State) :
  (currentTheme (toggle s) = "dark" \/ currentTheme (toggle s) = "light")
  /\ getStoredTheme (toggle s) = Some (currentTheme (toggle s))
  /\ applied (toggle s) = Some (currentTheme (toggle s))
  /\ currentTheme (toggle s)
     = (if String.eqb (currentTheme s) "dark" then "light" else "dark").
Proof.
  split; [| split; [| split]].
  - rewrite toggle_currentTheme.
    destruct (String.eqb _ _); [by right | by left].
  - unfold getStoredTheme. rewrite toggle_localStorage.
    apply lookup_insert_eq.
  - apply toggle_applied.
  - apply toggle_currentTheme.
Qed.

(** C5, as stated, fails: on a first visit nothing is stored, and after
    two toggles the theme is. *)
Lemma toggle_twice_not_restoring_storage :
  ~ (forall s : State,
       applied (toggle (toggle s)) = applied s
       /\ getStoredTheme (toggle (toggle s)) = getStoredTheme s).
Proof.
  intros H. destruct (H Sample.first_visit_light) as [_ Hstored].
  vm_compute in Hstored. discriminate Hstored.
Qed.

(** C5, amended. From a state whose theme is ["dark"] or ["light"] and is
    the one applied, two toggles restore the applied theme and
    [currentTheme], and leave storage as it was except that the theme key
    now holds that theme. *)
Theorem toggle_twice (s : State)
    (Hsync : applied s = Some (currentTheme s))
    (Htheme : currentTheme s = "dark" \/ currentTheme s = "light") :
  applied (toggle (toggle s)) = applied s
  /\ currentTheme (toggle (toggle s)) = currentTheme s
  /\ localStorage (toggle (toggle s))
     = <[THEME_KEY := currentTheme s]> (localStorage s).
Proof.
  assert (Hback : currentTheme (toggle (toggle s)) = currentTheme s).
  { rewrite !toggle_currentTheme. by destruct Htheme as [-> | ->]. }
  split; [| split].
  - by rewrite toggle_applied, Hback, Hsync.
  - exact Hback.
  - rewrite !toggle_localStorage, Hback. apply insert_insert_eq.
Qed.

Lemma toggle_twice_witness :
  applied (toggle (toggle Sample.first_visit_light))
    = applied Sample.first_visit_light
  /\ currentTheme (toggle (toggle Sample.first_visit_light)) = "light"
  /\ localStorage (toggle (toggle Sample.first_visit_light))
     = <[THEME_KEY := "light"]> (localStorage Sample.first_visit_light).
Proof.
  apply (toggle_twice Sample.first_visit_light).
  - reflexivity.
  - right. reflexivity.
Defined.

(** When the theme was already the stored value, two toggles give back
    the very same storage. *)
Corollary toggle_twice_persisted (s : State) :
  applied s = Some (currentTheme s) ->
  currentTheme s = "dark" \/ currentTheme s = "light" ->
  getStoredTheme s = Some (currentTheme s) ->
  localStorage (toggle (toggle s)) = localStorage s.
Proof.
  intros Hsync Htheme Hstored.
  assert (Hback : currentTheme (toggle (toggle s)) = currentTheme s).
  { rewrite !toggle_currentTheme. by destruct Htheme as [-> | ->]. }
  rewrite !toggle_localStorage, Hback, insert_insert_eq.
  by apply insert_id.
Qed.

(** C4. On a change of the OS preference: with nothing stored, the
    applied theme becomes the one of the new preference; with a stored
    preference (any non-empty text), nothing changes at all. *)
Theorem system_theme_change (matches : bool) (s : State)
    (stored : option string)
    (Hstored : getStoredTheme s = stored)
    (Hnonempty : stored <> Some "") :
  match stored with
  | None =>
      applied (on_system_theme_change matches s)
        = Some (if matches then "dark" else "light")
      /\ currentTheme (on_system_theme_change matches s)
         = (if matches then "dark" else "light")
      /\ localStorage (on_system_theme_change matches s) = localStorage s
  | Some _ => on_system_theme_change matches s = s
  end.
Proof.
  unfold on_system_theme_change, getStoredTheme in *. rewrite Hstored.
  destruct stored as [v|]; cbn.
  - destruct v; [congruence | reflexivity].
  - rewrite apply_applied, apply_currentTheme, apply_localStorage. done.
Qed.

Lemma system_theme_change_witness :
  (applied (on_system_theme_change true Sample.first_visit_light) = Some "dark"
   /\ currentTheme (on_system_theme_change true Sample.first_visit_light) = "dark"
   /\ localStorage (on_system_theme_change true Sample.first_visit_light)
      = localStorage Sample.first_visit_light)
  /\ on_system_theme_change false Sample.chose_dark = Sample.chose_dark.
Proof.
  split.
  - apply (system_theme_change true Sample.first_visit_light None).
    + reflexivity.
    + discriminate.
  - apply (system_theme_change false Sample.chose_dark (Some "dark")).
    + reflexivity.
    + discriminate.
Defined.

End ThemeClaims.

(* ===================================================================== *)
(** * Slide index: the import flow *)
(* ===================================================================== *)

Section IndexClaims.

Import Index.

Variable BASE_URL : string.
Variable formatDate : string -> string.

Lemma loadSlides_isDevMode (net : Network) (s s' : State) :
  isDevMode s' = isDevMode s -> loadSlides net s' = loadSlides net s.
Proof. unfold loadSlides. by intros ->. Qed.

Lemma renderSlides_returns (slides : list SlideSummary) (s : State) :
  exists s', renderSlides BASE_URL formatDate (Some slides) s = Return s'
             /\ alerts s' = alerts s
             /\ document s' !! importModal = document s !! importModal.
Proof.
  destruct slides as [| slide rest]; cbn; eexists; (split; [reflexivity |]);
    (split; [reflexivity |]); cbn; by rewrite !lookup_update_ne.
Qed.

Lemma append_one_ne {A : Type} (l : list A) (x : A) : l ++ [x] <> l.
Proof.
  intros H. apply (f_equal length) in H. rewrite length_app in H. cbn in H. lia.
Qed.

(** C6. On a page holding the index elements: when the import request
    fails, [handleImport] arms the status check (after 1000 ms) and that
    check re-polls the listing.  The dialog ends closed with no alert
    exactly when the re-polled listing loads and renders, whatever decks it
    holds; otherwise one alert carries the error, the form is shown again
    and the progress panel hidden, the dialog left as it was.  Either way
    [isImporting] is false afterwards. *)
Theorem failed_import_reconciles (resp : Fetch ImportBody) (net : Network)
    (s : State) (m : string)
    (Hfail : import_error resp = Some m)
    (Hpage : page_ready s = true) :
  let s' := import_flow BASE_URL formatDate resp net s in
  (handleImport resp s).2 = CheckImportStatus m
  /\ timer_delay (handleImport resp s).2 = 1000
  /\ ((exists slides, loadSlides net s = Return (Some slides))
      <-> (has_class importModal "hidden" (document s') = true
           /\ alerts s' = alerts s))
  /\ ((exists slides, loadSlides net s = Return (Some slides))
      \/ (alerts s' = alerts s ++ ["Import failed: " +:+ m]
          /\ has_class importForm "hidden" (document s') = false
          /\ has_class importProgress "hidden" (document s') = true
          /\ has_class importModal "hidden" (document s')
             = has_class importModal "hidden" (document s)))
  /\ isImporting s' = Some false.
Proof.
  assert (Hmodal : is_Some (document s !! importModal)).
  { apply (has_elements_lookup elements); [done |]. unfold elements.
    repeat (apply elem_of_cons; first [by left | right]). }
  assert (Hprogress : is_Some (document s !! importProgress)).
  { apply (has_elements_lookup elements); [done |]. unfold elements.
    repeat (apply elem_of_cons; first [by left | right]). }
  clear Hpage.
  unfold import_flow, handleImport, handleImport_response, handleImport_request.
  rewrite Hfail. cbn [fst snd].
  set (s1 := on progressMessage _ _).
  assert (Hload : loadSlides net s1 = loadSlides net s)
    by (by apply loadSlides_isDevMode).
  assert (Halerts1 : alerts s1 = alerts s) by reflexivity.
  assert (Hmodal1 : document s1 !! importModal = document s !! importModal).
  { subst s1. cbn. by rewrite !lookup_update_ne. }
  assert (Hprogress1 : is_Some (document s1 !! importProgress)).
  { subst s1. cbn. by rewrite !update_is_Some. }
  clearbody s1.
  assert (Hfailed :
    let s' :=
      set_isImporting false
        (on importProgress (classList_add "hidden")
           (on importForm (classList_remove "hidden")
              (alert ("Import failed: " +:+ m) s1))) in
    alerts s' = alerts s ++ ["Import failed: " +:+ m]
    /\ has_class importForm "hidden" (document s') = false
    /\ has_class importProgress "hidden" (document s') = true
    /\ has_class importModal "hidden" (document s')
       = has_class importModal "hidden" (document s)).
  { cbn. rewrite Halerts1. split; [reflexivity |]. split; [| split].
    - rewrite has_class_update_ne by done. apply has_class_remove.
    - apply has_class_add. by rewrite update_is_Some.
    - unfold has_class. by rewrite !lookup_update_ne, Hmodal1. }
  unfold run_timer. rewrite Hload.
  split; [reflexivity |]. split; [reflexivity |].
  destruct (loadSlides net s) as [[slides |] | err].
  - destruct (renderSlides_returns slides s1) as (s2 & -> & Halerts2 & Hmodal2).
    assert (Hclosed : has_class importModal "hidden"
                        (document (closeImportModal s2)) = true).
    { cbn. apply has_class_add. by rewrite Hmodal2, Hmodal1. }
    split; [| split; [left; by eexists | reflexivity]].
    split; [intros _ | by eexists].
    split; [exact Hclosed |]. cbn. by rewrite Halerts2.
  - destruct Hfailed as (Ha & Hf & Hp & Hm). cbn [renderSlides].
    split; [| split; [right; done | reflexivity]].
    split; [by intros [? ?] |].
    intros [_ Hno]. cbn in Hno. rewrite Halerts1 in Hno.
    by apply append_one_ne in Hno.
  - destruct Hfailed as (Ha & Hf & Hp & Hm).
    split; [| split; [right; done | reflexivity]].
    split; [by intros [? ?] |].
    intros [_ Hno]. cbn in Hno. rewrite Halerts1 in Hno.
    by apply append_one_ne in Hno.
Qed.

End IndexClaims.

Lemma failed_import_reconciles_witness :
  let s' :=
    Index.import_flow "" id (NetworkError "Failed to fetch")
      Sample.listing_with_new_deck Sample.importing in
  has_class Index.importModal "hidden" (Index.document s') = true
  /\ Index.alerts s' = Index.alerts Sample.importing.
Proof.
  destruct (failed_import_reconciles "" id (NetworkError "Failed to fetch")
              Sample.listing_with_new_deck Sample.importing "Failed to fetch")
    as (_ & _ & Hiff & _).
  - reflexivity.
  - vm_compute. reflexivity.
  - apply Hiff. eexists. reflexivity.
Defined.

(** The same failed request when the listing is out of reach too: one
    alert, the form back, the dialog still open. *)
Example failed_import_listing_down :
  let s' :=
    Index.import_flow "" id (Response false (Json (Some "disk full")))
      Sample.listing_down Sample.importing in
  Index.alerts s' = ["Import failed: disk full"]
  /\ has_class Index.importForm "hidden" (Index.document s') = false
  /\ has_class Index.importProgress "hidden" (Index.document s') = true
  /\ has_class Index.importModal "hidden" (Index.document s') = false
  /\ Index.isImporting s' = Some false.
Proof. vm_compute. repeat split. Qed.

(** After the reconciled import the listing shows both decks. *)
Example failed_import_new_deck_listed :
  let s' :=
    Index.import_flow "" id (NetworkError "Failed to fetch")
      Sample.listing_with_new_deck Sample.importing in
  (fun e => length (children e)) <$> (Index.document s' !! Index.slidesContainer)
  = Some 2%nat.
Proof. vm_compute. reflexivity. Qed.

(* ===================================================================== *)
(** * Facts about numbers *)
(* ===================================================================== *)

Section NumberFacts.

Import JS.

Lemma ltb_of_Z (a b : Z) : ltb (of_Z a) (of_Z b) = (a <? b).
Proof.
  unfold ltb, of_Z, Qle_bool. cbn. rewrite !Z.mul_1_r.
  by rewrite Z.ltb_antisym.
Qed.

Lemma eqb_of_Z (a b : Z) : eqb (of_Z a) (of_Z b) = (a =? b).
Proof. unfold eqb, of_Z, Qeq_bool. cbn. by rewrite !Z.mul_1_r. Qed.

Lemma Math_min_of_Z (a b : Z) : Math_min (of_Z a) (of_Z b) = of_Z (Z.min a b).
Proof.
  unfold Math_min. change (Fin (inject_Z ?x)) with (of_Z x).
  change (match of_Z a with NaN => NaN | _ => ?t end) with t.
  cbn -[ltb of_Z]. rewrite ltb_of_Z.
  destruct (Z.ltb_spec b a); f_equal; lia.
Qed.

Lemma Math_max_of_Z (a b : Z) : Math_max (of_Z a) (of_Z b) = of_Z (Z.max a b).
Proof.
  unfold Math_max. cbn -[ltb of_Z]. change (Fin (inject_Z ?x)) with (of_Z x).
  rewrite ltb_of_Z.
  destruct (Z.ltb_spec a b); f_equal; lia.
Qed.

Lemma add_of_Z (a b : Z) : add (of_Z a) (of_Z b) = of_Z (a + b).
Proof.
  unfold add, of_Z, fin. f_equal.
  rewrite <- (inject_Z_Qred (a + b)). apply Qred_complete.
  by rewrite inject_Z_plus.
Qed.

Lemma sub_of_Z (a b : Z) : sub (of_Z a) (of_Z b) = of_Z (a - b).
Proof.
  unfold sub. change (neg (of_Z b)) with (fin (- inject_Z b)).
  unfold fin. rewrite Qred_opp, inject_Z_Qred.
  change (- inject_Z b)%Q with (inject_Z (- b)).
  change (Fin (inject_Z (- b))) with (of_Z (- b)).
  rewrite add_of_Z. f_equal.
Qed.

End NumberFacts.

(* ===================================================================== *)
(** * Slide viewer: navigation *)
(* ===================================================================== *)

(** Unfold the accessors and setters of the viewer state only. *)
Ltac state_simpl :=
  cbn [Viewer.slideName Viewer.currentSlide Viewer.totalSlides
       Viewer.slideImages Viewer.metadata Viewer.hideControlsTimer
       Viewer.wheelThrottleTimer Viewer.search Viewer.document_title
       Viewer.document Viewer.scrolledIntoView Viewer.console
       Viewer.set_currentSlide Viewer.set_hideControlsTimer
       Viewer.set_wheelThrottleTimer Viewer.set_search
       Viewer.set_document_title Viewer.set_document
       Viewer.set_scrolledIntoView Viewer.console_error Viewer.on].

(** Membership in a literal list of keys. *)
Ltac element_listed :=
  repeat (apply elem_of_cons; first [by left | right]).

(** Resolve lookups through [update]. *)
Ltac lookup_simpl :=
  repeat (rewrite lookup_update || rewrite lookup_update_ne by done).

Section ViewerFacts.

Import JS Viewer.

Variable baseUrl : string.

Implicit Types (s : State) (n : number).

Lemma page_ready_lookup (d : Document) (k : string) :
  page_ready d = true -> k ∈ elements -> is_Some (d !! k).
Proof. apply has_elements_lookup. Qed.

Lemma showSlide_currentSlide n upd s :
  currentSlide (showSlide n upd s)
  = Math_max (of_Z 1) (Math_min n (of_Z (totalSlides s))).
Proof. reflexivity. Qed.

Lemma showSlide_totalSlides n upd s :
  totalSlides (showSlide n upd s) = totalSlides s.
Proof. reflexivity. Qed.

Lemma goToSlide_search n s :
  search (goToSlide n s)
  = <["page" := to_string (currentSlide (goToSlide n s))]> (search s).
Proof. reflexivity. Qed.

Lemma to_string_of_Z (z : Z) : to_string (of_Z z) = string_of_Z z.
Proof. reflexivity. Qed.

(** On integers the clamp of [showSlide] is the integer clamp. *)
Lemma showSlide_of_Z (z : Z) upd s :
  currentSlide (showSlide (of_Z z) upd s)
  = of_Z (Z.max 1 (Z.min z (totalSlides s))).
Proof.
  rewrite showSlide_currentSlide. by rewrite Math_min_of_Z, Math_max_of_Z.
Qed.

(** Fed NaN, an infinity or an integer, [showSlide] settles on NaN or an
    integer: these are the only values the scripts turn into text. *)
Lemma showSlide_integral n upd s :
  n = NaN \/ n = PosInf \/ n = NegInf \/ (exists z, n = of_Z z) ->
  currentSlide (showSlide n upd s) = NaN
  \/ exists z, currentSlide (showSlide n upd s) = of_Z z.
Proof.
  intros [-> | [-> | [-> | [z ->]]]].
  - by left.
  - right. exists (Z.max 1 (totalSlides s)).
    rewrite showSlide_currentSlide.
    change (Math_min PosInf (of_Z (totalSlides s))) with (of_Z (totalSlides s)).
    apply Math_max_of_Z.
  - right. by exists 1.
  - right. eexists. apply showSlide_of_Z.
Qed.

Lemma showSlide_progressFill n upd s :
  document (showSlide n upd s) !! progressFill
  = setStyle "width"
      (CssPercent
         (mul64 (div64 (currentSlide (showSlide n upd s)) (of_Z (totalSlides s)))
            (of_Z 100)))
    <$> document s !! progressFill.
Proof.
  unfold showSlide. state_simpl.
  rewrite !lookup_update_ne by done. rewrite lookup_update.
  by rewrite !lookup_update_ne.
Qed.

(** [showSlide] leaves the elements it does not name alone. *)
Lemma showSlide_other (k : string) n upd s :
  k ∉ [slidesWrapper; slideLoading; slideCurrent; slidePrev; slideNext;
       progressFill; navAreaPrev; navAreaNext] ->
  document (showSlide n upd s) !! k = document s !! k.
Proof.
  intros Hk. unfold showSlide. state_simpl.
  rewrite !lookup_update_ne; [done | ..];
    intros ->; apply Hk; repeat constructor.
Qed.

(** Navigating to a page of the deck: the page, the URL and the progress
    bar all follow. *)
Lemma goToSlide_in_range (z : Z) s :
  1 <= z <= totalSlides s ->
  currentSlide (goToSlide (of_Z z) s) = of_Z z
  /\ search (goToSlide (of_Z z) s) !! "page" = Some (string_of_Z z)
  /\ document (goToSlide (of_Z z) s) !! progressFill
     = setStyle "width"
         (CssPercent (mul64 (div64 (of_Z z) (of_Z (totalSlides s))) (of_Z 100)))
       <$> document s !! progressFill.
Proof.
  intros Hz.
  assert (Hcur : currentSlide (goToSlide (of_Z z) s) = of_Z z).
  { unfold goToSlide. rewrite showSlide_of_Z. f_equal. lia. }
  split; [exact Hcur |]. split.
  - rewrite goToSlide_search, Hcur. apply lookup_insert_eq.
  - unfold goToSlide in *. by rewrite showSlide_progressFill, Hcur.
Qed.

(** Whenever the deck has a page and the requested number is not NaN,
    [showSlide] settles inside [1 .. totalSlides]. *)
Lemma showSlide_clamped n upd s :
  n <> NaN -> 1 <= totalSlides s ->
  leb (of_Z 1) (currentSlide (showSlide n upd s)) = true
  /\ leb (currentSlide (showSlide n upd s)) (of_Z (totalSlides s)) = true.
Proof.
  intros Hn Ht. rewrite showSlide_currentSlide.
  assert (Hin : forall z, 1 <= z <= totalSlides s ->
                  leb (of_Z 1) (of_Z z) = true
                  /\ leb (of_Z z) (of_Z (totalSlides s)) = true).
  { intros z Hz. unfold leb, of_Z. rewrite !Qle_bool_iff, <- !Zle_Qle. lia. }
  destruct n as [| | | q]; [done | ..].
  - change (Math_min PosInf (of_Z (totalSlides s))) with (of_Z (totalSlides s)).
    rewrite Math_max_of_Z. apply Hin. lia.
  - apply (Hin 1). lia.
  - unfold Math_min. cbn [of_Z ltb].
    destruct (Qle_bool q (inject_Z (totalSlides s))) eqn:Hq; cbn [negb].
    + unfold Math_max. cbn [of_Z ltb].
      destruct (Qle_bool q (inject_Z 1)) eqn:H1; cbn [negb].
      * apply (Hin 1). lia.
      * cbn [leb of_Z]. rewrite Hq. split; [| done].
        apply Qle_bool_iff, Qlt_le_weak, Qnot_le_lt.
        intros Hle. apply Qle_bool_iff in Hle. congruence.
    + change (Fin (inject_Z ?z)) with (of_Z z).
      rewrite Math_max_of_Z. apply Hin. lia.
Qed.

(** The clamp of the progress-bar handlers followed by the clamp of
    [showSlide] is the first clamp alone. *)
Lemma clamp_twice (c : number) (t : Z) :
  let target := Math_max (of_Z 1) (Math_min (of_Z t) (Math_ceil c)) in
  Math_max (of_Z 1) (Math_min target (of_Z t)) = target.
Proof.
  destruct c as [| | | q]; cbn [Math_ceil].
  - reflexivity.
  - change (Math_min (of_Z t) PosInf) with (of_Z t). cbv zeta.
    rewrite Math_max_of_Z, Math_min_of_Z, Math_max_of_Z. f_equal. lia.
  - change (Math_min (of_Z t) NegInf) with NegInf.
    change (Math_max (of_Z 1) NegInf) with (of_Z 1). cbv zeta.
    rewrite Math_min_of_Z, Math_max_of_Z. f_equal. lia.
  - cbv zeta. rewrite !Math_min_of_Z, !Math_max_of_Z, Math_min_of_Z, Math_max_of_Z.
    f_equal. lia.
Qed.

Lemma showSlide_slideCurrent n upd s :
  document (showSlide n upd s) !! slideCurrent
  = (fun img =>
       setAttribute "src"
         (DOMString
            (index (slideImages s)
               (sub (currentSlide (showSlide n upd s)) (of_Z 1))))
         (classList_add "loading" img))
    <$> document s !! slideCurrent.
Proof.
  unfold showSlide. state_simpl.
  rewrite !lookup_update_ne by done. rewrite !lookup_update.
  rewrite !lookup_update_ne by done.
  by destruct (document s !! slideCurrent).
Qed.

(** The fraction of the bar left of the pointer times the number of
    pages, rounded up, for a bar of positive width. *)
(** Rounding a rational gives a double or an infinity, never NaN. *)
Lemma round64_number (q : Q) :
  round64 q = PosInf \/ round64 q = NegInf \/ exists r, round64 q = Fin r.
Proof.
  unfold round64. cbv zeta.
  destruct (Qnum q =? 0); [right; right; by eexists |].
  destruct (_ || _)%bool.
  - destruct (Qnum q <? 0); [right; by left | by left].
  - right. right. by eexists.
Qed.

Lemma rounded_NaN (a : number) : rounded a = NaN -> a = NaN.
Proof.
  destruct a as [| | | q]; try done. cbn [rounded].
  by destruct (round64_number q) as [-> | [-> | [r ->]]].
Qed.

(** The clamp of the progress bar on a number: a page, or an infinity
    cut back to one. *)
Lemma clamp_of_ceil (c : number) (t : Z) :
  c <> NaN -> 1 <= t ->
  Math_max (of_Z 1) (Math_min (of_Z t) (Math_ceil c))
  = match c with
    | Fin m => of_Z (Z.max 1 (Z.min t (Qceiling m)))
    | PosInf => of_Z t
    | _ => of_Z 1
    end.
Proof.
  intros Hc Ht. destruct t as [| p | p]; [lia | | lia].
  destruct c as [| | | m]; [done | ..]; cbn [Math_ceil].
  - change (Math_min (of_Z (Z.pos p)) PosInf) with (of_Z (Z.pos p)).
    rewrite Math_max_of_Z. f_equal. lia.
  - reflexivity.
  - by rewrite Math_min_of_Z, Math_max_of_Z.
Qed.

End ViewerFacts.

Section ViewerClaims.

Import JS Viewer.

Variable baseUrl : string.

Implicit Types (s : State) (n : number).

(** C3. A click at horizontal position [clientX] on a progress bar that
    starts at [left] and is [width] wide goes to page [ceil(m)], clamped
    to [1 .. totalSlides], where [m] is [(clientX - left) / width *
    totalSlides] as the browser computes it: the difference [x], the
    quotient [p] and the product [m] each rounded to a double, all three
    finite. *)
Theorem progress_click_page (rect : DOMRect) (e : MouseEvent) s (x p m : Q)
    (Hoffset : sub64 (clientX e) (left rect) = Fin x)
    (Hfraction : div64 (Fin x) (width rect) = Fin p)
    (Hproduct : mul64 (Fin p) (of_Z (totalSlides s)) = Fin m) :
  currentSlide (handleProgressClick rect e s)
  = of_Z (Z.max 1 (Z.min (totalSlides s) (Qceiling m))).
Proof.
  unfold handleProgressClick, goToSlide. cbv zeta.
  rewrite showSlide_currentSlide, Hoffset, Hfraction, Hproduct.
  cbn [Math_ceil].
  rewrite !Math_min_of_Z, !Math_max_of_Z, Math_min_of_Z, Math_max_of_Z.
  f_equal. lia.
Qed.

(** C8. At the first page [previousSlide] changes nothing, and at the
    last page [nextSlide] changes nothing: the whole state stays as it is. *)
Theorem navigation_stops_at_edges (first final : State)
    (Hfirst : currentSlide first = of_Z 1)
    (Hfinal : currentSlide final = of_Z (totalSlides final)) :
  previousSlide first = first /\ nextSlide final = final.
Proof.
  split.
  - unfold previousSlide. by rewrite Hfirst.
  - unfold nextSlide. by rewrite Hfinal, ltb_of_Z, Z.ltb_irrefl.
Qed.

(** C9. On a page holding the viewer's elements, the hover preview and a
    click at the same position agree: the click goes to
    [max(1, min(totalSlides, ceil(fraction * totalSlides)))], the preview is
    labelled with that page, and its image is the one the click puts in the
    current-slide slot. *)
Theorem thumbnail_shows_click_page (rect : DOMRect) (e : MouseEvent) s
    (Hpage : page_ready (document s) = true) :
  let clicked := handleProgressClick rect e s in
  let hovered := showThumbnail rect e s in
  let fraction := div64 (sub64 (clientX e) (left rect)) (width rect) in
  currentSlide clicked
  = Math_max (of_Z 1)
      (Math_min (of_Z (totalSlides s))
         (Math_ceil (mul64 fraction (of_Z (totalSlides s)))))
  /\ textContent <$> document hovered !! thumbnailNumber
     = Some (to_string (currentSlide clicked) +:+ " / "
               +:+ string_of_Z (totalSlides s))
  /\ is_Some (document hovered !! thumbnailImage ≫= getAttribute "src")
  /\ document hovered !! thumbnailImage ≫= getAttribute "src"
     = document clicked !! slideCurrent ≫= getAttribute "src".
Proof.
  destruct (page_ready_lookup _ thumbnailNumber Hpage) as [num Hnum];
    [element_listed |].
  destruct (page_ready_lookup _ thumbnailImage Hpage) as [img Himg];
    [element_listed |].
  destruct (page_ready_lookup _ slideCurrent Hpage) as [cur Hcur];
    [element_listed |].
  cbv zeta. unfold handleProgressClick, goToSlide.
  rewrite showSlide_slideCurrent, showSlide_currentSlide, clamp_twice.
  split; [reflexivity |].
  unfold showThumbnail. state_simpl. lookup_simpl.
  rewrite Hnum, Himg, Hcur. cbn [fmap option_fmap option_map mbind option_bind].
  unfold getAttribute, setAttribute. cbn [attributes set_attributes textContent set_textContent].
  rewrite !lookup_insert_eq. by repeat split.
Qed.

Lemma enterScrollMode_keeps s :
  slideImages (enterScrollMode s) = slideImages s
  /\ currentSlide (enterScrollMode s) = currentSlide s
  /\ search (enterScrollMode s) = search s.
Proof.
  unfold enterScrollMode, scrollToCurrentSlide. cbv zeta.
  by repeat case_match.
Qed.

Lemma toggleScrollMode_enters_keeps g s :
  has_class body "scroll-mode" (document s) = false ->
  slideImages (toggleScrollMode g s) = slideImages s
  /\ currentSlide (toggleScrollMode g s) = currentSlide s
  /\ search (toggleScrollMode g s) = search s.
Proof.
  intros Hbody. unfold toggleScrollMode. rewrite Hbody. cbv zeta.
  match goal with
  | |- context [enterScrollMode ?x] =>
      destruct (enterScrollMode_keeps x) as (-> & -> & ->)
  end.
  done.
Qed.

(** The last two steps of [init] on a page in paged mode. *)
Lemma init_tail_keeps (narrow_or_scroll not_from_list : bool) g s :
  has_class body "scroll-mode" (document s) = false ->
  let s1 := if narrow_or_scroll then toggleScrollMode g s else s in
  let s2 :=
    if not_from_list then
      on closeButton_parentElement (setStyle "display" (CssText "none")) s1
    else s1 in
  slideImages s2 = slideImages s
  /\ currentSlide s2 = currentSlide s
  /\ search s2 = search s.
Proof.
  intros Hbody. destruct (toggleScrollMode_enters_keeps g s Hbody) as (Hi & Hc & Hs).
  destruct narrow_or_scroll, not_from_list; cbv zeta; state_simpl; done.
Qed.

(** C7. For a deck of 5 pages in format ["png"], opened at a URL without
    [page] on a page that holds the viewer's elements and starts in paged
    mode: [init] leaves exactly the five image paths [slide-001.png] to
    [slide-005.png] of the deck, shows page 1 and has written [page=1] into
    the URL. *)
Theorem five_png_pages_default_page (pathname : string)
    (params : gmap string string) (page_title : string) (d : Document)
    (md : Metadata) (innerWidth : number) (g : ScrollGeometry)
    (Hcount : pageCount md = 5)
    (Hformat : format md = Some "png")
    (Hnopage : params !! "page" = None)
    (Hpage : page_ready d = true)
    (Hpaged : has_class body "scroll-mode" d = false) :
  let s0 := new_SlidefViewer pathname params page_title d in
  let s := init baseUrl (Response true (Json md)) innerWidth g s0 in
  slideImages s
  = map (fun file =>
           baseUrl +:+ "/slides/" +:+ slideName s0 +:+ "/images/" +:+ file)
        ["slide-001.png"; "slide-002.png"; "slide-003.png"; "slide-004.png";
         "slide-005.png"]
  /\ currentSlide s = of_Z 1
  /\ search s !! "page" = Some "1".
Proof.
  destruct md as [nm ti pc fm]. cbn in Hcount, Hformat. subst pc fm.
  cbv zeta. unfold init, new_SlidefViewer, loadMetadata. cbv zeta.
  set (nameOf := match last _ with Some _ => _ | None => _ end).
  rewrite Hnopage.
  change (parseInt (or_else None "1")) with (of_Z 1).
  state_simpl.
  set (shown := showSlide _ true _).
  assert (Himages : slideImages shown
                    = map (fun file =>
                             baseUrl +:+ "/slides/" +:+ nameOf +:+ "/images/" +:+ file)
                        ["slide-001.png"; "slide-002.png"; "slide-003.png";
                         "slide-004.png"; "slide-005.png"]).
  { vm_compute. reflexivity. }
  assert (Hcurrent : currentSlide shown = of_Z 1).
  { vm_compute. reflexivity. }
  assert (Hsearch : search shown = <["page" := "1"]> params).
  { vm_compute. reflexivity. }
  assert (Hbody : has_class body "scroll-mode" (document shown) = false).
  { unfold has_class in *. subst shown.
    rewrite showSlide_other by (by repeat (apply not_elem_of_cons; split); [.. | apply not_elem_of_nil]).
    unfold setupEventListeners, showControls. state_simpl. lookup_simpl.
    destruct (d !! body) as [el |]; [| done]. cbn.
    by rewrite contains_add_ne. }
  clearbody shown.
  rewrite Hsearch, lookup_insert_eq.
  match goal with
  | |- context [if ?b1 then on _ _ (if ?b2 then _ else _) else _] =>
      destruct (init_tail_keeps b2 b1 g shown Hbody) as (Hi & Hc & Hs)
  end.
  cbv zeta in Hi, Hc, Hs. rewrite Hi, Hc, Hs.
  rewrite Himages, Hcurrent, Hsearch, lookup_insert_eq. done.
Qed.

(** The wheel handler does stand back in scroll mode and while the
    overview is open, and within a throttle window. *)
Lemma handleWheel_suppressed (e : WheelEvent) s :
  has_class body "scroll-mode" (document s) = true
  \/ has_class overviewModal "hidden" (document s) = false ->
  handleWheel e s = (s, false).
Proof.
  intros [H | H]; unfold handleWheel; rewrite H; [done |].
  by rewrite orb_true_r.
Qed.

Lemma handleWheel_throttled (e : WheelEvent) s :
  wheelThrottleTimer s = true -> currentSlide (handleWheel e s).1 = currentSlide s.
Proof.
  intros H. unfold handleWheel. rewrite H. by destruct (_ || _)%bool.
Qed.

(** The keyboard handler, by contrast, navigates whatever the mode and
    whatever dialog is open: nothing about the page enters here. *)
Lemma handleKeyPress_next_regardless (z : Z) s :
  currentSlide s = of_Z z -> 1 <= z + 1 <= totalSlides s ->
  currentSlide (handleKeyPress {| key := "ArrowRight" |} s).1 = of_Z (z + 1).
Proof.
  intros Hcur Hz. unfold handleKeyPress. cbn [key String.eqb is_previous_key is_next_key Ascii.eqb Bool.eqb orb fst].
  unfold nextSlide. rewrite Hcur, ltb_of_Z.
  destruct (Z.ltb_spec z (totalSlides s)); [| lia].
  unfold goToSlide. rewrite add_of_Z, showSlide_of_Z. f_equal. lia.
Qed.

(** Escape closes the overview when it is open, else the share dialog when
    that is open, and never navigates. *)
Lemma handleKeyPress_Escape s :
  handleKeyPress {| key := "Escape" |} s
  = if negb (has_class overviewModal "hidden" (document s)) then
      (closeOverviewModal s, true)
    else if negb (has_class shareModal "hidden" (document s)) then
      (closeShareModal s, true)
    else (s, false).
Proof. unfold handleKeyPress. cbn. by repeat case_match. Qed.

End ViewerClaims.

(** The scenario of the specification: a click 42% along the bar of a
    10-page deck goes to page 5. *)
Lemma progress_click_page_witness :
  Viewer.currentSlide
    (Viewer.handleProgressClick
       {| Viewer.left := JS.of_Z 100; Viewer.width := JS.of_Z 500 |}
       {| Viewer.clientX := JS.of_Z 310 |}
       (Sample.opened Sample.deck10 ∅ 1280))
  = JS.of_Z 5.
Proof.
  rewrite (progress_click_page _ _ _ (210 # 1)
             (7566047373982433 # 18014398509481984)
             (4728779608739021 # 1125899906842624));
    vm_compute; reflexivity.
Defined.

(** C3, read in exact arithmetic, fails: on a 25-page deck a click at
    [clientX = 28] on a bar that starts at 0 and is 100 wide goes to page
    8.  The double nearest to 28/100 lies above it, 25 times that rounds
    to the double after 7, and [Math.ceil] makes it 8; the exact product
    is 7. *)
Lemma progress_click_page_not_exact_ceiling :
  ~ (forall (rect : Viewer.DOMRect) (e : Viewer.MouseEvent)
       (s : Viewer.State) (cx l w : Q),
       Viewer.clientX e = JS.Fin cx ->
       Viewer.left rect = JS.Fin l ->
       Viewer.width rect = JS.Fin w ->
       (0 < w)%Q ->
       Viewer.currentSlide (Viewer.handleProgressClick rect e s)
       = JS.of_Z
           (Z.max 1
              (Z.min (Viewer.totalSlides s)
                 (Qceiling
                    ((cx - l) / w * inject_Z (Viewer.totalSlides s)))))).
Proof.
  intros H.
  specialize (H {| Viewer.left := JS.of_Z 0; Viewer.width := JS.of_Z 100 |}
                {| Viewer.clientX := JS.of_Z 28 |}
                (Sample.opened Sample.deck25 ∅ 1280)
                (inject_Z 28) (inject_Z 0) (inject_Z 100)
                eq_refl eq_refl eq_refl eq_refl).
  vm_compute in H. discriminate H.
Qed.

Example progress_click_rounding :
  JS.div64 (JS.of_Z 28) (JS.of_Z 100)
  = JS.Fin (1261007895663739 # 4503599627370496)
  /\ JS.mul64 (JS.div64 (JS.of_Z 28) (JS.of_Z 100)) (JS.of_Z 25)
     = JS.Fin (7881299347898369 # 1125899906842624)
  /\ JS.mul (JS.div (JS.of_Z 28) (JS.of_Z 100)) (JS.of_Z 25) = JS.of_Z 7
  /\ Viewer.currentSlide
       (Viewer.handleProgressClick
          {| Viewer.left := JS.of_Z 0; Viewer.width := JS.of_Z 100 |}
          {| Viewer.clientX := JS.of_Z 28 |}
          (Sample.opened Sample.deck25 ∅ 1280))
     = JS.of_Z 8.
Proof. vm_compute. repeat split. Qed.

Lemma navigation_stops_at_edges_witness :
  Viewer.previousSlide (Sample.opened Sample.deck5 ∅ 1280)
    = Sample.opened Sample.deck5 ∅ 1280
  /\ Viewer.nextSlide (Sample.opened Sample.deck5 {[ "page" := "5" ]} 1280)
     = Sample.opened Sample.deck5 {[ "page" := "5" ]} 1280.
Proof.
  apply (navigation_stops_at_edges
           (Sample.opened Sample.deck5 ∅ 1280)
           (Sample.opened Sample.deck5 {[ "page" := "5" ]} 1280));
    vm_compute; reflexivity.
Defined.

Lemma thumbnail_shows_click_page_witness :
  let rect := {| Viewer.left := JS.of_Z 100; Viewer.width := JS.of_Z 500 |} in
  let e := {| Viewer.clientX := JS.of_Z 310 |} in
  let s := Sample.opened Sample.deck10 ∅ 1280 in
  Viewer.currentSlide (Viewer.handleProgressClick rect e s) = JS.of_Z 5
  /\ textContent
       <$> Viewer.document (Viewer.showThumbnail rect e s) !! Viewer.thumbnailNumber
     = Some "5 / 10"
  /\ Viewer.document (Viewer.showThumbnail rect e s) !! Viewer.thumbnailImage
       ≫= getAttribute "src"
     = Some "/slides/talk/images/slide-005.webp".
Proof.
  cbv zeta.
  destruct (thumbnail_shows_click_page
              {| Viewer.left := JS.of_Z 100; Viewer.width := JS.of_Z 500 |}
              {| Viewer.clientX := JS.of_Z 310 |}
              (Sample.opened Sample.deck10 ∅ 1280))
    as (Htarget & Hlabel & _ & Hsrc).
  - vm_compute. reflexivity.
  - split; [| split].
    + rewrite Htarget. vm_compute. reflexivity.
    + rewrite Hlabel. vm_compute. reflexivity.
    + rewrite Hsrc. vm_compute. reflexivity.
Defined.

Lemma five_png_pages_default_page_witness :
  let s0 :=
    Viewer.new_SlidefViewer ("/" +:+ Viewer.name Sample.deck5) ∅ ""
      Sample.viewer_page in
  let s := Sample.opened Sample.deck5 ∅ 1280 in
  Viewer.slideImages s
  = map (fun file =>
           "" +:+ "/slides/" +:+ Viewer.slideName s0 +:+ "/images/" +:+ file)
        ["slide-001.png"; "slide-002.png"; "slide-003.png"; "slide-004.png";
         "slide-005.png"]
  /\ Viewer.currentSlide s = JS.of_Z 1
  /\ Viewer.search s !! "page" = Some "1".
Proof.
  apply (five_png_pages_default_page "" ("/" +:+ Viewer.name Sample.deck5) ∅ ""
           Sample.viewer_page Sample.deck5 (JS.of_Z 1280) Sample.at_top).
  - reflexivity.
  - reflexivity.
  - reflexivity.
  - vm_compute. reflexivity.
  - vm_compute. reflexivity.
Defined.

(** The paths in full. *)
Example five_png_pages_paths :
  Viewer.slideImages (Sample.opened Sample.deck5 ∅ 1280)
  = [ "/slides/deck/images/slide-001.png"; "/slides/deck/images/slide-002.png";
      "/slides/deck/images/slide-003.png"; "/slides/deck/images/slide-004.png";
      "/slides/deck/images/slide-005.png" ].
Proof. vm_compute. reflexivity. Qed.

(** C1, at [?page=abc] on a deck of 5 pages.  [parseInt] gives NaN, the
    clamp of [showSlide] passes it on, and the viewer ends on page NaN:
    outside [1 .. 5], written to the URL and to the progress bar, and
    neither [nextSlide] nor [previousSlide] leaves it. *)
Theorem non_numeric_page_is_not_clamped :
  let s := Sample.opened Sample.deck5 {[ "page" := "abc" ]} 1280 in
  Viewer.totalSlides s = 5
  /\ Viewer.currentSlide s = JS.NaN
  /\ JS.leb (JS.of_Z 1) (Viewer.currentSlide s) = false
  /\ Viewer.search s !! "page" = Some "NaN"
  /\ (Viewer.document s !! Viewer.progressFill) ≫= (fun el => style el !! "width")
     = Some (CssPercent JS.NaN)
  /\ Viewer.nextSlide s = s
  /\ Viewer.previousSlide s = s.
Proof.
  intros s.
  assert (Hcurrent : Viewer.currentSlide s = JS.NaN) by (vm_compute; reflexivity).
  repeat apply conj.
  - vm_compute. reflexivity.
  - exact Hcurrent.
  - by rewrite Hcurrent.
  - vm_compute. reflexivity.
  - vm_compute. reflexivity.
  - unfold Viewer.nextSlide. by rewrite Hcurrent.
  - unfold Viewer.previousSlide. by rewrite Hcurrent.
Qed.

(** C2, in scroll mode and behind an open dialog.  [handleKeyPress] tests
    neither: the arrow, space and End keys navigate all the same, in scroll
    mode, behind the overview and behind the share dialog (shown, as
    [openShareModal] does, by removing its [hidden] class). *)
Theorem keys_navigate_in_scroll_mode_and_behind_dialogs :
  let scrolling := Sample.opened Sample.deck5 ∅ 375 in
  let overview := Viewer.openOverviewModal (Sample.opened Sample.deck5 ∅ 1280) in
  let sharing :=
    Viewer.on Viewer.shareModal (classList_remove "hidden")
      (Sample.opened Sample.deck5 ∅ 1280) in
  has_class Viewer.body "scroll-mode" (Viewer.document scrolling) = true
  /\ Viewer.currentSlide scrolling = JS.of_Z 1
  /\ Viewer.currentSlide
       (Viewer.handleKeyPress {| Viewer.key := "ArrowRight" |} scrolling).1
     = JS.of_Z 2
  /\ Viewer.currentSlide
       (Viewer.handleKeyPress {| Viewer.key := "End" |} scrolling).1
     = JS.of_Z 5
  /\ has_class Viewer.overviewModal "hidden" (Viewer.document overview) = false
  /\ Viewer.currentSlide overview = JS.of_Z 1
  /\ Viewer.currentSlide
       (Viewer.handleKeyPress {| Viewer.key := " " |} overview).1
     = JS.of_Z 2
  /\ has_class Viewer.shareModal "hidden" (Viewer.document sharing) = false
  /\ Viewer.currentSlide sharing = JS.of_Z 1
  /\ Viewer.currentSlide
       (Viewer.handleKeyPress {| Viewer.key := "PageDown" |} sharing).1
     = JS.of_Z 2.
Proof. vm_compute. repeat split. Qed.

(* ===================================================================== *)
(** * Theme manager: further properties *)
(* ===================================================================== *)

Section ThemeFurther.

Import Theme.

Lemma lookup_documentElement_ne (k : string) f (d : Document) :
  k <> "html" -> update_documentElement f d !! k = d !! k.
Proof.
  intros Hk. unfold update_documentElement.
  by rewrite (lookup_insert_ne (M:=gmap string)).
Qed.

Lemma on_system_theme_change_storage m s :
  localStorage (on_system_theme_change m s) = localStorage s.
Proof.
  unfold on_system_theme_change. destruct (JS.falsy _); [| done].
  by rewrite apply_localStorage.
Qed.

(** X1. A stored, non-empty theme wins over the OS preference when the
    manager is constructed, whatever text it is; it is applied to the root
    element, and the constructor writes nothing to storage. *)
Theorem stored_theme_wins (storage : gmap string string) (dark : bool)
    (d : Document) (t : string)
    (Hstored : storage !! THEME_KEY = Some t)
    (Hnonempty : t <> "") :
  currentTheme (new_ThemeManager storage dark d) = t
  /\ applied (new_ThemeManager storage dark d) = Some t
  /\ localStorage (new_ThemeManager storage dark d) = storage.
Proof.
  unfold new_ThemeManager. cbv zeta.
  rewrite apply_currentTheme, apply_applied, apply_localStorage.
  unfold getStoredTheme. cbn [localStorage currentTheme set_currentTheme].
  rewrite Hstored. destruct t; [done |]. by cbn.
Qed.

(** X2. A visitor who has never toggled follows the OS: with no theme
    stored, after any sequence of OS preference changes the applied theme
    is that of the last change (that of the OS at construction when there
    was none), and storage is still as it was. *)
Theorem unstored_theme_follows_os (storage : gmap string string)
    (dark : bool) (d : Document) (changes : list bool)
    (Hnone : storage !! THEME_KEY = None) :
  let s :=
    foldl (fun s m => on_system_theme_change m s)
      (new_ThemeManager storage dark d) changes in
  applied s = Some (if List.last changes dark then "dark" else "light")
  /\ currentTheme s = (if List.last changes dark then "dark" else "light")
  /\ localStorage s = storage.
Proof.
  cbv zeta. induction changes as [| m changes IH] using rev_ind.
  - cbn [foldl List.last]. unfold new_ThemeManager. cbv zeta.
    rewrite apply_currentTheme, apply_applied, apply_localStorage.
    unfold getStoredTheme, getSystemTheme.
    cbn [localStorage currentTheme set_currentTheme prefersDark].
    rewrite Hnone. by destruct dark.
  - rewrite foldl_app, last_last. cbn [foldl].
    destruct IH as (_ & _ & IHstorage).
    set (s := foldl _ _ changes) in *.
    unfold on_system_theme_change. rewrite IHstorage, Hnone. cbn [JS.falsy].
    rewrite apply_currentTheme, apply_applied, apply_localStorage.
    cbn [localStorage currentTheme set_currentTheme].
    by destruct m.
Qed.

(** X3. Once [toggle()] has run, OS preference changes are ignored for
    good: any sequence of them leaves the whole state as the toggle left
    it. *)
Theorem toggle_pins_theme (s : State) (changes : list bool) :
  foldl (fun s m => on_system_theme_change m s) (toggle s) changes = toggle s.
Proof.
  induction changes as [| m changes IH] using rev_ind; [done |].
  rewrite foldl_app, IH. cbn [foldl].
  unfold on_system_theme_change.
  rewrite toggle_localStorage, lookup_insert_eq, toggle_currentTheme.
  by destruct (String.eqb _ _).
Qed.

Lemma apply_icons s :
  is_Some (document s !! ".sun-icon") -> is_Some (document s !! ".moon-icon") ->
  has_class ".sun-icon" "hidden" (document (apply s))
    = String.eqb (currentTheme s) THEME_DARK
  /\ has_class ".moon-icon" "hidden" (document (apply s))
     = negb (String.eqb (currentTheme s) THEME_DARK).
Proof.
  intros [sun Hsun] [moon Hmoon]. unfold apply, updateIcons.
  cbn [document set_document currentTheme].
  rewrite !lookup_documentElement_ne by done.
  rewrite Hsun, Hmoon.
  destruct (String.eqb (currentTheme s) THEME_DARK); cbn [document set_document negb].
  - split.
    + rewrite has_class_update_ne by done. apply has_class_add.
      by rewrite lookup_documentElement_ne, Hsun.
    + apply has_class_remove.
  - split.
    + rewrite has_class_update_ne by done. apply has_class_remove.
    + apply has_class_add. rewrite update_is_Some.
      by rewrite lookup_documentElement_ne, Hmoon.
Qed.

(** X4. On a page with both icons, after [toggle()] exactly one of them is
    hidden: the sun icon when the new theme is dark, the moon icon
    otherwise. *)
Theorem toggle_icons (s : State)
    (Hsun : is_Some (document s !! ".sun-icon"))
    (Hmoon : is_Some (document s !! ".moon-icon")) :
  has_class ".sun-icon" "hidden" (document (toggle s))
    = String.eqb (currentTheme (toggle s)) "dark"
  /\ has_class ".moon-icon" "hidden" (document (toggle s))
     = negb (String.eqb (currentTheme (toggle s)) "dark").
Proof.
  rewrite toggle_currentTheme. unfold toggle. cbv zeta.
  apply apply_icons; done.
Qed.

(** X5. On a page where one of the two icons is missing, [toggle()] leaves
    every element other than the root as it was: the icon that is there
    keeps its classes. *)
Theorem toggle_without_icon (s : State) (k : string)
    (Hmissing : document s !! ".sun-icon" = None
                \/ document s !! ".moon-icon" = None)
    (Hother : k <> "html") :
  document (toggle s) !! k = document s !! k.
Proof.
  unfold toggle, apply, updateIcons. cbv zeta.
  cbn [document set_document setStoredTheme set_localStorage set_currentTheme].
  rewrite !lookup_documentElement_ne by done.
  destruct Hmissing as [-> | ->].
  - cbn [document set_document]. by rewrite lookup_documentElement_ne.
  - destruct (document s !! ".sun-icon"); cbn [document set_document];
      by rewrite lookup_documentElement_ne.
Qed.

End ThemeFurther.

Lemma stored_theme_wins_witness :
  Theme.currentTheme
    (Theme.new_ThemeManager {[ Theme.THEME_KEY := "sepia" ]} true Sample.theme_page)
  = "sepia"
  /\ Theme.applied
       (Theme.new_ThemeManager {[ Theme.THEME_KEY := "sepia" ]} true Sample.theme_page)
     = Some "sepia"
  /\ Theme.localStorage
       (Theme.new_ThemeManager {[ Theme.THEME_KEY := "sepia" ]} true Sample.theme_page)
     = {[ Theme.THEME_KEY := "sepia" ]}.
Proof.
  apply (stored_theme_wins {[ Theme.THEME_KEY := "sepia" ]} true
           Sample.theme_page "sepia").
  - reflexivity.
  - discriminate.
Defined.

Lemma unstored_theme_follows_os_witness :
  let s :=
    foldl (fun s m => Theme.on_system_theme_change m s)
      (Theme.new_ThemeManager ∅ false Sample.theme_page) [true; false; true] in
  Theme.applied s = Some "dark"
  /\ Theme.currentTheme s = "dark"
  /\ Theme.localStorage s = ∅.
Proof.
  apply (unstored_theme_follows_os ∅ false Sample.theme_page [true; false; true]).
  reflexivity.
Defined.

Lemma toggle_icons_witness :
  has_class ".sun-icon" "hidden"
    (Theme.document (Theme.toggle Sample.first_visit_light))
  = String.eqb (Theme.currentTheme (Theme.toggle Sample.first_visit_light)) "dark"
  /\ has_class ".moon-icon" "hidden"
       (Theme.document (Theme.toggle Sample.first_visit_light))
     = negb (String.eqb (Theme.currentTheme (Theme.toggle Sample.first_visit_light))
               "dark").
Proof.
  apply (toggle_icons Sample.first_visit_light).
  - eexists. vm_compute. reflexivity.
  - eexists. vm_compute. reflexivity.
Defined.

Lemma toggle_without_icon_witness :
  Theme.document
    (Theme.toggle
       (Theme.new_ThemeManager ∅ false
          (delete ".moon-icon" Sample.theme_page))) !! ".sun-icon"
  = Theme.document
      (Theme.new_ThemeManager ∅ false
         (delete ".moon-icon" Sample.theme_page)) !! ".sun-icon".
Proof.
  apply (toggle_without_icon
           (Theme.new_ThemeManager ∅ false (delete ".moon-icon" Sample.theme_page))
           ".sun-icon").
  - right. vm_compute. reflexivity.
  - discriminate.
Defined.

(* ===================================================================== *)
(** * Slide index: further properties *)
(* ===================================================================== *)

Lemma has_class_update_keep (k c : string) (f : Element -> Element)
    (d : Document) :
  (forall e, classList (f e) = classList e) ->
  has_class k c (update k f d) = has_class k c d.
Proof.
  intros Hf. rewrite has_class_update. unfold has_class, classList_contains.
  destruct (d !! k); [| done]. by rewrite Hf.
Qed.

Section IndexFurther.

Import Index.

Variable BASE_URL : string.
Variable formatDate : string -> string.

Lemma index_ready_lookup (s : State) (k : string) :
  page_ready s = true -> k ∈ elements -> is_Some (document s !! k).
Proof. apply has_elements_lookup. Qed.

(** What [showEmptyState] leaves of the two views. *)
Lemma showEmptyState_views (s : State) :
  is_Some (document s !! slidesContainer) ->
  has_class emptyState "hidden" (document (showEmptyState s)) = false
  /\ has_class slidesContainer "hidden" (document (showEmptyState s)) = true
  /\ alerts (showEmptyState s) = alerts s
  /\ isDevMode (showEmptyState s) = isDevMode s.
Proof.
  intros Hc. unfold showEmptyState. cbn [document alerts isDevMode on set_document].
  repeat split.
  - rewrite has_class_update_ne by done. apply has_class_remove.
  - apply has_class_add. by rewrite update_is_Some.
Qed.

(** What [renderSlides] leaves of the two views. *)
Lemma renderSlides_views (slides : Listing) (s s' : State) :
  is_Some (document s !! slidesContainer) ->
  is_Some (document s !! emptyState) ->
  renderSlides BASE_URL formatDate slides s = Return s' ->
  has_class emptyState "hidden" (document s')
    = negb (has_class slidesContainer "hidden" (document s'))
  /\ alerts s' = alerts s
  /\ isDevMode s' = isDevMode s.
Proof.
  intros Hc He. destruct slides as [[| slide rest] |]; cbn [renderSlides];
    intros [= <-].
  - destruct (showEmptyState_views s Hc) as (-> & -> & -> & ->). done.
  - cbn [document alerts isDevMode on set_document]. repeat split.
    rewrite has_class_update_keep by done.
    rewrite has_class_remove. rewrite !has_class_update_ne by done.
    by rewrite has_class_add.
Qed.

(** X6. Whatever the dev-mode probe and the listing requests answer,
    [init] on a page holding the index elements ends with exactly one of
    the listing and the empty-state view hidden, shows no alert, and is in
    dev mode exactly when the probe came back ok. *)
Theorem init_shows_one_view (probe : Fetch Listing) (net : Network)
    (d : Document)
    (Hpage : has_elements elements d = true) :
  let s := init BASE_URL formatDate probe net (new_SlideIndex d) in
  has_class emptyState "hidden" (document s)
    = negb (has_class slidesContainer "hidden" (document s))
  /\ alerts s = []
  /\ isDevMode s
     = match probe with Response true _ => true | _ => false end.
Proof.
  cbv zeta. unfold init. cbv zeta.
  set (s1 := detectDevMode probe (new_SlideIndex d)).
  assert (Hc : is_Some (document s1 !! slidesContainer)).
  { subst s1. destruct probe as [| [|] ?]; cbn; rewrite ?update_is_Some;
      apply (has_elements_lookup elements); try done; unfold elements;
      repeat (apply elem_of_cons; first [by left | right]). }
  assert (He : is_Some (document s1 !! emptyState)).
  { subst s1. destruct probe as [| [|] ?]; cbn; rewrite ?update_is_Some;
      apply (has_elements_lookup elements); try done; unfold elements;
      repeat (apply elem_of_cons; first [by left | right]). }
  assert (Ha : alerts s1 = []) by (subst s1; by destruct probe as [| [|] ?]).
  assert (Hd : isDevMode s1
               = match probe with Response true _ => true | _ => false end)
    by (subst s1; by destruct probe as [| [|] ?]).
  clearbody s1.
  assert (Hfailed : forall m,
    let s := showEmptyState (console_log ("Failed to load slides: " +:+ m) s1) in
    has_class emptyState "hidden" (document s)
      = negb (has_class slidesContainer "hidden" (document s))
    /\ alerts s = []
    /\ isDevMode s
       = match probe with Response true _ => true | _ => false end).
  { intros m. cbv zeta.
    destruct (showEmptyState_views
                (console_log ("Failed to load slides: " +:+ m) s1))
      as (-> & -> & -> & ->); [done |].
    cbn [alerts isDevMode console_log]. by rewrite Ha, Hd. }
  destruct (loadSlides net s1) as [slides | m]; [| apply Hfailed].
  destruct (renderSlides BASE_URL formatDate slides s1) as [s2 | m] eqn:Hr;
    [| apply Hfailed].
  destruct (renderSlides_views slides s1 s2 Hc He Hr) as (-> & -> & ->).
  by rewrite Ha, Hd.
Qed.

Lemma map_imap_const {A B C : Type} (g : nat -> A -> B) (h : B -> C)
    (k : A -> C) (l : list A) :
  (forall i a, h (g i a) = k a) -> map h (imap g l) = map k l.
Proof.
  revert g. induction l as [| a l IH]; intros g Hg; [done |].
  cbn. rewrite Hg. f_equal. apply IH. intros i b. apply Hg.
Qed.

Lemma card_href_createSlideCard (s : State) (slide : SlideSummary) :
  card_href (createSlideCard BASE_URL formatDate s slide)
  = Some (name slide +:+ "?from=list").
Proof.
  unfold createSlideCard. cbv zeta.
  destruct (isDevMode s); unfold card_href, card_link; cbn;
    unfold getAttribute; cbn; by rewrite lookup_insert_eq.
Qed.

(** X7. Rendering a non-empty listing replaces whatever the container
    held by one card per deck, in the order of the listing, each linking
    to [<name>?from=list]. *)
Theorem renderSlides_lists_each_deck (l : list SlideSummary) (s : State)
    (Hnonempty : l <> [])
    (Hcontainer : is_Some (document s !! slidesContainer)) :
  exists s',
    renderSlides BASE_URL formatDate (Some l) s = Return s'
    /\ map card_href (listed s')
       = map (fun slide => Some (name slide +:+ "?from=list")) l.
Proof.
  destruct Hcontainer as [c Hc]. destruct l as [| slide rest]; [done |].
  eexists. split; [reflexivity |].
  unfold listed. cbn [document on set_document].
  rewrite lookup_update, lookup_update, lookup_update_ne, Hc by done.
  cbn [fmap option_fmap option_map children set_children].
  unfold cards. apply map_imap_const. intros i a.
  rewrite <- (card_href_createSlideCard s a). reflexivity.
Qed.

(** X8. The thumbnail of a card is the first slide image of the viewer:
    for a deck with at least one page, the [src] that [createSlideCard]
    gives the thumbnail is the first of the paths [loadMetadata] generates
    for the same deck name, format and base URL. *)
Theorem card_thumbnail_is_first_slide (s : State) (slide : SlideSummary)
    (Hpages : 1 <= pageCount slide) :
  card_thumbnail (createSlideCard BASE_URL formatDate s slide)
  = head (Viewer.image_paths BASE_URL (name slide)
            (JS.or_else (format slide) "webp") (pageCount slide)).
Proof.
  unfold Viewer.image_paths.
  destruct (Z.to_nat (pageCount slide)) as [| n] eqn:Hn; [lia |].
  cbn [seq map head].
  unfold createSlideCard. cbv zeta.
  destruct (isDevMode s); unfold card_thumbnail, card_link; cbn;
    unfold getAttribute; cbn;
    by rewrite lookup_insert_ne, lookup_insert_ne, lookup_insert_eq.
Qed.

(** [renderSlides] touches the two views only. *)
Lemma renderSlides_keeps (slides : Listing) (s s' : State) :
  renderSlides BASE_URL formatDate slides s = Return s' ->
  alerts s' = alerts s
  /\ isImporting s' = isImporting s
  /\ currentEditingSlide s' = currentEditingSlide s
  /\ forall k, k <> slidesContainer -> k <> emptyState ->
       document s' !! k = document s !! k.
Proof.
  destruct slides as [[| slide rest] |]; cbn [renderSlides]; intros [= <-];
    cbn; repeat split; intros k H1 H2; by rewrite !lookup_update_ne.
Qed.

(** [reloadSlides] never alerts, and touches the two views only. *)
Lemma reloadSlides_keeps (net : Network) (s : State) :
  alerts (reloadSlides BASE_URL formatDate net s) = alerts s
  /\ isImporting (reloadSlides BASE_URL formatDate net s) = isImporting s
  /\ currentEditingSlide (reloadSlides BASE_URL formatDate net s)
     = currentEditingSlide s
  /\ forall k, k <> slidesContainer -> k <> emptyState ->
       document (reloadSlides BASE_URL formatDate net s) !! k
       = document s !! k.
Proof.
  unfold reloadSlides. destruct (loadSlides net s) as [slides | m]; [| done].
  destruct (renderSlides BASE_URL formatDate slides s) as [s' | m] eqn:Hr;
    [| done].
  by apply renderSlides_keeps in Hr.
Qed.

(** X9. When the import request succeeds, the flow ends with the dialog
    closed and [isImporting] false, and no alert is shown, whatever the
    reload of the listing then meets. *)
Theorem successful_import_closes (resp : Fetch ImportBody) (net : Network)
    (s : State)
    (Hok : import_error resp = None)
    (Hpage : page_ready s = true) :
  let s' := import_flow BASE_URL formatDate resp net s in
  (handleImport resp s).2 = CloseAndReload
  /\ has_class importModal "hidden" (document s') = true
  /\ alerts s' = alerts s
  /\ isImporting s' = Some false.
Proof.
  assert (Hmodal : is_Some (document s !! importModal)).
  { apply index_ready_lookup; [done |]. unfold elements.
    repeat (apply elem_of_cons; first [by left | right]). }
  cbv zeta.
  unfold import_flow, handleImport, handleImport_response, handleImport_request.
  rewrite Hok. cbn [fst snd run_timer].
  split; [reflexivity |].
  match goal with
  | |- context [reloadSlides _ _ net ?x] =>
      destruct (reloadSlides_keeps net x) as (-> & -> & _ & Hdoc)
  end.
  unfold has_class. rewrite Hdoc by done.
  split; [| done].
  cbn [closeImportModal document on set_document set_isImporting].
  lookup_simpl.
  destruct Hmodal as [e ->]. cbn. apply contains_add.
Qed.

(** X10. A successful delete whose reload of the listing fails is silent:
    no alert is shown and the page is left as it was, the deleted deck
    still listed. *)
Theorem delete_with_failed_reload_is_silent {A : Type} (body : Body A)
    (net : Network) (slide : SlideSummary) (s : State) (m : string)
    (Hreload : loadSlides net s = Throw m) :
  let s' :=
    handleDeleteSlide BASE_URL formatDate true (Response true body) net slide s in
  alerts s' = alerts s /\ document s' = document s.
Proof.
  cbv zeta. unfold handleDeleteSlide, reloadSlides. by rewrite Hreload.
Qed.

(** X11. A delete that the user does not confirm changes nothing; one
    whose request fails (rejected, or answered with a non-ok status) shows
    exactly one alert and leaves the page as it was. *)
Theorem failed_delete_alerts_once {A : Type} (resp : Fetch A) (net : Network)
    (slide : SlideSummary) (s : State)
    (Hfail : forall body, resp <> Response true body) :
  handleDeleteSlide BASE_URL formatDate false resp net slide s = s
  /\ (exists m,
        alerts (handleDeleteSlide BASE_URL formatDate true resp net slide s)
        = alerts s ++ ["Failed to delete slide: " +:+ m])
  /\ document (handleDeleteSlide BASE_URL formatDate true resp net slide s)
     = document s.
Proof.
  split; [reflexivity |]. unfold handleDeleteSlide. cbn [negb].
  destruct resp as [m | [|] body]; [| by destruct (Hfail body) |];
    (split; [by eexists | reflexivity]).
Qed.

(** X12. Opening the edit dialog on a deck and submitting: the request
    goes to [/api/slides/<name>] of that deck, and when it succeeds the
    dialog is closed, no deck is being edited any more and no alert is
    shown. *)
Theorem edit_submit_success {A : Type} (body : Body A) (net : Network)
    (slide : SlideSummary) (s : State)
    (Hmodal : is_Some (document s !! editModal)) :
  let s1 := handleEditSlide slide s in
  let s2 := handleEditSubmit BASE_URL formatDate (Response true body) net s1 in
  edit_request s1 = Some ("/api/slides/" +:+ name slide)
  /\ has_class editModal "hidden" (document s1) = false
  /\ currentEditingSlide s2 = None
  /\ has_class editModal "hidden" (document s2) = true
  /\ alerts s2 = alerts s.
Proof.
  cbv zeta. split; [reflexivity |]. split.
  { unfold handleEditSlide. cbn [document on set_document set_currentEditingSlide].
    apply has_class_remove. }
  unfold handleEditSubmit.
  cbn [handleEditSlide currentEditingSlide on set_document set_currentEditingSlide].
  match goal with
  | |- context [reloadSlides _ _ net ?x] =>
      destruct (reloadSlides_keeps net x) as (-> & _ & -> & Hdoc)
  end.
  split; [reflexivity |]. split; [| reflexivity].
  unfold has_class. rewrite Hdoc by done.
  unfold closeEditModal, handleEditSlide.
  cbn [document on set_document set_currentEditingSlide].
  lookup_simpl.
  destruct Hmodal as [e ->]. cbn. apply contains_add.
Qed.

(** X13. An edit whose request fails shows exactly one alert and keeps
    the dialog as it is, the deck still being edited, so that the user can
    submit again; with no deck being edited a submit does nothing. *)
Theorem failed_edit_keeps_dialog {A : Type} (resp : Fetch A) (net : Network)
    (slide : SlideSummary) (s : State)
    (Hfail : forall body, resp <> Response true body) :
  let s1 := handleEditSlide slide s in
  let s2 := handleEditSubmit BASE_URL formatDate resp net s1 in
  (exists m, alerts s2 = alerts s ++ ["Failed to update slide: " +:+ m])
  /\ currentEditingSlide s2 = Some slide
  /\ document s2 = document s1
  /\ handleEditSubmit BASE_URL formatDate resp net (closeEditModal s1)
     = closeEditModal s1.
Proof.
  cbv zeta. unfold handleEditSubmit.
  cbn [handleEditSlide closeEditModal currentEditingSlide on set_document
       set_currentEditingSlide].
  destruct resp as [m | [|] body]; [| by destruct (Hfail body) |];
    (split; [by eexists |]); done.
Qed.



End IndexFurther.

(* ===================================================================== *)
(** * Dates on the cards *)
(* ===================================================================== *)

Section DateProperties.

Import JS.

(** Rounding a quotient of integers down is integer division. *)
Lemma floor_div_of_Z (a b : Z) :
  0 < b -> Math_floor (div (of_Z a) (of_Z b)) = of_Z (a / b).
Proof.
  intros Hb. destruct b as [| p | p]; [lia | | lia].
  unfold div, of_Z, Qeq_bool. cbn [inject_Z Qnum Qden Z.mul Z.eqb].
  unfold fin, Math_floor, of_Z. do 2 f_equal.
  rewrite (Qfloor_comp _ _ (Qred_correct _)).
  unfold Qdiv, Qinv, Qmult, Qfloor. cbn [Qnum Qden].
  by rewrite Z.mul_1_r.
Qed.

(** The whole days between two times in milliseconds. *)
Lemma diffDays_of_Z (now date : Z) :
  Math_floor (div (sub (of_Z now) (of_Z date)) (of_Z (1000 * 60 * 60 * 24)))
  = of_Z ((now - date) / 86400000).
Proof. rewrite sub_of_Z. by apply floor_div_of_Z. Qed.

(** X15. For a deck created 7 to 364 whole days ago, [formatDate] prints
    the whole weeks, 1 to 4, up to 29 days, and from 30 days on the whole
    30-day months, 1 to 12. *)
Theorem formatDate_weeks_and_months (now date : Z) (locale_date : string)
    (Hdays : 7 <= (now - date) / 86400000 < 365) :
  let days := (now - date) / 86400000 in
  exists n : Z,
    (days < 30 /\ n = days / 7 /\ 1 <= n <= 4
     /\ Index.formatDate (of_Z now) (of_Z date) locale_date
        = string_of_Z n +:+ " weeks ago")
    \/ (30 <= days /\ n = days / 30 /\ 1 <= n <= 12
        /\ Index.formatDate (of_Z now) (of_Z date) locale_date
           = string_of_Z n +:+ " months ago").
Proof.
  cbv zeta. unfold Index.formatDate. cbv zeta. rewrite diffDays_of_Z.
  set (days := (now - date) / 86400000) in *.
  rewrite !eqb_of_Z, !ltb_of_Z, !floor_div_of_Z by lia.
  destruct (Z.eqb_spec days 0); [lia |].
  destruct (Z.eqb_spec days 1); [lia |].
  destruct (Z.ltb_spec days 7); [lia |].
  destruct (Z.ltb_spec days 30).
  - exists (days / 7). left. repeat split; try done.
    + apply Z.div_le_lower_bound; lia.
    + apply Z.lt_succ_r, Z.div_lt_upper_bound; lia.
  - destruct (Z.ltb_spec days 365); [| lia].
    exists (days / 30). right. repeat split; try done.
    + apply Z.div_le_lower_bound; lia.
    + apply Z.lt_succ_r, Z.div_lt_upper_bound; lia.
Qed.

(** X16. A creation date in the future is printed as a negative number
    of days ago, and an unreadable date (NaN) falls through every
    comparison to the locale text. *)
Theorem formatDate_future_and_unreadable (now date : Z) (locale_date : string)
    (Hfuture : now < date) :
  Index.formatDate (of_Z now) (of_Z date) locale_date
  = string_of_Z ((now - date) / 86400000) +:+ " days ago"
  /\ (now - date) / 86400000 < 0
  /\ Index.formatDate (of_Z now) NaN locale_date = locale_date.
Proof.
  assert (Hneg : (now - date) / 86400000 < 0)
    by (apply Z.div_lt_upper_bound; lia).
  split; [| split; [exact Hneg | reflexivity]].
  unfold Index.formatDate. cbv zeta. rewrite diffDays_of_Z.
  set (days := (now - date) / 86400000) in *.
  rewrite !eqb_of_Z, !ltb_of_Z.
  destruct (Z.eqb_spec days 0); [lia |].
  destruct (Z.eqb_spec days 1); [lia |].
  destruct (Z.ltb_spec days 7); [| lia].
  reflexivity.
Qed.

End DateProperties.

(* ===================================================================== *)
(** * Slide viewer: further properties *)
(* ===================================================================== *)

Section ViewerInvariant.

Import JS Viewer.

Implicit Types (s : State) (n : number).

Lemma parseInt_integral (str : string) :
  parseInt str = NaN \/ exists z, parseInt str = of_Z z.
Proof.
  unfold parseInt. cbv zeta.
  destruct (match skip_space str with
            | String "-"%char r => (true, r)
            | String "+"%char r => (false, r)
            | _ => (false, skip_space str)
            end) as [negative s2].
  destruct (digits s2 None); [right; by eexists | by left].
Qed.

Lemma on_a_page_same s s' :
  currentSlide s' = currentSlide s -> totalSlides s' = totalSlides s ->
  slideElements s' = slideElements s -> on_a_page s -> on_a_page s'.
Proof. unfold on_a_page. by intros -> -> ->. Qed.

Lemma slideElements_on (k : string) f s :
  k <> scrollContainer -> slideElements (on k f s) = slideElements s.
Proof.
  intros Hk. unfold slideElements. state_simpl. by rewrite lookup_update_ne.
Qed.

Lemma slideElements_on_keep f s :
  (forall e, children (f e) = children e) ->
  slideElements (on scrollContainer f s) = slideElements s.
Proof.
  intros Hf. unfold slideElements. state_simpl. rewrite lookup_update.
  destruct (document s !! scrollContainer); [apply Hf | done].
Qed.

Lemma on_a_page_on (k : string) f s :
  k <> scrollContainer -> on_a_page s -> on_a_page (on k f s).
Proof.
  intros Hk. apply on_a_page_same; [done | done |]. by apply slideElements_on.
Qed.

Lemma slideElements_showSlide n upd s :
  slideElements (showSlide n upd s) = slideElements s.
Proof.
  unfold slideElements. rewrite showSlide_other; [done |].
  repeat (apply not_elem_of_cons; split; [done |]). apply not_elem_of_nil.
Qed.

Lemma showSlide_whole n upd s :
  whole n -> 1 <= totalSlides s ->
  exists z, currentSlide (showSlide n upd s) = of_Z z
            /\ 1 <= z <= totalSlides s.
Proof.
  intros [-> | [-> | [z ->]]] Ht; rewrite showSlide_currentSlide.
  - change (Math_min PosInf (of_Z (totalSlides s))) with (of_Z (totalSlides s)).
    rewrite Math_max_of_Z. eexists. split; [done | lia].
  - exists 1. split; [done | lia].
  - rewrite Math_min_of_Z, Math_max_of_Z. eexists. split; [done | lia].
Qed.

Lemma on_a_page_showSlide n upd s :
  whole n -> on_a_page s -> on_a_page (showSlide n upd s).
Proof.
  intros Hn (z & Hcur & Hz & Hlen).
  destruct (showSlide_whole n upd s Hn) as (z' & Hcur' & Hz'); [lia |].
  exists z'. rewrite slideElements_showSlide, showSlide_totalSlides. done.
Qed.

Lemma on_a_page_previousSlide s : on_a_page s -> on_a_page (previousSlide s).
Proof.
  intros Hs. unfold previousSlide.
  destruct (gtb (currentSlide s) (of_Z 1)); [| done].
  unfold goToSlide. apply on_a_page_showSlide; [| done].
  destruct Hs as (z & -> & _). rewrite sub_of_Z. right. right. by eexists.
Qed.

Lemma on_a_page_nextSlide s : on_a_page s -> on_a_page (nextSlide s).
Proof.
  intros Hs. unfold nextSlide.
  destruct (ltb (currentSlide s) (of_Z (totalSlides s))); [| done].
  unfold goToSlide. apply on_a_page_showSlide; [| done].
  destruct Hs as (z & -> & _). rewrite add_of_Z. right. right. by eexists.
Qed.

Lemma whole_of_Z (z : Z) : whole (of_Z z).
Proof. right. right. by eexists. Qed.

(** The page the scroll loop settles on is a whole number between 1 and
    the number of images it has looked at, whatever the geometry. *)
Lemma closest_from_bound (g : ScrollGeometry) (centerY : number)
    (els : list Element) (index : nat) (closestSlide minDistance : number) :
  (exists k : nat, closestSlide = of_nat k /\ (1 <= k <= Nat.max 1 index)%nat) ->
  exists k : nat,
    closest_from g centerY els index closestSlide minDistance = of_nat k
    /\ (1 <= k <= Nat.max 1 (index + length els))%nat.
Proof.
  revert index closestSlide minDistance.
  induction els as [| el els IH]; intros index closestSlide minDistance Hk.
  - destruct Hk as (k & -> & Hk). exists k. split; [done |].
    cbn [length]. lia.
  - cbn [closest_from length].
    destruct (ltb _ minDistance).
    + destruct (IH (S index) (of_nat (S index))
                  (Math_abs
                     (sub64 (add64 (offsetTop g index)
                             (div64 (offsetHeight g index) (of_Z 2))) centerY)))
        as (k & -> & Hk').
      { exists (S index). split; [done | lia]. }
      exists k. split; [done | lia].
    + destruct (IH (S index) closestSlide minDistance) as (k & -> & Hk').
      { destruct Hk as (k & -> & Hk). exists k. split; [done | lia]. }
      exists k. split; [done | lia].
Qed.

Lemma on_a_page_updateCurrentSlideFromScroll g s :
  on_a_page s -> on_a_page (updateCurrentSlideFromScroll g s).
Proof.
  intros (z & _ & Hz & Hlen). unfold updateCurrentSlideFromScroll. cbv zeta.
  match goal with
  | |- context [closest_from g ?c ?els 0 ?a ?b] =>
      destruct (closest_from_bound g c els 0 a b) as (k & Hk & Hk')
  end.
  { exists 1%nat. split; [done | lia]. }
  exists (Z.of_nat k). unfold on_a_page. state_simpl.
  split; [exact Hk |]. split; [| exact Hlen].
  cbn [Nat.add] in Hk'. lia.
Qed.

(** The target of a click on the progress bar whose fraction is a number. *)
Lemma click_target_whole (fraction : number) (t : Z) :
  fraction <> NaN -> 1 <= t ->
  whole (Math_max (of_Z 1)
           (Math_min (of_Z t) (Math_ceil (mul64 fraction (of_Z t))))).
Proof.
  intros Hf Ht.
  assert (Hproduct : mul64 fraction (of_Z t) <> NaN).
  { intros H. apply rounded_NaN in H. destruct t as [| p | p]; [lia | | lia].
    by destruct fraction as [| | | q]. }
  rewrite clamp_of_ceil by done.
  destruct (mul64 fraction (of_Z t)); apply whole_of_Z.
Qed.

Lemma on_a_page_enterScrollMode s :
  on_a_page s -> on_a_page (enterScrollMode s).
Proof.
  intros (z & Hcur & Hz & Hlen). exists z.
  destruct (enterScrollMode_keeps s) as (_ & -> & _).
  split; [exact Hcur |].
  unfold enterScrollMode, scrollToCurrentSlide. cbv zeta.
  match goal with
  | |- context [on scrollContainer (classList_remove "hidden") ?x] =>
      set (built := on scrollContainer (classList_remove "hidden") x)
  end.
  assert (Ht : totalSlides built = totalSlides s) by reflexivity.
  assert (Hels : (length (slideElements built) <= Z.to_nat (totalSlides s))%nat).
  { subst built. unfold slideElements. state_simpl. lookup_simpl.
    destruct (document s !! scrollContainer); cbn; [| lia].
    by rewrite length_map, length_seq. }
  clearbody built.
  assert (Hgoal : 1 <= z <= totalSlides built
                  /\ (length (slideElements built)
                      <= Z.to_nat (totalSlides built))%nat)
    by (by rewrite Ht).
  destruct (_ && _)%bool; [| exact Hgoal].
  destruct (index _ _); [| exact Hgoal].
  destruct (to_integer _); exact Hgoal.
Qed.

Lemma on_a_page_exitScrollMode g s :
  on_a_page s -> on_a_page (exitScrollMode g s).
Proof.
  intros Hs. unfold exitScrollMode. cbv zeta.
  match goal with
  | |- on_a_page (showSlide _ _ ?x) => assert (Hx : on_a_page x)
  end.
  { apply (on_a_page_same (updateCurrentSlideFromScroll g s)).
    - reflexivity.
    - reflexivity.
    - by rewrite slideElements_on_keep.
    - by apply on_a_page_updateCurrentSlideFromScroll. }
  apply on_a_page_showSlide; [| exact Hx].
  destruct Hx as (z & Hz & _). rewrite Hz. apply whole_of_Z.
Qed.

Lemma on_a_page_toggleScrollMode g s :
  on_a_page s -> on_a_page (toggleScrollMode g s).
Proof.
  intros Hs. unfold toggleScrollMode.
  destruct (has_class body "scroll-mode" (document s)); cbv zeta.
  - apply on_a_page_exitScrollMode. repeat apply on_a_page_on; done.
  - apply on_a_page_enterScrollMode. repeat apply on_a_page_on; done.
Qed.

Lemma on_a_page_handleKeyPress (e : KeyboardEvent) s :
  on_a_page s -> on_a_page (handleKeyPress e s).1.
Proof.
  intros Hs. unfold handleKeyPress. cbv zeta.
  assert (Hswitch :
    on_a_page
      (if is_previous_key (key e) then (previousSlide s, true)
       else if is_next_key (key e) then (nextSlide s, true)
       else if String.eqb (key e) "Home" then (goToSlide (of_Z 1) s, true)
       else if String.eqb (key e) "End" then
         (goToSlide (of_Z (totalSlides s)) s, true)
       else (s, false)).1).
  { destruct (is_previous_key (key e)); [by apply on_a_page_previousSlide |].
    destruct (is_next_key (key e)); [by apply on_a_page_nextSlide |].
    destruct (String.eqb (key e) "Home").
    { unfold goToSlide. apply on_a_page_showSlide; [apply whole_of_Z | done]. }
    destruct (String.eqb (key e) "End"); [| done].
    unfold goToSlide. apply on_a_page_showSlide; [apply whole_of_Z | done]. }
  destruct (String.eqb (key e) "Escape"); [| exact Hswitch].
  destruct (negb (has_class overviewModal "hidden" (document s))).
  { unfold closeOverviewModal. by apply on_a_page_on. }
  destruct (negb (has_class shareModal "hidden" (document s)));
    [| exact Hswitch].
  unfold closeShareModal. by apply on_a_page_on.
Qed.

Lemma on_a_page_handleWheel (e : WheelEvent) s :
  on_a_page s -> on_a_page (handleWheel e s).1.
Proof.
  intros Hs. unfold handleWheel.
  destruct (has_class body "scroll-mode" (document s)
            || negb (has_class overviewModal "hidden" (document s)))%bool;
    [done |].
  destruct (wheelThrottleTimer s); [done |]. cbv zeta.
  assert (Harmed : on_a_page (set_wheelThrottleTimer true s)) by exact Hs.
  destruct (gtb (deltaY e) (of_Z 0)); [by apply on_a_page_nextSlide |].
  destruct (ltb (deltaY e) (of_Z 0)); [by apply on_a_page_previousSlide |].
  exact Harmed.
Qed.

Lemma on_a_page_dispatch (ev : Event) s :
  on_a_page s -> numeric ev -> on_a_page (dispatch ev s).
Proof.
  intros Hs Hev. destruct ev; cbn [dispatch numeric] in *.
  - by apply on_a_page_handleKeyPress.
  - by apply on_a_page_handleWheel.
  - unfold handleProgressClick, goToSlide. cbv zeta.
    apply on_a_page_showSlide; [| done].
    apply click_target_whole; [done |]. destruct Hs as (z & _ & Hz & _). lia.
  - unfold showThumbnail. cbv zeta. repeat apply on_a_page_on; done.
  - unfold hideThumbnail. by apply on_a_page_on.
  - by apply on_a_page_previousSlide.
  - by apply on_a_page_nextSlide.
  - by apply on_a_page_toggleScrollMode.
  - unfold openOverviewModal. cbv zeta. repeat apply on_a_page_on; done.
  - unfold closeOverviewModal. by apply on_a_page_on.
  - unfold overview_item_click, closeOverviewModal, goToSlide.
    apply on_a_page_on; [done |].
    apply on_a_page_showSlide; [apply whole_of_Z | done].
  - unfold closeShareModal. by apply on_a_page_on.
  - unfold on_popstate. apply on_a_page_showSlide; [| exact Hs].
    cbn [search set_search] in *.
    destruct (parseInt_integral (or_else (params !! "page") "1")) as [H | [z ->]];
      [done | apply whole_of_Z].
  - unfold showControls.
    apply (on_a_page_same (on body (classList_add "controls-visible") s));
      [done | done | done |].
    by apply on_a_page_on.
  - unfold updateScrollProgress. cbv zeta. apply on_a_page_on; [done |].
    by apply on_a_page_updateCurrentSlideFromScroll.
  - unfold hideControls_timeout. by apply on_a_page_on.
  - exact Hs.
Qed.

Lemma totalSlides_dispatch (ev : Event) s :
  totalSlides (dispatch ev s) = totalSlides s.
Proof.
  destruct ev; cbn [dispatch]; try reflexivity.
  - unfold handleKeyPress, previousSlide, nextSlide. cbv zeta.
    by repeat case_match.
  - unfold handleWheel, previousSlide, nextSlide. cbv zeta.
    by repeat case_match.
  - unfold previousSlide. by case_match.
  - unfold nextSlide. by case_match.
  - unfold toggleScrollMode, enterScrollMode, scrollToCurrentSlide. cbv zeta.
    by repeat case_match.
Qed.

(** X17. Starting on a page of the deck, the viewer stays on one through
    every sequence of the events its listeners receive, in paged and in
    scroll mode, provided each click on the progress bar and each popped
    [page] parameter is a number: [currentSlide] remains an integer of
    [1 .. totalSlides], and [totalSlides] never changes. *)
Theorem events_keep_on_a_page (events : list Event) s
    (Hs : on_a_page s)
    (Hevents : Forall numeric events) :
  on_a_page (foldl (fun s ev => dispatch ev s) s events)
  /\ totalSlides (foldl (fun s ev => dispatch ev s) s events) = totalSlides s.
Proof.
  revert s Hs. induction Hevents as [| ev events Hev _ IH]; intros s Hs;
    [done |].
  cbn [foldl].
  destruct (IH (dispatch ev s)) as [Hpage Htotal].
  { by apply on_a_page_dispatch. }
  split; [exact Hpage |]. by rewrite Htotal, totalSlides_dispatch.
Qed.

Lemma showSlide_synced n s :
  search (showSlide n true s) !! "page"
  = Some (to_string (currentSlide (showSlide n true s))).
Proof. rewrite showSlide_currentSlide. cbn [showSlide search set_search set_document_title]. apply lookup_insert_eq. Qed.

Lemma toggleScrollMode_synced g s :
  search s !! "page" = Some (to_string (currentSlide s)) ->
  search (toggleScrollMode g s) !! "page"
  = Some (to_string (currentSlide (toggleScrollMode g s))).
Proof.
  intros Hs. unfold toggleScrollMode.
  destruct (has_class body "scroll-mode" (document s)); cbv zeta.
  - unfold exitScrollMode. cbv zeta. apply showSlide_synced.
  - match goal with
    | |- context [enterScrollMode ?x] =>
        destruct (enterScrollMode_keeps x) as (_ & -> & ->)
    end.
    exact Hs.
Qed.

(** The last two steps of [init], whatever the mode the page starts in. *)
Lemma init_tail_on_a_page (narrow_or_scroll not_from_list : bool) g s :
  on_a_page s ->
  search s !! "page" = Some (to_string (currentSlide s)) ->
  let s1 := if narrow_or_scroll then toggleScrollMode g s else s in
  let s2 :=
    if not_from_list then
      on closeButton_parentElement (setStyle "display" (CssText "none")) s1
    else s1 in
  on_a_page s2
  /\ totalSlides s2 = totalSlides s
  /\ search s2 !! "page" = Some (to_string (currentSlide s2)).
Proof.
  intros Hpage Hsync. cbv zeta.
  pose proof (on_a_page_toggleScrollMode g s Hpage) as Hpage'.
  pose proof (toggleScrollMode_synced g s Hsync) as Hsync'.
  pose proof (totalSlides_dispatch (ScrollModeToggleClick g) s) as Htotal.
  cbn [dispatch] in Htotal.
  destruct narrow_or_scroll, not_from_list;
    (split; [first [by apply on_a_page_on | done] |]); by split.
Qed.

(** X18. Opened on a page parameter that is a number (or missing), on a
    deck with at least one page, [init] leaves the viewer on a page of the
    deck, whatever the window width and the requested mode, and the URL
    names that page. *)
Theorem init_on_a_page (baseUrl pathname : string)
    (params : gmap string string) (page_title : string) (d : Document)
    (md : Metadata) (innerWidth : number) (g : ScrollGeometry)
    (Hpages : 1 <= pageCount md)
    (Hnumeric : parseInt (or_else (params !! "page") "1") <> NaN)
    (Hready : page_ready d = true)
    (Hempty : forall c, d !! scrollContainer = Some c -> children c = []) :
  let s :=
    init baseUrl (Response true (Json md)) innerWidth g
      (new_SlidefViewer pathname params page_title d) in
  on_a_page s
  /\ totalSlides s = pageCount md
  /\ search s !! "page" = Some (to_string (currentSlide s)).
Proof.
  cbv zeta. unfold init, new_SlidefViewer, loadMetadata. cbv zeta.
  set (nameOf := match last _ with Some _ => _ | None => _ end).
  state_simpl.
  set (shown := showSlide _ true _).
  assert (Htotal : totalSlides shown = pageCount md) by reflexivity.
  assert (Hshown : on_a_page shown).
  { subst shown.
    match goal with
    | |- on_a_page (showSlide ?n _ ?x) =>
        destruct (showSlide_whole n true x) as (z & Hz & Hz')
    end.
    - destruct (parseInt_integral (or_else (params !! "page") "1"))
        as [H | [z ->]]; [done | apply whole_of_Z].
    - exact Hpages.
    - exists z. split; [exact Hz |]. split; [exact Hz' |].
      rewrite slideElements_showSlide.
      unfold setupEventListeners, showControls, slideElements.
      state_simpl. lookup_simpl.
      destruct (d !! scrollContainer) as [c |] eqn:Hc; [| cbn; lia].
      rewrite (Hempty c eq_refl). cbn. lia. }
  assert (Hsync : search shown !! "page" = Some (to_string (currentSlide shown)))
    by apply showSlide_synced.
  clearbody shown.
  rewrite Hsync.
  match goal with
  | |- context [if ?b1 then on _ _ (if ?b2 then _ else _) else _] =>
      destruct (init_tail_on_a_page b2 b1 g shown Hshown Hsync)
        as (Hfinal & Hdeck & Hurl)
  end.
  cbv zeta in Hfinal, Hdeck, Hurl.
  split; [exact Hfinal |]. split; [| exact Hurl]. by rewrite Hdeck.
Qed.

End ViewerInvariant.

(* ===================================================================== *)
(** * The further properties on the sample pages *)
(* ===================================================================== *)

Lemma init_shows_one_view_witness :
  let s :=
    Index.init "" id (NetworkError "Failed to fetch") Sample.listing_down
      (Index.new_SlideIndex Sample.index_page) in
  has_class Index.emptyState "hidden" (Index.document s)
    = negb (has_class Index.slidesContainer "hidden" (Index.document s))
  /\ Index.alerts s = []
  /\ Index.isDevMode s = false.
Proof.
  apply (init_shows_one_view "" id (NetworkError "Failed to fetch")
           Sample.listing_down Sample.index_page).
  vm_compute. reflexivity.
Defined.

Lemma renderSlides_lists_each_deck_witness :
  exists s',
    Index.renderSlides "" id (Some [Sample.intro_deck; Sample.fresh_deck])
      Sample.importing = Return s'
    /\ map Index.card_href (Index.listed s')
       = map (fun slide => Some (Index.name slide +:+ "?from=list"))
           [Sample.intro_deck; Sample.fresh_deck].
Proof.
  apply (renderSlides_lists_each_deck "" id
           [Sample.intro_deck; Sample.fresh_deck] Sample.importing).
  - discriminate.
  - eexists. vm_compute. reflexivity.
Defined.

Lemma card_thumbnail_is_first_slide_witness :
  Index.card_thumbnail (Index.createSlideCard "" id Sample.importing Sample.fresh_deck)
  = head (Viewer.image_paths "" (Index.name Sample.fresh_deck)
            (JS.or_else (Index.format Sample.fresh_deck) "webp")
            (Index.pageCount Sample.fresh_deck)).
Proof.
  apply (card_thumbnail_is_first_slide "" id Sample.importing Sample.fresh_deck).
  vm_compute. discriminate.
Defined.

Lemma successful_import_closes_witness :
  let s' :=
    Index.import_flow "" id (Response true (Json None))
      Sample.listing_with_new_deck Sample.importing in
  (Index.handleImport (Response true (Json None)) Sample.importing).2
    = Index.CloseAndReload
  /\ has_class Index.importModal "hidden" (Index.document s') = true
  /\ Index.alerts s' = Index.alerts Sample.importing
  /\ Index.isImporting s' = Some false.
Proof.
  apply (successful_import_closes "" id (Response true (Json None))
           Sample.listing_with_new_deck Sample.importing).
  - reflexivity.
  - vm_compute. reflexivity.
Defined.

Lemma delete_with_failed_reload_is_silent_witness :
  let s' :=
    Index.handleDeleteSlide "" id true (Response true (Json tt))
      Sample.listing_down Sample.intro_deck Sample.importing in
  Index.alerts s' = Index.alerts Sample.importing
  /\ Index.document s' = Index.document Sample.importing.
Proof.
  apply (delete_with_failed_reload_is_silent "" id (Json tt) Sample.listing_down
           Sample.intro_deck Sample.importing "Failed to fetch").
  reflexivity.
Defined.

Lemma failed_delete_alerts_once_witness :
  Index.handleDeleteSlide "" id false (Response false (Json tt))
    Sample.listing_down Sample.intro_deck Sample.importing
  = Sample.importing
  /\ (exists m,
        Index.alerts
          (Index.handleDeleteSlide "" id true (Response false (Json tt))
             Sample.listing_down Sample.intro_deck Sample.importing)
        = Index.alerts Sample.importing ++ ["Failed to delete slide: " +:+ m])
  /\ Index.document
       (Index.handleDeleteSlide "" id true (Response false (Json tt))
          Sample.listing_down Sample.intro_deck Sample.importing)
     = Index.document Sample.importing.
Proof.
  apply (failed_delete_alerts_once "" id (Response false (Json tt))
           Sample.listing_down Sample.intro_deck Sample.importing).
  intros body. discriminate.
Defined.

Lemma edit_submit_success_witness :
  let s := Index.mkState true None None Sample.index_page_full [] [] in
  let s1 := Index.handleEditSlide Sample.intro_deck s in
  let s2 :=
    Index.handleEditSubmit "" id (Response true (Json tt))
      Sample.listing_intro_only s1 in
  Index.edit_request s1 = Some ("/api/slides/" +:+ Index.name Sample.intro_deck)
  /\ has_class Index.editModal "hidden" (Index.document s1) = false
  /\ Index.currentEditingSlide s2 = None
  /\ has_class Index.editModal "hidden" (Index.document s2) = true
  /\ Index.alerts s2 = Index.alerts s.
Proof.
  apply (edit_submit_success "" id (Json tt) Sample.listing_intro_only
           Sample.intro_deck
           (Index.mkState true None None Sample.index_page_full [] [])).
  eexists. vm_compute. reflexivity.
Defined.

Lemma failed_edit_keeps_dialog_witness :
  let s := Index.mkState true None None Sample.index_page_full [] [] in
  let s1 := Index.handleEditSlide Sample.intro_deck s in
  let s2 :=
    Index.handleEditSubmit "" id (Response false (Json tt))
      Sample.listing_intro_only s1 in
  (exists m, Index.alerts s2 = Index.alerts s ++ ["Failed to update slide: " +:+ m])
  /\ Index.currentEditingSlide s2 = Some Sample.intro_deck
  /\ Index.document s2 = Index.document s1
  /\ Index.handleEditSubmit "" id (Response false (Json tt))
       Sample.listing_intro_only (Index.closeEditModal s1)
     = Index.closeEditModal s1.
Proof.
  apply (failed_edit_keeps_dialog "" id (Response false (Json tt))
           Sample.listing_intro_only Sample.intro_deck
           (Index.mkState true None None Sample.index_page_full [] [])).
  intros body. discriminate.
Defined.

Lemma formatDate_weeks_and_months_witness :
  let days := (20 * 86400000 - 0) / 86400000 in
  exists n : Z,
    (days < 30 /\ n = days / 7 /\ 1 <= n <= 4
     /\ Index.formatDate (JS.of_Z (20 * 86400000)) (JS.of_Z 0) "1/1/1970"
        = JS.string_of_Z n +:+ " weeks ago")
    \/ (30 <= days /\ n = days / 30 /\ 1 <= n <= 12
        /\ Index.formatDate (JS.of_Z (20 * 86400000)) (JS.of_Z 0) "1/1/1970"
           = JS.string_of_Z n +:+ " months ago").
Proof.
  apply (formatDate_weeks_and_months (20 * 86400000) 0 "1/1/1970").
  vm_compute. split; [discriminate | reflexivity].
Defined.

Lemma formatDate_future_and_unreadable_witness :
  Index.formatDate (JS.of_Z 0) (JS.of_Z (3 * 86400000)) "1/4/1970"
  = JS.string_of_Z ((0 - 3 * 86400000) / 86400000) +:+ " days ago"
  /\ (0 - 3 * 86400000) / 86400000 < 0
  /\ Index.formatDate (JS.of_Z 0) JS.NaN "1/4/1970" = "1/4/1970".
Proof.
  apply (formatDate_future_and_unreadable 0 (3 * 86400000) "1/4/1970").
  reflexivity.
Defined.

Example formatDate_examples :
  Index.formatDate (JS.of_Z 0) (JS.of_Z (3 * 86400000)) "" = "-3 days ago"
  /\ Index.formatDate (JS.of_Z (364 * 86400000)) (JS.of_Z 0) "" = "12 months ago"
  /\ Index.formatDate (JS.of_Z (13 * 86400000)) (JS.of_Z 0) "" = "1 weeks ago"
  /\ Index.formatDate (JS.of_Z 86399999) (JS.of_Z 0) "" = "Today".
Proof. vm_compute. repeat split. Qed.

Lemma sample_on_a_page : Viewer.on_a_page (Sample.opened Sample.deck5 ∅ 1280).
Proof.
  exists 1. split; [vm_compute; reflexivity |].
  split; [vm_compute; split; discriminate |].
  vm_compute. lia.
Qed.

Lemma init_on_a_page_witness :
  let s := Sample.opened Sample.deck5 {[ "page" := "3" ]} 375 in
  Viewer.on_a_page s
  /\ Viewer.totalSlides s = Viewer.pageCount Sample.deck5
  /\ Viewer.search s !! "page" = Some (JS.to_string (Viewer.currentSlide s)).
Proof.
  apply (init_on_a_page "" ("/" +:+ Viewer.name Sample.deck5)
           {[ "page" := "3" ]} "" Sample.viewer_page Sample.deck5
           (JS.of_Z 375) Sample.at_top).
  - vm_compute. discriminate.
  - vm_compute. discriminate.
  - vm_compute. reflexivity.
  - intros c. vm_compute. intros [= <-]. reflexivity.
Defined.

Lemma events_keep_on_a_page_witness :
  let events :=
    [ Viewer.KeyDown {| Viewer.key := "End" |};
      Viewer.ScrollModeToggleClick Sample.at_top;
      Viewer.Scroll Sample.at_top;
      Viewer.ScrollModeToggleClick Sample.at_top;
      Viewer.ProgressClick
        {| Viewer.left := JS.of_Z 0; Viewer.width := JS.of_Z 0 |}
        {| Viewer.clientX := JS.of_Z 10 |};
      Viewer.PopState {[ "page" := "2" ]} ] in
  Viewer.on_a_page
    (foldl (fun s ev => Viewer.dispatch ev s)
       (Sample.opened Sample.deck5 ∅ 1280) events)
  /\ Viewer.totalSlides
       (foldl (fun s ev => Viewer.dispatch ev s)
          (Sample.opened Sample.deck5 ∅ 1280) events)
     = Viewer.totalSlides (Sample.opened Sample.deck5 ∅ 1280).
Proof.
  apply events_keep_on_a_page.
  - exact sample_on_a_page.
  - repeat constructor; vm_compute; discriminate.
Defined.

(* ===================================================================== *)
(** * Slide viewer: the page parameter read back *)
(* ===================================================================== *)

Section PageParameter.

Import JS Viewer.

Implicit Types (s : State) (n : number).

Ltac digit_value :=
  match goal with
  | |- context [digit_of ?c] =>
      let v := eval vm_compute in (digit_of c) in
      change (digit_of c) with v
  end.

Lemma digits_of_uint_acc (d : Decimal.uint) (acc : positive) :
  digits (NilEmpty.string_of_uint d) (Some (Z.pos acc))
  = Some (Z.pos (Pos.of_uint_acc d acc)).
Proof.
  revert acc.
  induction d as [| d IH | d IH | d IH | d IH | d IH | d IH | d IH | d IH
                  | d IH | d IH];
    intros acc; cbn [NilEmpty.string_of_uint digits Pos.of_uint_acc];
    [done | ..];
    digit_value; change (default 0 (Some ?x)) with x; rewrite <- IH;
    do 2 f_equal; lia.
Qed.

Lemma digits_of_uint_zero (d : Decimal.uint) :
  digits (NilEmpty.string_of_uint d) (Some 0) = Some (Z.of_N (Pos.of_uint d)).
Proof.
  induction d as [| d IH | d IH | d IH | d IH | d IH | d IH | d IH | d IH
                  | d IH | d IH];
    cbn [NilEmpty.string_of_uint digits Pos.of_uint]; [done | ..];
    digit_value; change (default 0 (Some ?x)) with x;
    [exact IH | ..]; apply digits_of_uint_acc.
Qed.

Lemma digits_of_uint (d : Decimal.uint) :
  d <> Decimal.Nil ->
  digits (NilEmpty.string_of_uint d) None = Some (Z.of_N (Pos.of_uint d)).
Proof.
  intros Hd.
  destruct d; [done | ..];
    cbn [NilEmpty.string_of_uint digits Pos.of_uint];
    digit_value; change (default 0 None) with 0;
    [apply digits_of_uint_zero | ..]; apply digits_of_uint_acc.
Qed.

(** A numeral starts with a digit: [parseInt] has no white space and no
    sign to skip. *)
Lemma parseInt_of_uint (d : Decimal.uint) :
  d <> Decimal.Nil ->
  parseInt (NilEmpty.string_of_uint d) = of_Z (Z.of_N (Pos.of_uint d))
  /\ parseInt (String "-" (NilEmpty.string_of_uint d))
     = of_Z (- Z.of_N (Pos.of_uint d))
  /\ truthy (NilEmpty.string_of_uint d) = true.
Proof.
  intros Hd. pose proof (digits_of_uint d Hd) as Hdigits.
  split; [| split].
  - unfold parseInt. destruct d; [done | ..];
      cbn [NilEmpty.string_of_uint skip_space] in *;
      (match goal with
       | |- context [is_space ?c] =>
           let v := eval vm_compute in (is_space c) in
           change (is_space c) with v
       end); cbv iota; cbv zeta; by rewrite Hdigits.
  - unfold parseInt. cbn [skip_space].
    change (is_space "-") with false. cbv iota. cbv zeta. by rewrite Hdigits.
  - by destruct d.
Qed.

(** [parseInt(String(z), 10)] is [z], for every integer. *)
Lemma parseInt_string_of_Z (z : Z) :
  parseInt (string_of_Z z) = of_Z z /\ truthy (string_of_Z z) = true.
Proof.
  unfold string_of_Z. destruct z as [| p | p]; cbn [Z.to_int NilEmpty.string_of_int].
  - split; reflexivity.
  - destruct (parseInt_of_uint (Pos.to_uint p)) as (H & _ & Ht).
    { apply DecimalPos.Unsigned.to_uint_nonnil. }
    by rewrite H, DecimalPos.Unsigned.of_to.
  - destruct (parseInt_of_uint (Pos.to_uint p)) as (_ & H & _).
    { apply DecimalPos.Unsigned.to_uint_nonnil. }
    by rewrite H, DecimalPos.Unsigned.of_to.
Qed.

End PageParameter.

(* ===================================================================== *)
(** * Slide viewer: navigation, further *)
(* ===================================================================== *)

Section ViewerNavigation.

Import JS Viewer.

Implicit Types (s : State) (n : number).

(** X19. The URL that [goToSlide] writes reads back as the page shown: on
    a deck with a page, after [goToSlide(n)] for a whole [n], a viewer
    constructed from the new query string starts on the page shown, and
    the [popstate] listener run on it stays there. *)
Theorem written_url_reads_back n s (pathname page_title : string)
    (d : Document)
    (Hn : whole n)
    (Hdeck : 1 <= totalSlides s) :
  let s' := goToSlide n s in
  currentSlide (new_SlidefViewer pathname (search s') page_title d)
  = currentSlide s'
  /\ currentSlide (on_popstate s') = currentSlide s'.
Proof.
  intros s'.
  destruct (showSlide_whole n true s Hn Hdeck) as (z & Hz & Hrange).
  fold (goToSlide n s) in Hz. fold s' in Hz.
  assert (Hurl : search s' !! "page" = Some (string_of_Z z)).
  { subst s'. unfold goToSlide. rewrite showSlide_synced.
    fold (goToSlide n s). by rewrite Hz. }
  assert (Hread : parseInt (or_else (search s' !! "page") "1") = of_Z z).
  { rewrite Hurl. cbn [or_else].
    destruct (parseInt_string_of_Z z) as [Hparse Htruthy].
    by rewrite Htruthy. }
  split.
  - unfold new_SlidefViewer. cbv zeta. cbn [currentSlide].
    by rewrite Hread, Hz.
  - unfold on_popstate. rewrite Hread, showSlide_of_Z, Hz.
    f_equal. change (totalSlides s') with (totalSlides s). lia.
Qed.

Lemma nextSlide_interior (z : Z) s :
  currentSlide s = of_Z z -> 1 <= z < totalSlides s ->
  nextSlide s = goToSlide (of_Z (z + 1)) s
  /\ currentSlide (nextSlide s) = of_Z (z + 1).
Proof.
  intros Hcur Hz. unfold nextSlide. rewrite Hcur, ltb_of_Z.
  destruct (Z.ltb_spec z (totalSlides s)); [| lia].
  rewrite add_of_Z. split; [done |].
  unfold goToSlide. rewrite showSlide_of_Z. f_equal. lia.
Qed.

Lemma previousSlide_interior (z : Z) s :
  currentSlide s = of_Z z -> 1 < z <= totalSlides s ->
  previousSlide s = goToSlide (of_Z (z - 1)) s
  /\ currentSlide (previousSlide s) = of_Z (z - 1).
Proof.
  intros Hcur Hz. unfold previousSlide, gtb. rewrite Hcur, ltb_of_Z.
  destruct (Z.ltb_spec 1 z); [| lia].
  rewrite sub_of_Z. split; [done |].
  unfold goToSlide. rewrite showSlide_of_Z. f_equal. lia.
Qed.

Lemma totalSlides_nextSlide s : totalSlides (nextSlide s) = totalSlides s.
Proof. unfold nextSlide. by case_match. Qed.

Lemma totalSlides_previousSlide s :
  totalSlides (previousSlide s) = totalSlides s.
Proof. unfold previousSlide. by case_match. Qed.

(** X20. Below the last page, [nextSlide] and [previousSlide] undo each
    other: from page [z] with a page after it, next then previous shows
    [z] again and writes [page=z] to the URL, and from there next,
    previous, next shows [z + 1]. *)
Theorem next_and_previous_are_inverse (z : Z) s
    (Hcur : currentSlide s = of_Z z)
    (Hz : 1 <= z < totalSlides s) :
  currentSlide (nextSlide s) = of_Z (z + 1)
  /\ currentSlide (previousSlide (nextSlide s)) = of_Z z
  /\ search (previousSlide (nextSlide s)) !! "page" = Some (string_of_Z z)
  /\ currentSlide (nextSlide (previousSlide (nextSlide s))) = of_Z (z + 1).
Proof.
  destruct (nextSlide_interior z s Hcur Hz) as [_ Hnext].
  destruct (previousSlide_interior (z + 1) (nextSlide s) Hnext) as [Hback Hprev].
  { rewrite totalSlides_nextSlide. lia. }
  replace (z + 1 - 1) with z in * by lia.
  destruct (nextSlide_interior z (previousSlide (nextSlide s)) Hprev) as [_ Hagain].
  { by rewrite totalSlides_previousSlide, totalSlides_nextSlide. }
  split; [exact Hnext |]. split; [exact Hprev |]. split; [| exact Hagain].
  rewrite Hback at 1. unfold goToSlide at 1. rewrite showSlide_synced.
  fold (goToSlide (of_Z z) (nextSlide s)). by rewrite <- Hback, Hprev.
Qed.

Lemma nextSlide_other (k : string) s :
  k ∉ [slidesWrapper; slideLoading; slideCurrent; slidePrev; slideNext;
       progressFill; navAreaPrev; navAreaNext] ->
  document (nextSlide s) !! k = document s !! k.
Proof.
  intros Hk. unfold nextSlide, goToSlide.
  case_match; [by apply showSlide_other | done].
Qed.

Lemma previousSlide_other (k : string) s :
  k ∉ [slidesWrapper; slideLoading; slideCurrent; slidePrev; slideNext;
       progressFill; navAreaPrev; navAreaNext] ->
  document (previousSlide s) !! k = document s !! k.
Proof.
  intros Hk. unfold previousSlide, goToSlide.
  case_match; [by apply showSlide_other | done].
Qed.

Lemma wheelThrottleTimer_nextSlide s :
  wheelThrottleTimer (nextSlide s) = wheelThrottleTimer s.
Proof. unfold nextSlide. by case_match. Qed.

Lemma wheelThrottleTimer_previousSlide s :
  wheelThrottleTimer (previousSlide s) = wheelThrottleTimer s.
Proof. unfold previousSlide. by case_match. Qed.

Lemma has_class_lookup (k c : string) (d d' : Document) :
  d' !! k = d !! k -> has_class k c d' = has_class k c d.
Proof. unfold has_class. by intros ->. Qed.

(** What a wheel event does in paged mode with the overview closed and no
    throttle window open. *)
Lemma handleWheel_free (e : WheelEvent) s :
  has_class body "scroll-mode" (document s) = false ->
  has_class overviewModal "hidden" (document s) = true ->
  wheelThrottleTimer s = false ->
  handleWheel e s
  = (if gtb (deltaY e) (of_Z 0) then nextSlide (set_wheelThrottleTimer true s)
     else if ltb (deltaY e) (of_Z 0) then
       previousSlide (set_wheelThrottleTimer true s)
     else set_wheelThrottleTimer true s, true).
Proof.
  intros Hpaged Hclosed Hfree. unfold handleWheel.
  rewrite Hpaged, Hclosed, Hfree. cbn [negb orb]. cbv zeta.
  by repeat case_match.
Qed.

(** X21. The wheel throttle: in paged mode with the overview closed and no
    throttle window open, a wheel event moves one page in the direction of
    its [deltaY] (nowhere when [deltaY] is zero or NaN) and opens the
    window; a second wheel event before the 300 ms timer fires only has
    its default prevented, whatever its [deltaY]; the timer closes the
    window again. *)
Theorem wheel_is_throttled (e1 e2 : WheelEvent) s
    (Hpaged : has_class body "scroll-mode" (document s) = false)
    (Hclosed : has_class overviewModal "hidden" (document s) = true)
    (Hfree : wheelThrottleTimer s = false) :
  let s1 := (handleWheel e1 s).1 in
  currentSlide s1
  = currentSlide
      (if gtb (deltaY e1) (of_Z 0) then nextSlide s
       else if ltb (deltaY e1) (of_Z 0) then previousSlide s
       else s)
  /\ wheelThrottleTimer s1 = true
  /\ handleWheel e2 s1 = (s1, true)
  /\ wheelThrottleTimer (wheelThrottle_timeout s1) = false.
Proof.
  intros s1.
  assert (Hs1 : s1 = if gtb (deltaY e1) (of_Z 0) then
                       nextSlide (set_wheelThrottleTimer true s)
                     else if ltb (deltaY e1) (of_Z 0) then
                       previousSlide (set_wheelThrottleTimer true s)
                     else set_wheelThrottleTimer true s).
  { subst s1. by rewrite handleWheel_free. }
  assert (Hother : forall k,
            k ∉ [slidesWrapper; slideLoading; slideCurrent; slidePrev;
                 slideNext; progressFill; navAreaPrev; navAreaNext] ->
            document s1 !! k = document s !! k).
  { intros k Hk. rewrite Hs1.
    destruct (gtb (deltaY e1) (of_Z 0)); [by rewrite nextSlide_other |].
    destruct (ltb (deltaY e1) (of_Z 0)); [by rewrite previousSlide_other |].
    done. }
  assert (Harmed : wheelThrottleTimer s1 = true).
  { rewrite Hs1.
    destruct (gtb (deltaY e1) (of_Z 0));
      [by rewrite wheelThrottleTimer_nextSlide |].
    destruct (ltb (deltaY e1) (of_Z 0));
      [by rewrite wheelThrottleTimer_previousSlide |].
    done. }
  assert (Hcur : currentSlide s1
                 = currentSlide
                     (if gtb (deltaY e1) (of_Z 0) then nextSlide s
                      else if ltb (deltaY e1) (of_Z 0) then previousSlide s
                      else s)).
  { rewrite Hs1. unfold nextSlide, previousSlide, goToSlide.
    state_simpl. by repeat case_match. }
  clearbody s1.
  split; [exact Hcur |]. split; [exact Harmed |]. split; [| done].
  unfold handleWheel.
  rewrite (has_class_lookup body "scroll-mode" (document s) (document s1)),
    (has_class_lookup overviewModal "hidden" (document s) (document s1)).
  - by rewrite Hpaged, Hclosed, Harmed.
  - apply Hother. repeat (apply not_elem_of_cons; split; [done |]).
    apply not_elem_of_nil.
  - apply Hother. repeat (apply not_elem_of_cons; split; [done |]).
    apply not_elem_of_nil.
Qed.

End ViewerNavigation.

(* ===================================================================== *)
(** * Slide viewer: scroll mode and the overview *)
(* ===================================================================== *)

Section NumberOrder.

Import JS.

Lemma ltb_leb_trans (a b c : number) :
  ltb a b = true -> leb b c = true -> ltb a c = true /\ leb a c = true.
Proof.
  destruct a as [| | | x], b as [| | | y], c as [| | | z]; cbn; try done.
  rewrite negb_true_iff, !Qle_bool_iff. intros Hxy Hyz.
  assert (Hlt : (x < z)%Q).
  { apply Qlt_le_trans with y; [| done].
    apply Qnot_le_lt. intros Hle. apply Qle_bool_iff in Hle. congruence. }
  split.
  - apply negb_true_iff. destruct (Qle_bool z x) eqn:E; [| done].
    apply Qle_bool_iff in E. by apply Qle_not_lt in E.
  - by apply Qlt_le_weak.
Qed.

Lemma leb_of_not_ltb (a b : number) :
  a <> NaN -> b <> NaN -> ltb a b = false -> leb b a = true.
Proof.
  destruct a as [| | | x], b as [| | | y]; cbn; try done.
  intros _ _. by rewrite negb_false_iff.
Qed.

Lemma leb_refl (a : number) : a <> NaN -> leb a a = true.
Proof.
  destruct a as [| | | x]; cbn; try done.
  intros _. apply Qle_bool_iff, Qle_refl.
Qed.

Lemma leb_trans (a b c : number) :
  leb a b = true -> leb b c = true -> leb a c = true.
Proof.
  destruct a as [| | | x], b as [| | | y], c as [| | | z]; cbn; try done.
  rewrite !Qle_bool_iff. apply Qle_trans.
Qed.

End NumberOrder.

Section ViewerScroll.

Import JS Viewer.

Implicit Types (s : State) (n : number) (g : ScrollGeometry).

(** The loop from image [index] on, when the best so far is image [k] at
    distance [slide_distance k]. *)
Lemma closest_from_nearest g (centerY : number) (els : list Element) :
  forall (index k : nat),
    (k < index)%nat ->
    (forall j, (j < index + length els)%nat ->
       slide_distance g centerY j <> NaN) ->
    (forall j, (j < index)%nat ->
       leb (slide_distance g centerY k) (slide_distance g centerY j) = true) ->
    (forall j, (j < k)%nat ->
       ltb (slide_distance g centerY k) (slide_distance g centerY j) = true) ->
    exists k' : nat,
      (k' < index + length els)%nat
      /\ closest_from g centerY els index (of_nat (S k))
           (slide_distance g centerY k) = of_nat (S k')
      /\ (forall j, (j < index + length els)%nat ->
            leb (slide_distance g centerY k') (slide_distance g centerY j) = true)
      /\ (forall j, (j < k')%nat ->
            ltb (slide_distance g centerY k') (slide_distance g centerY j) = true).
Proof.
  induction els as [| el els IH]; intros index k Hk Hnum Hle Hlt.
  - exists k. cbn [closest_from length]. rewrite Nat.add_0_r.
    split; [lia |]. split; [done |]. split; [exact Hle | exact Hlt].
  - cbn [closest_from length] in *.
    change (Math_abs
              (sub64 (add64 (offsetTop g index)
                      (div64 (offsetHeight g index) (of_Z 2))) centerY))
      with (slide_distance g centerY index).
    destruct (ltb (slide_distance g centerY index)
                (slide_distance g centerY k)) eqn:Hcloser.
    + destruct (IH (S index) index) as (k' & Hk' & Hres & Hle' & Hlt').
      * lia.
      * intros j Hj. apply Hnum. lia.
      * intros j Hj. destruct (decide (j = index)) as [-> | Hne].
        -- apply leb_refl, Hnum. lia.
        -- apply (ltb_leb_trans _ _ _ Hcloser). apply Hle. lia.
      * intros j Hj. apply (ltb_leb_trans _ _ _ Hcloser). apply Hle. lia.
      * exists k'. split; [lia |]. split; [exact Hres |].
        split; [| exact Hlt']. intros j Hj. apply Hle'. lia.
    + destruct (IH (S index) k) as (k' & Hk' & Hres & Hle' & Hlt').
      * lia.
      * intros j Hj. apply Hnum. lia.
      * intros j Hj. destruct (decide (j = index)) as [-> | Hne].
        -- apply leb_of_not_ltb; [| | exact Hcloser]; apply Hnum; lia.
        -- apply Hle. lia.
      * exact Hlt.
      * exists k'. split; [lia |]. split; [exact Hres |].
        split; [| exact Hlt']. intros j Hj. apply Hle'. lia.
Qed.

(** X22. Scroll tracking settles on the image nearest the middle of the
    view: when the scroll container holds images and no measured distance
    is NaN, [updateCurrentSlideFromScroll] sets [currentSlide] to [k + 1]
    for an image index [k] whose middle is at least as near to the middle
    of the visible part as that of every image, and strictly nearer than
    that of every image before it (of equally near images the first
    wins). *)
Theorem scroll_tracks_nearest_slide g s
    (Himages : slideElements s <> [])
    (Hnumber : forall j, (j < length (slideElements s))%nat ->
       slide_distance g (scroll_center g) j <> NaN) :
  exists k : nat,
    (k < length (slideElements s))%nat
    /\ currentSlide (updateCurrentSlideFromScroll g s) = of_nat (S k)
    /\ (forall j, (j < length (slideElements s))%nat ->
          leb (slide_distance g (scroll_center g) k)
            (slide_distance g (scroll_center g) j) = true)
    /\ (forall j, (j < k)%nat ->
          ltb (slide_distance g (scroll_center g) k)
            (slide_distance g (scroll_center g) j) = true).
Proof.
  unfold updateCurrentSlideFromScroll. cbv zeta. state_simpl.
  change (add64 (scrollTop g) (div64 (clientHeight g) (of_Z 2)))
    with (scroll_center g).
  destruct (slideElements s) as [| el els]; [done |].
  cbn [closest_from length] in *.
  change (Math_abs
            (sub64 (add64 (offsetTop g 0) (div64 (offsetHeight g 0) (of_Z 2)))
               (scroll_center g)))
    with (slide_distance g (scroll_center g) 0).
  assert (Hfirst :
    (if ltb (slide_distance g (scroll_center g) 0) PosInf then
       closest_from g (scroll_center g) els 1 (of_nat 1)
         (slide_distance g (scroll_center g) 0)
     else closest_from g (scroll_center g) els 1 (of_Z 1) PosInf)
    = closest_from g (scroll_center g) els 1 (of_nat 1)
        (slide_distance g (scroll_center g) 0)).
  { pose proof (Hnumber 0%nat ltac:(lia)) as H0.
    destruct (slide_distance g (scroll_center g) 0); done. }
  rewrite Hfirst.
  destruct (closest_from_nearest g (scroll_center g) els 1 0)
    as (k & Hk & Hres & Hle & Hlt).
  - lia.
  - intros j Hj. apply Hnumber. cbn [Nat.add] in Hj. lia.
  - intros j Hj. replace j with 0%nat by lia. apply leb_refl, Hnumber. lia.
  - intros j Hj. lia.
  - exists k. split; [cbn [Nat.add] in Hk; lia |]. split; [exact Hres |].
    split; [| exact Hlt]. intros j Hj. apply Hle. cbn [Nat.add]. lia.
Qed.

End ViewerScroll.

Section ViewerViews.

Import JS Viewer.

Implicit Types (s : State) (n : number).

Lemma index_of_Z {A : Type} (l : list A) (z : Z) :
  0 <= z -> index l (of_Z z) = l !! Z.to_nat z.
Proof.
  intros Hz. unfold index. cbn [to_integer of_Z inject_Z Qden Qnum Pos.eqb].
  destruct (Z.ltb_spec z 0); [lia | done].
Qed.

Lemma index_before {A : Type} (l : list A) (i : nat) :
  index l (sub (of_nat (S i)) (of_Z 1)) = l !! i.
Proof.
  unfold of_nat. rewrite sub_of_Z, index_of_Z by lia. f_equal. lia.
Qed.

(** Reading a list through the page numbers [1 .. length l]. *)
Lemma map_seq_pages {A B : Type} (l : list A) (f : nat -> B) (h : A -> B) :
  (forall i x, l !! i = Some x -> f (S i) = h x) ->
  map f (seq 1 (length l)) = map h l.
Proof.
  revert f. induction l as [| a l IH]; intros f Hf; [done |].
  cbn [length seq map]. rewrite (Hf 0%nat a eq_refl). f_equal.
  rewrite <- seq_shift, map_map. apply IH.
  intros i x Hx. by apply (Hf (S i)).
Qed.

Lemma not_shown_by_showSlide (k : string) :
  k ∉ [slidesWrapper; slideLoading; slideCurrent; slidePrev; slideNext;
       progressFill; navAreaPrev; navAreaNext] ->
  forall n upd s, document (showSlide n upd s) !! k = document s !! k.
Proof. intros Hk n upd s. by apply showSlide_other. Qed.

(** X23. Entering scroll mode lists the deck: with the scroll container
    on the page and one image path per page, [enterScrollMode] leaves one
    image per page in the container, in page order, the image of page [i]
    showing path [i] of the deck under the text "Slide i"; the container
    is no longer hidden and the image of the current page is the one
    scrolled into view. *)
Theorem scroll_mode_lists_every_page s (z : Z)
    (Hcontainer : is_Some (document s !! scrollContainer))
    (Himages : length (slideImages s) = Z.to_nat (totalSlides s))
    (Hcur : currentSlide s = of_Z z)
    (Hz : 1 <= z <= totalSlides s) :
  let s' := enterScrollMode s in
  map (getAttribute "src") (slideElements s') = map Some (slideImages s)
  /\ map (getAttribute "alt") (slideElements s')
     = map (fun i => Some ("Slide " +:+ string_of_Z (Z.of_nat i)))
         (seq 1 (Z.to_nat (totalSlides s)))
  /\ has_class scrollContainer "hidden" (document s') = false
  /\ scrolledIntoView s' = Some (Z.to_nat (z - 1)).
Proof.
  intros s'. subst s'. unfold enterScrollMode. cbv zeta.
  match goal with
  | |- context [on scrollContainer (classList_remove "hidden") ?x] =>
      set (built := on scrollContainer (classList_remove "hidden") x)
  end.
  assert (Hels : slideElements built
                 = map (scroll_slide s) (seq 1 (Z.to_nat (totalSlides s)))).
  { subst built. unfold slideElements. state_simpl. lookup_simpl.
    destruct Hcontainer as [c ->]. reflexivity. }
  assert (Hshown : has_class scrollContainer "hidden" (document built) = false).
  { subst built. state_simpl. apply has_class_remove. }
  assert (Hcur' : currentSlide built = of_Z z) by exact Hcur.
  assert (Hview : scrollToCurrentSlide built
                  = set_scrolledIntoView (Z.to_nat (z - 1)) built).
  { unfold scrollToCurrentSlide. rewrite Hcur', Hels, length_map, length_seq.
    unfold gtb. rewrite ltb_of_Z, sub_of_Z.
    destruct (Nat.ltb_spec 0 (Z.to_nat (totalSlides s))); [| lia].
    destruct (Z.ltb_spec 0 z); [| lia]. cbn [andb]. cbv zeta.
    rewrite index_of_Z by lia.
    destruct (lookup_lt_is_Some_2
                (map (scroll_slide s) (seq 1 (Z.to_nat (totalSlides s))))
                (Z.to_nat (z - 1))) as [el ->].
    { rewrite length_map, length_seq. lia. }
    reflexivity. }
  rewrite Hview. clearbody built.
  assert (Hels' : slideElements (set_scrolledIntoView (Z.to_nat (z - 1)) built)
                  = map (scroll_slide s) (seq 1 (Z.to_nat (totalSlides s))))
    by exact Hels.
  rewrite Hels', !map_map. split; [| split; [| split]].
  - rewrite <- Himages. apply map_seq_pages. intros i x Hx.
    unfold scroll_slide, getAttribute, setAttribute.
    cbn [attributes set_attributes].
    rewrite !lookup_insert_ne by done. rewrite lookup_insert_eq.
    by rewrite index_before, Hx.
  - apply map_ext. intros i. unfold scroll_slide, getAttribute, setAttribute.
    cbn [attributes set_attributes].
    rewrite lookup_insert_ne by done. by rewrite lookup_insert_eq.
  - exact Hshown.
  - reflexivity.
Qed.

Lemma currentSlide_on (k : string) f s :
  currentSlide (on k f s) = currentSlide s.
Proof. reflexivity. Qed.

Lemma document_on (k : string) f s :
  document (on k f s) = update k f (document s).
Proof. reflexivity. Qed.

Lemma overview_item_active s (z : Z) (j : nat) :
  currentSlide s = of_Z z ->
  classList_contains "active" (overview_item s j)
  = bool_decide (Z.of_nat j = z).
Proof.
  intros Hcur. unfold overview_item. cbv zeta. rewrite Hcur.
  unfold of_nat. rewrite eqb_of_Z.
  destruct (Z.eqb_spec (Z.of_nat j) z) as [Heq | Hne].
  - rewrite bool_decide_eq_true_2 by done.
    apply bool_decide_eq_true. cbn. apply elem_of_union. left.
    by apply elem_of_singleton.
  - rewrite bool_decide_eq_false_2 by done.
    apply bool_decide_eq_false. cbn. by rewrite elem_of_singleton.
Qed.

(** X24. The overview: with the grid and the dialog on the page,
    [openOverviewModal] fills the grid with one entry per page, of which
    exactly the entry of the current page is marked active, and shows the
    dialog; a click on entry [i] then shows page [i] and hides the dialog
    again. *)
Theorem overview_marks_and_opens_pages s (z : Z) (i : nat)
    (Hgrid : is_Some (document s !! overviewGrid))
    (Hmodal : is_Some (document s !! overviewModal))
    (Hcur : currentSlide s = of_Z z)
    (Hi : (1 <= i <= Z.to_nat (totalSlides s))%nat) :
  let s' := openOverviewModal s in
  let entries := default [] (children <$> document s' !! overviewGrid) in
  map (classList_contains "active") entries
  = map (fun j => bool_decide (Z.of_nat j = z))
      (seq 1 (Z.to_nat (totalSlides s)))
  /\ has_class overviewModal "hidden" (document s') = false
  /\ currentSlide (overview_item_click i s') = of_nat i
  /\ has_class overviewModal "hidden" (document (overview_item_click i s'))
     = true.
Proof.
  intros s' entries.
  assert (Hentries : entries
                     = map (overview_item s) (seq 1 (Z.to_nat (totalSlides s)))).
  { subst entries s'. unfold openOverviewModal. cbv zeta. state_simpl.
    lookup_simpl. destruct Hgrid as [c ->]. reflexivity. }
  assert (Hopen : has_class overviewModal "hidden" (document s') = false).
  { subst s'. unfold openOverviewModal. cbv zeta. state_simpl.
    apply has_class_remove. }
  assert (Hthere : is_Some (document s' !! overviewModal)).
  { subst s'. unfold openOverviewModal. cbv zeta. state_simpl.
    by rewrite !update_is_Some. }
  assert (Htotal : totalSlides s' = totalSlides s) by reflexivity.
  clearbody s' entries. subst entries.
  split; [| split; [exact Hopen | split]].
  - rewrite map_map. apply map_ext. intros j. by apply overview_item_active.
  - unfold overview_item_click, closeOverviewModal.
    rewrite currentSlide_on. unfold goToSlide, of_nat.
    rewrite showSlide_of_Z, Htotal. f_equal. lia.
  - unfold overview_item_click, closeOverviewModal.
    rewrite document_on. apply has_class_add. unfold goToSlide.
    rewrite showSlide_other; [exact Hthere |].
    repeat (apply not_elem_of_cons; split; [done |]). apply not_elem_of_nil.
Qed.

End ViewerViews.

(* ===================================================================== *)
(** * Slide viewer: what a page shows *)
(* ===================================================================== *)

Section ViewerModes.

Import JS Viewer.

Implicit Types (s : State) (n : number) (g : ScrollGeometry).

Lemma document_scrollToCurrentSlide s :
  document (scrollToCurrentSlide s) = document s.
Proof. unfold scrollToCurrentSlide. by repeat case_match. Qed.

Lemma document_enterScrollMode s :
  document (enterScrollMode s)
  = update scrollContainer (classList_remove "hidden")
      (update scrollContainer
         (set_children
            (map (scroll_slide s) (seq 1 (Z.to_nat (totalSlides s)))))
         (update scrollContainer (set_children []) (document s))).
Proof.
  unfold enterScrollMode. cbv zeta. by rewrite document_scrollToCurrentSlide.
Qed.

Lemma exitScrollMode_other (k : string) g s :
  k ∉ [slidesWrapper; slideLoading; slideCurrent; slidePrev; slideNext;
       progressFill; navAreaPrev; navAreaNext] ->
  document (exitScrollMode g s) !! k
  = update scrollContainer (classList_add "hidden") (document s) !! k.
Proof.
  intros Hk. unfold exitScrollMode. cbv zeta. by rewrite showSlide_other.
Qed.

Ltac not_listed :=
  repeat (apply not_elem_of_cons; split; [done |]); apply not_elem_of_nil.

Lemma has_class_exitScrollMode (k c : string) g s :
  k ∉ [slidesWrapper; slideLoading; slideCurrent; slidePrev; slideNext;
       progressFill; navAreaPrev; navAreaNext] ->
  has_class k c (document (exitScrollMode g s))
  = has_class k c
      (update scrollContainer (classList_add "hidden") (document s)).
Proof. intros Hk. by apply has_class_lookup, exitScrollMode_other. Qed.

Lemma toggleScrollMode_body g s :
  is_Some (document s !! body) ->
  has_class body "scroll-mode" (document (toggleScrollMode g s))
  = negb (has_class body "scroll-mode" (document s)).
Proof.
  intros Hbody. unfold toggleScrollMode.
  destruct (has_class body "scroll-mode" (document s)); cbv zeta; cbn [negb].
  - rewrite has_class_exitScrollMode by not_listed. rewrite !document_on.
    rewrite !has_class_update_ne by done. apply has_class_remove.
  - rewrite document_enterScrollMode, !document_on.
    rewrite !has_class_update_ne by done. by apply has_class_add.
Qed.

(** X25. [toggleScrollMode] flips the mode and keeps the page consistent
    with it: on a page holding the viewer's elements, afterwards the body
    carries [scroll-mode] iff it did not before, the scroll-mode icon is
    hidden iff the viewer scrolls, and the slide-mode icon and the scroll
    container are hidden iff it is paged. *)
Theorem toggleScrollMode_flips g s
    (Hready : page_ready (document s) = true) :
  let s' := toggleScrollMode g s in
  let scrolling := negb (has_class body "scroll-mode" (document s)) in
  has_class body "scroll-mode" (document s') = scrolling
  /\ has_class slideModeIcon "hidden" (document s') = negb scrolling
  /\ has_class scrollModeIcon "hidden" (document s') = scrolling
  /\ has_class scrollContainer "hidden" (document s') = negb scrolling.
Proof.
  intros s' scrolling. subst s' scrolling.
  assert (Hbody : is_Some (document s !! body))
    by (apply page_ready_lookup; [done | element_listed]).
  assert (Hslide : is_Some (document s !! slideModeIcon))
    by (apply page_ready_lookup; [done | element_listed]).
  assert (Hscroll : is_Some (document s !! scrollModeIcon))
    by (apply page_ready_lookup; [done | element_listed]).
  assert (Hcontainer : is_Some (document s !! scrollContainer))
    by (apply page_ready_lookup; [done | element_listed]).
  unfold toggleScrollMode.
  destruct (has_class body "scroll-mode" (document s)); cbv zeta; cbn [negb].
  - rewrite !has_class_exitScrollMode by not_listed.
    rewrite !document_on.
    split; [| split; [| split]].
    + rewrite !has_class_update_ne by done. apply has_class_remove.
    + rewrite !has_class_update_ne by done. apply has_class_add.
      by rewrite !update_is_Some.
    + rewrite !has_class_update_ne by done. apply has_class_remove.
    + apply has_class_add. by rewrite !update_is_Some.
  - rewrite !document_enterScrollMode, !document_on.
    split; [| split; [| split]].
    + rewrite !has_class_update_ne by done. by apply has_class_add.
    + rewrite !has_class_update_ne by done. apply has_class_remove.
    + rewrite !has_class_update_ne by done. apply has_class_add.
      by rewrite !update_is_Some.
    + apply has_class_remove.
Qed.

Lemma toggleScrollMode_other (k : string) g s :
  k ∉ [body; slideModeIcon; scrollModeIcon; scrollContainer;
       slidesWrapper; slideLoading; slideCurrent; slidePrev; slideNext;
       progressFill; navAreaPrev; navAreaNext] ->
  document (toggleScrollMode g s) !! k = document s !! k.
Proof.
  intros Hk.
  assert (Hne : k <> body /\ k <> slideModeIcon /\ k <> scrollModeIcon
                /\ k <> scrollContainer).
  { repeat split; intros ->; apply Hk; element_listed. }
  destruct Hne as (Hbody & Hslide & Hscroll & Hcontainer).
  unfold toggleScrollMode.
  destruct (has_class body "scroll-mode" (document s)); cbv zeta.
  - rewrite exitScrollMode_other.
    + rewrite !document_on. by rewrite !lookup_update_ne.
    + intros Hin. apply Hk. do 4 (apply elem_of_cons; right). exact Hin.
  - rewrite document_enterScrollMode, !document_on.
    by rewrite !lookup_update_ne.
Qed.

Lemma toggleScrollMode_body_class (c : string) g s :
  c <> "scroll-mode" ->
  has_class body c (document (toggleScrollMode g s))
  = has_class body c (document s).
Proof.
  intros Hc. unfold toggleScrollMode.
  destruct (has_class body "scroll-mode" (document s)); cbv zeta.
  - rewrite has_class_exitScrollMode by not_listed. rewrite !document_on.
    rewrite !has_class_update_ne by done.
    rewrite has_class_update. unfold has_class.
    destruct (document s !! body); [| done]. by apply contains_remove_ne.
  - rewrite document_enterScrollMode, !document_on.
    rewrite !has_class_update_ne by done.
    rewrite has_class_update. unfold has_class.
    destruct (document s !! body); [| done]. by apply contains_add_ne.
Qed.

(** The end of [init] for each answer of its two tests. *)
Lemma init_tail_mode (narrow_or_scroll not_from_list : bool) g s :
  page_ready (document s) = true ->
  has_class body "scroll-mode" (document s) = false ->
  let s1 := if narrow_or_scroll then toggleScrollMode g s else s in
  let s2 :=
    if not_from_list then
      on closeButton_parentElement (setStyle "display" (CssText "none")) s1
    else s1 in
  has_class body "scroll-mode" (document s2) = narrow_or_scroll
  /\ has_class body "controls-visible" (document s2)
     = has_class body "controls-visible" (document s)
  /\ document s2 !! closeButton_parentElement ≫= (fun el => style el !! "display")
     = if not_from_list then Some (CssText "none")
       else document s !! closeButton_parentElement
              ≫= (fun el => style el !! "display").
Proof.
  intros Hready Hpaged. cbv zeta.
  assert (Hbody : is_Some (document s !! body))
    by (apply page_ready_lookup; [done | element_listed]).
  pose proof (toggleScrollMode_body g s Hbody) as Hflip.
  rewrite Hpaged in Hflip. cbn [negb] in Hflip.
  pose proof (toggleScrollMode_body_class "controls-visible" g s
                ltac:(done)) as Hcontrols.
  pose proof (toggleScrollMode_other closeButton_parentElement g s
                ltac:(not_listed)) as Hclose.
  assert (Hbutton : is_Some (document s !! closeButton_parentElement))
    by (apply page_ready_lookup; [done | element_listed]).
  destruct Hbutton as [el Hel].
  destruct narrow_or_scroll, not_from_list; rewrite ?document_on;
    rewrite ?has_class_update_ne by done;
    rewrite ?lookup_update, ?Hclose, ?Hel;
    (split; [done |]); (split; [done |]);
    first [done | cbn; apply lookup_insert_eq].
Qed.

(** X26. How [init] picks the mode: on a page holding the viewer's
    elements and served in paged mode, once the metadata has arrived the
    viewer is in scroll mode iff the window is at most 768 px wide or the
    URL says [mode=scroll]; the controls are showing; and the close
    button's parent is hidden unless the URL says [from=list]. *)
Theorem init_selects_mode (baseUrl pathname : string)
    (params : gmap string string) (page_title : string) (d : Document)
    (md : Metadata) (innerWidth : number) g
    (Hready : page_ready d = true)
    (Hpaged : has_class body "scroll-mode" d = false) :
  let s :=
    init baseUrl (Response true (Json md)) innerWidth g
      (new_SlidefViewer pathname params page_title d) in
  has_class body "scroll-mode" (document s)
  = (leb innerWidth (of_Z 768)
     || bool_decide (params !! "mode" = Some "scroll"))%bool
  /\ has_class body "controls-visible" (document s) = true
  /\ document s !! closeButton_parentElement ≫= (fun el => style el !! "display")
     = if bool_decide (params !! "from" = Some "list") then
         d !! closeButton_parentElement ≫= (fun el => style el !! "display")
       else Some (CssText "none").
Proof.
  cbv zeta. unfold init, new_SlidefViewer, loadMetadata. cbv zeta.
  set (nameOf := match last _ with Some _ => _ | None => _ end).
  state_simpl.
  set (shown := showSlide _ true _).
  assert (Hsync : search shown !! "page" = Some (to_string (currentSlide shown)))
    by apply showSlide_synced.
  assert (Hmode : search shown !! "mode" = params !! "mode").
  { subst shown. unfold showSlide. state_simpl.
    by rewrite (lookup_insert_ne (M:=gmap string)). }
  assert (Hfrom : search shown !! "from" = params !! "from").
  { subst shown. unfold showSlide. state_simpl.
    by rewrite (lookup_insert_ne (M:=gmap string)). }
  assert (Hready' : page_ready (document shown) = true).
  { subst shown. unfold page_ready, has_elements in *.
    rewrite forallb_forall in *. intros k Hk. specialize (Hready k Hk).
    apply bool_decide_eq_true. apply bool_decide_eq_true in Hready.
    unfold showSlide, setupEventListeners, showControls. state_simpl.
    by rewrite !update_is_Some. }
  assert (Hpaged' : has_class body "scroll-mode" (document shown) = false).
  { subst shown. rewrite (has_class_lookup _ _ (document
      (setupEventListeners
         (mkState nameOf (parseInt (or_else (params !! "page") "1"))
            (pageCount md)
            (image_paths baseUrl nameOf (or_else (format md) "webp")
               (pageCount md))
            (Some md) false false params page_title d None [])))).
    - unfold setupEventListeners, showControls. state_simpl.
      rewrite has_class_update. unfold has_class in Hpaged.
      destruct (d !! body); [| done]. by rewrite contains_add_ne.
    - apply showSlide_other. not_listed. }
  assert (Hcontrols : has_class body "controls-visible" (document shown) = true).
  { subst shown. rewrite (has_class_lookup _ _ (document
      (setupEventListeners
         (mkState nameOf (parseInt (or_else (params !! "page") "1"))
            (pageCount md)
            (image_paths baseUrl nameOf (or_else (format md) "webp")
               (pageCount md))
            (Some md) false false params page_title d None [])))).
    - unfold setupEventListeners, showControls. state_simpl.
      apply has_class_add. apply page_ready_lookup; [done | element_listed].
    - apply showSlide_other. not_listed. }
  assert (Hbutton : document shown !! closeButton_parentElement
                    = d !! closeButton_parentElement).
  { subst shown. rewrite showSlide_other by not_listed.
    unfold setupEventListeners, showControls. state_simpl.
    by rewrite lookup_update_ne. }
  clearbody shown.
  rewrite Hsync, Hmode, Hfrom.
  match goal with
  | |- context [if ?b1 then on _ _ (if ?b2 then _ else _) else _] =>
      destruct (init_tail_mode b2 b1 g shown Hready' Hpaged')
        as (Hscrolling & Hvisible & Hclose)
  end.
  cbv zeta in Hscrolling, Hvisible, Hclose.
  split; [exact Hscrolling |]. split; [by rewrite Hvisible |].
  rewrite Hclose, Hbutton. by destruct (bool_decide _).
Qed.

End ViewerModes.

Section ViewerSlots.

Import JS Viewer.

Implicit Types (s : State) (n : number).

Lemma showSlide_slidePrev n upd s :
  document (showSlide n upd s) !! slidePrev
  = (if gtb (currentSlide (showSlide n upd s)) (of_Z 1) then
       fun img =>
         setStyle "display" (CssText "block")
           (setAttribute "src"
              (DOMString
                 (index (slideImages s)
                    (sub (currentSlide (showSlide n upd s)) (of_Z 2))))
              (classList_add "loading" img))
     else setStyle "display" (CssText "none"))
    <$> document s !! slidePrev.
Proof.
  unfold showSlide. state_simpl.
  rewrite !lookup_update_ne by done. rewrite lookup_update.
  by rewrite !lookup_update_ne.
Qed.

Lemma showSlide_slideNext n upd s :
  document (showSlide n upd s) !! slideNext
  = (if ltb (currentSlide (showSlide n upd s)) (of_Z (totalSlides s)) then
       fun img =>
         setStyle "display" (CssText "block")
           (setAttribute "src"
              (DOMString
                 (index (slideImages s) (currentSlide (showSlide n upd s))))
              (classList_add "loading" img))
     else setStyle "display" (CssText "none"))
    <$> document s !! slideNext.
Proof.
  unfold showSlide. state_simpl.
  rewrite !lookup_update_ne by done. rewrite lookup_update.
  by rewrite !lookup_update_ne.
Qed.

Lemma showSlide_navAreaPrev n upd s :
  document (showSlide n upd s) !! navAreaPrev
  = setStyle "display"
      (CssText (if eqb (currentSlide (showSlide n upd s)) (of_Z 1)
                then "none" else "block"))
    <$> document s !! navAreaPrev.
Proof.
  unfold showSlide. state_simpl.
  rewrite !lookup_update_ne by done. rewrite lookup_update.
  by rewrite !lookup_update_ne.
Qed.

Lemma showSlide_navAreaNext n upd s :
  document (showSlide n upd s) !! navAreaNext
  = setStyle "display"
      (CssText (if eqb (currentSlide (showSlide n upd s))
                     (of_Z (totalSlides s))
                then "none" else "block"))
    <$> document s !! navAreaNext.
Proof.
  unfold showSlide. state_simpl. rewrite lookup_update.
  by rewrite !lookup_update_ne.
Qed.

(** X27. What the three image slots and the two click areas show on a
    page of the deck: on a page holding the viewer's elements, with one
    image path per page, after [showSlide(z)] for [1 <= z <= totalSlides]
    the current slot shows path [z]; the previous slot is hidden on page 1
    and otherwise shows path [z - 1]; the next slot is hidden on the last
    page and otherwise shows path [z + 1]; each click area is displayed
    exactly when the slot on its side is. *)
Theorem showSlide_fills_slots (z : Z) (upd : bool) s
    (Hready : page_ready (document s) = true)
    (Himages : length (slideImages s) = Z.to_nat (totalSlides s))
    (Hz : 1 <= z <= totalSlides s) :
  let s' := showSlide (of_Z z) upd s in
  let src := fun k => document s' !! k ≫= getAttribute "src" in
  let display := fun k => document s' !! k ≫= (fun el => style el !! "display") in
  src slideCurrent = slideImages s !! Z.to_nat (z - 1)
  /\ (z = 1 \/ src slidePrev = slideImages s !! Z.to_nat (z - 2))
  /\ (z = totalSlides s \/ src slideNext = slideImages s !! Z.to_nat z)
  /\ display slidePrev = Some (CssText (if z =? 1 then "none" else "block"))
  /\ display slideNext
     = Some (CssText (if z =? totalSlides s then "none" else "block"))
  /\ display navAreaPrev = display slidePrev
  /\ display navAreaNext = display slideNext.
Proof.
  intros s' src display.
  assert (Hcur : currentSlide s' = of_Z z).
  { subst s'. rewrite showSlide_of_Z. f_equal. lia. }
  assert (Hpath : forall i, 0 <= i < totalSlides s ->
            exists p, slideImages s !! Z.to_nat i = Some p
                      /\ DOMString (index (slideImages s) (of_Z i)) = p).
  { intros i Hi.
    destruct (lookup_lt_is_Some_2 (slideImages s) (Z.to_nat i)) as [p Hp];
      [lia |].
    exists p. split; [exact Hp |]. by rewrite index_of_Z, Hp by lia. }
  destruct (page_ready_lookup _ slideCurrent Hready ltac:(element_listed))
    as [current Hcurrent].
  destruct (page_ready_lookup _ slidePrev Hready ltac:(element_listed))
    as [prev Hprev].
  destruct (page_ready_lookup _ slideNext Hready ltac:(element_listed))
    as [next Hnext].
  destruct (page_ready_lookup _ navAreaPrev Hready ltac:(element_listed))
    as [areaPrev HareaPrev].
  destruct (page_ready_lookup _ navAreaNext Hready ltac:(element_listed))
    as [areaNext HareaNext].
  assert (Hsrc_current : src slideCurrent = slideImages s !! Z.to_nat (z - 1)).
  { subst src s'. cbv beta. rewrite showSlide_slideCurrent.
    fold (showSlide (of_Z z) upd s). rewrite Hcur, Hcurrent, sub_of_Z.
    destruct (Hpath (z - 1)) as (p & Hp & Hp'); [lia |].
    rewrite Hp', Hp. cbn. apply lookup_insert_eq. }
  assert (Hdisplay_prev :
    display slidePrev = Some (CssText (if z =? 1 then "none" else "block"))).
  { subst display s'. cbv beta. rewrite showSlide_slidePrev, Hcur, Hprev.
    unfold gtb. rewrite ltb_of_Z.
    destruct (Z.ltb_spec 1 z), (Z.eqb_spec z 1); try lia;
      cbn; apply lookup_insert_eq. }
  assert (Hdisplay_next :
    display slideNext
    = Some (CssText (if z =? totalSlides s then "none" else "block"))).
  { subst display s'. cbv beta. rewrite showSlide_slideNext, Hcur, Hnext.
    rewrite ltb_of_Z.
    destruct (Z.ltb_spec z (totalSlides s)), (Z.eqb_spec z (totalSlides s));
      try lia; cbn; apply lookup_insert_eq. }
  split; [exact Hsrc_current |]. split; [| split; [| split; [| split; [| split]]]].
  - destruct (decide (z = 1)) as [| Hne]; [by left | right].
    subst src s'. cbv beta. rewrite showSlide_slidePrev, Hcur, Hprev.
    unfold gtb. rewrite ltb_of_Z, sub_of_Z.
    destruct (Z.ltb_spec 1 z); [| lia].
    destruct (Hpath (z - 2)) as (p & Hp & Hp'); [lia |].
    rewrite Hp', Hp. cbn. apply lookup_insert_eq.
  - destruct (decide (z = totalSlides s)) as [| Hne]; [by left | right].
    subst src s'. cbv beta. rewrite showSlide_slideNext, Hcur, Hnext.
    rewrite ltb_of_Z.
    destruct (Z.ltb_spec z (totalSlides s)); [| lia].
    destruct (Hpath z) as (p & Hp & Hp'); [lia |].
    rewrite Hp', Hp. cbn. apply lookup_insert_eq.
  - exact Hdisplay_prev.
  - exact Hdisplay_next.
  - rewrite Hdisplay_prev. subst display s'. cbv beta.
    rewrite showSlide_navAreaPrev, Hcur, HareaPrev, eqb_of_Z.
    cbn. apply lookup_insert_eq.
  - rewrite Hdisplay_next. subst display s'. cbv beta.
    rewrite showSlide_navAreaNext, Hcur, HareaNext, eqb_of_Z.
    cbn. apply lookup_insert_eq.
Qed.

Lemma clamp_on_empty_deck n :
  n <> NaN -> Math_max (of_Z 1) (Math_min n (of_Z 0)) = of_Z 1.
Proof.
  intros Hn. destruct n as [| | | q]; [done | reflexivity | reflexivity |].
  assert (Hmin : Math_min (Fin q) (of_Z 0)
                 = if ltb (of_Z 0) (Fin q) then of_Z 0 else Fin q)
    by reflexivity.
  rewrite Hmin. destruct (ltb (of_Z 0) (Fin q)) eqn:Hpositive; [reflexivity |].
  assert (Hmax : Math_max (of_Z 1) (Fin q)
                 = if ltb (of_Z 1) (Fin q) then Fin q else of_Z 1)
    by reflexivity.
  rewrite Hmax.
  assert (Hbelow : ltb (of_Z 1) (Fin q) = false).
  { unfold ltb, of_Z in *. apply negb_false_iff in Hpositive.
    apply negb_false_iff. apply Qle_bool_iff in Hpositive.
    apply Qle_bool_iff. by apply Qle_trans with (inject_Z 0). }
  by rewrite Hbelow.
Qed.

(** X28. A deck without pages: once the metadata has arrived with
    [pageCount] 0, [showSlide] of any number still settles on page 1,
    beyond the deck; the current slot gets the text "undefined" as its
    source, the title names slide 1, and neither [nextSlide] nor
    [previousSlide] moves from there. *)
Theorem showSlide_on_empty_deck n (upd : bool) s (md : Metadata)
    (Hready : page_ready (document s) = true)
    (Hn : n <> NaN)
    (Hmetadata : metadata s = Some md)
    (Hempty : totalSlides s = 0)
    (Hnone : slideImages s = []) :
  let s' := showSlide n upd s in
  currentSlide s' = of_Z 1
  /\ ltb (of_Z (totalSlides s')) (currentSlide s') = true
  /\ document s' !! slideCurrent ≫= getAttribute "src" = Some "undefined"
  /\ document_title s' = or_else (title md) (name md) +:+ " - Slide 1"
  /\ nextSlide s' = s'
  /\ previousSlide s' = s'.
Proof.
  cbv zeta.
  assert (Hcur : currentSlide (showSlide n upd s) = of_Z 1).
  { rewrite showSlide_currentSlide, Hempty. by apply clamp_on_empty_deck. }
  destruct (page_ready_lookup _ slideCurrent Hready ltac:(element_listed))
    as [current Hcurrent].
  split; [exact Hcur |]. split; [| split; [| split; [| split]]].
  - by rewrite Hcur, showSlide_totalSlides, Hempty.
  - rewrite showSlide_slideCurrent, Hcur, Hcurrent, Hnone. cbn.
    apply lookup_insert_eq.
  - assert (Htitle : document_title (showSlide n upd s)
                     = match metadata s with
                       | Some md =>
                           or_else (title md) (name md) +:+ " - Slide "
                             +:+ to_string (currentSlide (showSlide n upd s))
                       | None => document_title s
                       end) by reflexivity.
    by rewrite Htitle, Hmetadata, Hcur.
  - unfold nextSlide. by rewrite Hcur, showSlide_totalSlides, Hempty.
  - unfold previousSlide. by rewrite Hcur.
Qed.

End ViewerSlots.

(* ===================================================================== *)
(** * The viewer's further properties on the sample decks *)
(* ===================================================================== *)

Lemma written_url_reads_back_witness :
  let s' := Viewer.goToSlide (JS.of_Z 3) (Sample.opened Sample.deck5 ∅ 1280) in
  Viewer.currentSlide
    (Viewer.new_SlidefViewer "/deck" (Viewer.search s') "" Sample.viewer_page)
  = Viewer.currentSlide s'
  /\ Viewer.currentSlide (Viewer.on_popstate s') = Viewer.currentSlide s'.
Proof.
  apply (written_url_reads_back (JS.of_Z 3) (Sample.opened Sample.deck5 ∅ 1280)
           "/deck" "" Sample.viewer_page).
  - right. right. by exists 3.
  - vm_compute. discriminate.
Defined.

Lemma next_and_previous_are_inverse_witness :
  let s := Sample.opened Sample.deck5 ∅ 1280 in
  Viewer.currentSlide (Viewer.nextSlide s) = JS.of_Z (1 + 1)
  /\ Viewer.currentSlide (Viewer.previousSlide (Viewer.nextSlide s)) = JS.of_Z 1
  /\ Viewer.search (Viewer.previousSlide (Viewer.nextSlide s)) !! "page"
     = Some (JS.string_of_Z 1)
  /\ Viewer.currentSlide
       (Viewer.nextSlide (Viewer.previousSlide (Viewer.nextSlide s)))
     = JS.of_Z (1 + 1).
Proof.
  apply (next_and_previous_are_inverse 1 (Sample.opened Sample.deck5 ∅ 1280)).
  - vm_compute. reflexivity.
  - split; vm_compute; [discriminate | reflexivity].
Defined.

Lemma wheel_is_throttled_witness :
  let s := Sample.opened Sample.deck5 ∅ 1280 in
  let e1 := {| Viewer.deltaY := JS.of_Z 120 |} in
  let e2 := {| Viewer.deltaY := JS.of_Z (-120) |} in
  let s1 := (Viewer.handleWheel e1 s).1 in
  Viewer.currentSlide s1
  = Viewer.currentSlide
      (if JS.gtb (Viewer.deltaY e1) (JS.of_Z 0) then Viewer.nextSlide s
       else if JS.ltb (Viewer.deltaY e1) (JS.of_Z 0) then Viewer.previousSlide s
       else s)
  /\ Viewer.wheelThrottleTimer s1 = true
  /\ Viewer.handleWheel e2 s1 = (s1, true)
  /\ Viewer.wheelThrottleTimer (Viewer.wheelThrottle_timeout s1) = false.
Proof.
  apply (wheel_is_throttled {| Viewer.deltaY := JS.of_Z 120 |}
           {| Viewer.deltaY := JS.of_Z (-120) |}
           (Sample.opened Sample.deck5 ∅ 1280));
    vm_compute; reflexivity.
Defined.

Lemma scroll_tracks_nearest_slide_witness :
  let s := Sample.opened Sample.deck5 ∅ 375 in
  let center := Viewer.scroll_center Sample.at_top in
  exists k : nat,
    (k < length (Viewer.slideElements s))%nat
    /\ Viewer.currentSlide (Viewer.updateCurrentSlideFromScroll Sample.at_top s)
       = JS.of_nat (S k)
    /\ (forall j, (j < length (Viewer.slideElements s))%nat ->
          JS.leb (Viewer.slide_distance Sample.at_top center k)
            (Viewer.slide_distance Sample.at_top center j) = true)
    /\ (forall j, (j < k)%nat ->
          JS.ltb (Viewer.slide_distance Sample.at_top center k)
            (Viewer.slide_distance Sample.at_top center j) = true).
Proof.
  apply (scroll_tracks_nearest_slide Sample.at_top
           (Sample.opened Sample.deck5 ∅ 375)).
  - vm_compute. discriminate.
  - intros j Hj. vm_compute in Hj.
    do 5 (destruct j as [| j]; [vm_compute; discriminate |]). lia.
Defined.

Lemma scroll_mode_lists_every_page_witness :
  let s := Sample.opened Sample.deck5 ∅ 1280 in
  let s' := Viewer.enterScrollMode s in
  map (getAttribute "src") (Viewer.slideElements s')
  = map Some (Viewer.slideImages s)
  /\ map (getAttribute "alt") (Viewer.slideElements s')
     = map (fun i => Some ("Slide " +:+ JS.string_of_Z (Z.of_nat i)))
         (seq 1 (Z.to_nat (Viewer.totalSlides s)))
  /\ has_class Viewer.scrollContainer "hidden" (Viewer.document s') = false
  /\ Viewer.scrolledIntoView s' = Some (Z.to_nat (1 - 1)).
Proof.
  apply (scroll_mode_lists_every_page (Sample.opened Sample.deck5 ∅ 1280) 1).
  - apply page_ready_lookup; [vm_compute; reflexivity | element_listed].
  - vm_compute. reflexivity.
  - vm_compute. reflexivity.
  - split; vm_compute; discriminate.
Defined.

Lemma overview_marks_and_opens_pages_witness :
  let s := Sample.opened Sample.deck5 ∅ 1280 in
  let s' := Viewer.openOverviewModal s in
  let entries :=
    default [] (children <$> Viewer.document s' !! Viewer.overviewGrid) in
  map (classList_contains "active") entries
  = map (fun j => bool_decide (Z.of_nat j = 1))
      (seq 1 (Z.to_nat (Viewer.totalSlides s)))
  /\ has_class Viewer.overviewModal "hidden" (Viewer.document s') = false
  /\ Viewer.currentSlide (Viewer.overview_item_click 3 s') = JS.of_nat 3
  /\ has_class Viewer.overviewModal "hidden"
       (Viewer.document (Viewer.overview_item_click 3 s'))
     = true.
Proof.
  apply (overview_marks_and_opens_pages (Sample.opened Sample.deck5 ∅ 1280) 1 3).
  - apply page_ready_lookup; [vm_compute; reflexivity | element_listed].
  - apply page_ready_lookup; [vm_compute; reflexivity | element_listed].
  - vm_compute. reflexivity.
  - vm_compute. lia.
Defined.

Lemma toggleScrollMode_flips_witness :
  let s := Sample.opened Sample.deck5 ∅ 1280 in
  let s' := Viewer.toggleScrollMode Sample.at_top s in
  let scrolling :=
    negb (has_class Viewer.body "scroll-mode" (Viewer.document s)) in
  has_class Viewer.body "scroll-mode" (Viewer.document s') = scrolling
  /\ has_class Viewer.slideModeIcon "hidden" (Viewer.document s')
     = negb scrolling
  /\ has_class Viewer.scrollModeIcon "hidden" (Viewer.document s') = scrolling
  /\ has_class Viewer.scrollContainer "hidden" (Viewer.document s')
     = negb scrolling.
Proof.
  apply (toggleScrollMode_flips Sample.at_top (Sample.opened Sample.deck5 ∅ 1280)).
  vm_compute. reflexivity.
Defined.

Lemma init_selects_mode_witness :
  let s := Sample.opened Sample.deck5 {[ "mode" := "scroll" ]} 1280 in
  has_class Viewer.body "scroll-mode" (Viewer.document s) = true
  /\ has_class Viewer.body "controls-visible" (Viewer.document s) = true
  /\ Viewer.document s !! Viewer.closeButton_parentElement
       ≫= (fun el => style el !! "display")
     = Some (CssText "none").
Proof.
  cbv zeta. unfold Sample.opened.
  assert (Hready : Viewer.page_ready Sample.viewer_page = true)
    by (vm_compute; reflexivity).
  assert (Hpaged : has_class Viewer.body "scroll-mode" Sample.viewer_page = false)
    by (vm_compute; reflexivity).
  destruct (init_selects_mode "" ("/" +:+ Viewer.name Sample.deck5)
              {[ "mode" := "scroll" ]} "" Sample.viewer_page Sample.deck5
              (JS.of_Z 1280) Sample.at_top Hready Hpaged)
    as (Hmode & Hcontrols & Hclose).
  rewrite Hmode, Hcontrols, Hclose. repeat split; vm_compute; reflexivity.
Defined.

Lemma showSlide_fills_slots_witness :
  let s := Sample.opened Sample.deck5 ∅ 1280 in
  let s' := Viewer.showSlide (JS.of_Z 2) true s in
  let src := fun k => Viewer.document s' !! k ≫= getAttribute "src" in
  let display :=
    fun k => Viewer.document s' !! k ≫= (fun el => style el !! "display") in
  src Viewer.slideCurrent = Viewer.slideImages s !! Z.to_nat (2 - 1)
  /\ (2 = 1 \/ src Viewer.slidePrev = Viewer.slideImages s !! Z.to_nat (2 - 2))
  /\ (2 = Viewer.totalSlides s
      \/ src Viewer.slideNext = Viewer.slideImages s !! Z.to_nat 2)
  /\ display Viewer.slidePrev
     = Some (CssText (if 2 =? 1 then "none" else "block"))
  /\ display Viewer.slideNext
     = Some (CssText (if 2 =? Viewer.totalSlides s then "none" else "block"))
  /\ display Viewer.navAreaPrev = display Viewer.slidePrev
  /\ display Viewer.navAreaNext = display Viewer.slideNext.
Proof.
  apply (showSlide_fills_slots 2 true (Sample.opened Sample.deck5 ∅ 1280)).
  - vm_compute. reflexivity.
  - vm_compute. reflexivity.
  - split; vm_compute; discriminate.
Defined.

Lemma showSlide_on_empty_deck_witness :
  let s' :=
    Viewer.showSlide (JS.of_Z 3) true (Sample.opened Sample.deck0 ∅ 1280) in
  Viewer.currentSlide s' = JS.of_Z 1
  /\ JS.ltb (JS.of_Z (Viewer.totalSlides s')) (Viewer.currentSlide s') = true
  /\ Viewer.document s' !! Viewer.slideCurrent ≫= getAttribute "src"
     = Some "undefined"
  /\ Viewer.document_title s'
     = JS.or_else (Viewer.title Sample.deck0) (Viewer.name Sample.deck0)
         +:+ " - Slide 1"
  /\ Viewer.nextSlide s' = s'
  /\ Viewer.previousSlide s' = s'.
Proof.
  apply (showSlide_on_empty_deck (JS.of_Z 3) true
           (Sample.opened Sample.deck0 ∅ 1280) Sample.deck0).
  - vm_compute. reflexivity.
  - discriminate.
  - vm_compute. reflexivity.
  - vm_compute. reflexivity.
  - vm_compute. reflexivity.
Defined.

(* ===================================================================== *)
(** * Slide viewer: the loading spinner and the deck's name *)
(* ===================================================================== *)

Section ViewerSpinner.

Import JS Viewer.

Implicit Types (s : State) (n : number) (i : ImageSlot).

Lemma slot_element_not_spinner i : slot_element i <> slideLoading.
Proof. by destruct i. Qed.

Lemma document_checkAllImagesLoaded s :
  document (checkAllImagesLoaded s)
  = if negb (existsb (still_loading (document s))
               [slidePrev; slideCurrent; slideNext])
    then update slideLoading (setStyle "display" (CssText "none")) (document s)
    else document s.
Proof. unfold checkAllImagesLoaded. cbv zeta. by case_match. Qed.

Lemma still_loading_lookup (d d' : Document) (k : string) :
  d' !! k = d !! k -> still_loading d' k = still_loading d k.
Proof. unfold still_loading. by intros ->. Qed.

Lemma still_loading_settled (d : Document) (k : string) :
  still_loading (update k (classList_remove "loading") d) k = false.
Proof.
  unfold still_loading. rewrite lookup_update.
  destruct (d !! k) as [img |]; [| done]. cbn [fmap option_fmap option_map].
  by rewrite contains_remove.
Qed.

Lemma still_loading_settled_other (d : Document) (k k' : string) :
  still_loading d k' = false ->
  still_loading (update k (classList_remove "loading") d) k' = false.
Proof.
  intros Hk'. destruct (decide (k' = k)) as [-> | Hne];
    [apply still_loading_settled |].
  by rewrite (still_loading_lookup d), Hk' by by apply lookup_update_ne.
Qed.

Lemma still_loading_checked s i :
  still_loading (document (checkAllImagesLoaded s)) (slot_element i)
  = still_loading (document s) (slot_element i).
Proof.
  rewrite document_checkAllImagesLoaded. case_match; [| done].
  apply still_loading_lookup, lookup_update_ne. apply slot_element_not_spinner.
Qed.

Lemma none_loading (d : Document) :
  (forall j, still_loading d (slot_element j) = false) ->
  existsb (still_loading d) [slidePrev; slideCurrent; slideNext] = false.
Proof.
  intros H. cbn [existsb].
  by rewrite (H PrevImage : still_loading d slidePrev = false),
    (H CurrentImage : still_loading d slideCurrent = false),
    (H NextImage : still_loading d slideNext = false).
Qed.

(** An image that has settled stays settled, and the one whose event
    fires is settled. *)
Lemma on_image_settled_keeps i j s :
  still_loading (document s) (slot_element j) = false ->
  still_loading (document (on_image_settled i s)) (slot_element j) = false.
Proof.
  intros Hj. unfold on_image_settled.
  rewrite still_loading_checked, document_on.
  by apply still_loading_settled_other.
Qed.

Lemma on_image_settled_self i s :
  still_loading (document (on_image_settled i s)) (slot_element i) = false.
Proof.
  unfold on_image_settled. rewrite still_loading_checked, document_on.
  apply still_loading_settled.
Qed.

Lemma images_settled (events : list ImageSlot) s j :
  j ∈ events \/ still_loading (document s) (slot_element j) = false ->
  still_loading
    (document (foldl (fun s i => on_image_settled i s) s events))
    (slot_element j) = false.
Proof.
  revert s. induction events as [| i events IH]; intros s [Hj | Hj].
  - by apply elem_of_nil in Hj.
  - exact Hj.
  - cbn [foldl]. apply IH. apply elem_of_cons in Hj as [-> | Hj].
    + right. apply on_image_settled_self.
    + by left.
  - cbn [foldl]. apply IH. right. by apply on_image_settled_keeps.
Qed.

Lemma on_image_settled_keeps_state i s :
  currentSlide (on_image_settled i s) = currentSlide s
  /\ (is_Some (document s !! slideLoading) ->
      is_Some (document (on_image_settled i s) !! slideLoading)).
Proof.
  unfold on_image_settled, checkAllImagesLoaded. cbv zeta.
  case_match; (split; [reflexivity |]); intros Hthere; rewrite ?document_on;
    by rewrite ?update_is_Some.
Qed.

Lemma images_settled_keeps_state (events : list ImageSlot) s :
  currentSlide (foldl (fun s i => on_image_settled i s) s events)
  = currentSlide s
  /\ (is_Some (document s !! slideLoading) ->
      is_Some (document (foldl (fun s i => on_image_settled i s) s events)
               !! slideLoading)).
Proof.
  revert s. induction events as [| i events IH]; intros s; [done |].
  cbn [foldl]. destruct (IH (on_image_settled i s)) as [-> Hthere].
  destruct (on_image_settled_keeps_state i s) as [-> Hthere'].
  split; [done |]. intros H. by apply Hthere, Hthere'.
Qed.

(** X29. The loading spinner goes once the three images have settled:
    on a page holding the viewer's elements, after [showSlide] and then
    [load] or [error] events of the previous, current and next image in
    any order and number, as long as each of the three has had one, the
    spinner is hidden and none of the images counts as loading; the events
    do not move the viewer. *)
Theorem spinner_hides_once_images_settle n (upd : bool) s
    (events : list ImageSlot)
    (Hready : page_ready (document s) = true)
    (Hall : forall i, i ∈ events) :
  let s' := foldl (fun s i => on_image_settled i s) (showSlide n upd s) events in
  document s' !! slideLoading ≫= (fun el => style el !! "display")
  = Some (CssText "none")
  /\ existsb (still_loading (document s')) [slidePrev; slideCurrent; slideNext]
     = false
  /\ currentSlide s' = currentSlide (showSlide n upd s).
Proof.
  intros s'. subst s'.
  assert (Hspinner : is_Some (document (showSlide n upd s) !! slideLoading)).
  { unfold showSlide. state_simpl. rewrite !update_is_Some.
    apply page_ready_lookup; [done | element_listed]. }
  set (shown := showSlide n upd s) in *. clearbody shown.
  destruct events as [| i events _] using rev_ind.
  { specialize (Hall PrevImage). by apply elem_of_nil in Hall. }
  rewrite foldl_app. cbn [foldl].
  set (before := foldl (fun s i => on_image_settled i s) shown events).
  assert (Hbefore : forall j,
            j = i \/ still_loading (document before) (slot_element j) = false).
  { intros j. specialize (Hall j). apply elem_of_app in Hall as [Hj | Hj].
    - right. apply images_settled. by left.
    - left. apply elem_of_cons in Hj as [Hj | Hj]; [done |].
      by apply elem_of_nil in Hj. }
  destruct (images_settled_keeps_state events shown) as [Hcur Hthere].
  fold before in Hcur, Hthere. specialize (Hthere Hspinner).
  clearbody before.
  assert (Hsettled : forall j,
            still_loading
              (update (slot_element i) (classList_remove "loading")
                 (document before)) (slot_element j) = false).
  { intros j. destruct (Hbefore j) as [-> | Hj].
    - apply still_loading_settled.
    - by apply still_loading_settled_other. }
  assert (Hnone : existsb
                    (still_loading
                       (update (slot_element i) (classList_remove "loading")
                          (document before)))
                    [slidePrev; slideCurrent; slideNext] = false).
    by apply none_loading.
  split; [| split].
  - unfold on_image_settled. rewrite document_checkAllImagesLoaded, document_on.
    rewrite Hnone. cbn [negb]. rewrite lookup_update.
    destruct Hthere as [el Hel].
    rewrite lookup_update_ne, Hel
      by (intros Heq; by apply (slot_element_not_spinner i)).
    cbn. apply lookup_insert_eq.
  - assert (Hafter : forall j,
              still_loading (document (on_image_settled i before))
                (slot_element j) = false).
    { intros j. destruct (Hbefore j) as [-> | Hj].
      - apply on_image_settled_self.
      - by apply on_image_settled_keeps. }
    by apply none_loading.
  - destruct (on_image_settled_keeps_state i before) as [-> _]. exact Hcur.
Qed.

End ViewerSpinner.

Section ViewerAddress.

Import JS Viewer.

Lemma split_go_nonempty (c : ascii) (cur s : string) : split_go c cur s <> [].
Proof.
  revert cur. induction s as [| a s IH]; intros cur; cbn [split_go]; [done |].
  destruct (Ascii.eqb a c); [done | apply IH].
Qed.

(** What follows the last separator is split on its own. *)
Lemma split_go_prefix (c : ascii) (t : string) :
  forall dir cur,
    exists l, split_go c cur (dir +:+ String c t) = l ++ split_go c "" t.
Proof.
  induction dir as [| a dir IH]; intros cur.
  - exists [cur]. change ("" +:+ String c t) with (String c t).
    cbn [split_go]. by rewrite Ascii.eqb_refl.
  - change (String a dir +:+ String c t) with (String a (dir +:+ String c t)).
    cbn [split_go]. destruct (Ascii.eqb a c).
    + destruct (IH "") as [l ->]. by exists (cur :: l).
    + apply IH.
Qed.

(** A separator at the very end adds one empty part. *)
Lemma split_go_trailing (c : ascii) (s : string) :
  forall cur x,
    split_go c cur s = [x] -> split_go c cur (s +:+ String c "") = [x; ""].
Proof.
  induction s as [| a s IH]; intros cur x.
  - change ("" +:+ String c "") with (String c ""). cbn [split_go].
    intros [= ->]. by rewrite Ascii.eqb_refl.
  - change (String a s +:+ String c "") with (String a (s +:+ String c "")).
    cbn [split_go]. destruct (Ascii.eqb a c); [| apply IH].
    intros [= -> Hrest]. by apply split_go_nonempty in Hrest.
Qed.

(** X30. The deck named by the address.  [location.pathname] is read as
    it stands, percent-encoded, and the [slide] parameter as
    [URLSearchParams.get] decodes it.  For a non-empty last path segment
    [segment] other than [viewer.html], the constructor takes [segment]
    as [slideName], with or without a slash after it and whatever the
    [slide] parameter says; for a path ending in [viewer.html], and for a
    path without segments, it takes the [slide] parameter, or the empty
    string when that is missing or empty. *)
Theorem deck_name_from_address (dir segment : string)
    (params : gmap string string) (page_title : string) (d : Document)
    (Hsegment : segment <> "")
    (Hplain : split "/" segment = [segment])
    (Hnot : segment <> "viewer.html") :
  slideName (new_SlidefViewer (dir +:+ "/" +:+ segment) params page_title d)
  = segment
  /\ slideName
       (new_SlidefViewer (dir +:+ "/" +:+ segment +:+ "/") params page_title d)
     = segment
  /\ slideName (new_SlidefViewer (dir +:+ "/viewer.html") params page_title d)
     = or_else (params !! "slide") ""
  /\ slideName (new_SlidefViewer "/" params page_title d)
     = or_else (params !! "slide") "".
Proof.
  assert (Htruthy : truthy segment = true) by by destruct segment.
  assert (Hother : String.eqb segment "viewer.html" = false)
    by by apply String.eqb_neq.
  unfold new_SlidefViewer. cbv zeta. cbn [slideName]. unfold split in *.
  split; [| split; [| split]].
  - destruct (split_go_prefix "/" segment dir "") as [l Hl].
    change (dir +:+ "/" +:+ segment) with (dir +:+ String "/" segment).
    rewrite Hl, Hplain, List.filter_app. cbn [List.filter].
    by rewrite Htruthy, last_snoc, Hother.
  - destruct (split_go_prefix "/" (segment +:+ "/") dir "") as [l Hl].
    change (dir +:+ "/" +:+ segment +:+ "/")
      with (dir +:+ String "/" (segment +:+ "/")).
    rewrite Hl, (split_go_trailing "/" segment "" segment Hplain),
      List.filter_app.
    cbn [List.filter truthy].
    by rewrite Htruthy, last_snoc, Hother.
  - destruct (split_go_prefix "/" "viewer.html" dir "") as [l Hl].
    change (dir +:+ "/viewer.html")
      with (dir +:+ String "/" "viewer.html").
    rewrite Hl, List.filter_app.
    change (List.filter truthy (split_go "/" "" "viewer.html"))
      with ["viewer.html"].
    by rewrite last_snoc.
  - reflexivity.
Qed.

End ViewerAddress.

Lemma spinner_hides_once_images_settle_witness :
  let s' :=
    foldl (fun s i => Viewer.on_image_settled i s)
      (Viewer.showSlide (JS.of_Z 2) true (Sample.opened Sample.deck5 ∅ 1280))
      [Viewer.NextImage; Viewer.CurrentImage; Viewer.NextImage;
       Viewer.PrevImage] in
  Viewer.document s' !! Viewer.slideLoading ≫= (fun el => style el !! "display")
  = Some (CssText "none")
  /\ existsb (Viewer.still_loading (Viewer.document s'))
       [Viewer.slidePrev; Viewer.slideCurrent; Viewer.slideNext]
     = false
  /\ Viewer.currentSlide s'
     = Viewer.currentSlide
         (Viewer.showSlide (JS.of_Z 2) true (Sample.opened Sample.deck5 ∅ 1280)).
Proof.
  apply (spinner_hides_once_images_settle (JS.of_Z 2) true
           (Sample.opened Sample.deck5 ∅ 1280)).
  - vm_compute. reflexivity.
  - intros []; element_listed.
Defined.

Lemma deck_name_from_address_witness :
  Viewer.slideName
    (Viewer.new_SlidefViewer ("/talks" +:+ "/" +:+ "my%20deck")
       {[ "slide" := "other" ]} "" ∅)
  = "my%20deck"
  /\ Viewer.slideName
       (Viewer.new_SlidefViewer ("/talks" +:+ "/" +:+ "my%20deck" +:+ "/")
          {[ "slide" := "other" ]} "" ∅)
     = "my%20deck"
  /\ Viewer.slideName
       (Viewer.new_SlidefViewer ("/talks" +:+ "/viewer.html")
          {[ "slide" := "other" ]} "" ∅)
     = JS.or_else (({[ "slide" := "other" ]} : gmap string string) !! "slide") ""
  /\ Viewer.slideName
       (Viewer.new_SlidefViewer "/" {[ "slide" := "other" ]} "" ∅)
     = JS.or_else (({[ "slide" := "other" ]} : gmap string string) !! "slide") "".
Proof.
  apply (deck_name_from_address "/talks" "my%20deck"
           {[ "slide" := "other" ]} "" ∅).
  - discriminate.
  - reflexivity.
  - discriminate.
Defined.
